(** * ShopNG: order totals, auction engine and review ratings

    A shallow embedding of the business-rule services of the ShopNG
    storefront:

    - [AuctionService] (src/app/services/auction.service.ts),
    - [OrderService]   (src/app/services/order.service.ts),
    - the order routes of the Express backend (routes/orders.js), run
      against a small model of the PostgreSQL tables created by seed.js,
    - [ReviewService]  (review.service.ts).

    Modelling conventions.

    - Identifiers and counters are integers ([Z]).
    - The order service, the order routes and the review service carry
      their money and ratings as rationals ([Q]) with numeric equality
      [==] ([Qeq]) and [Math.round x = floor (x + 1/2)].  That is what
      the doubles of the code give on the data these services hold
      (totals in whole cents, ratings from 1 to 5); a statement about an
      amount the caller supplies is made for amounts in whole cents.
    - The auction engine is embedded twice.  [AuctionService] has
      rational amounts and serves what does not depend on how amounts
      round and compare: statuses, cancellation, the ledger as a list,
      the lists the reads return.  [AuctionService64] has the amounts
      as IEEE 754 doubles ([Number.t]), NaN and the infinities
      included, and serves bidding, the least bid, rounding to cents,
      the winner of the sweep and the price invariant.
    - An ISO date string is represented by the value of
      [new Date(str).getTime()]: [Some ms], or [None] for a string that
      does not parse (Invalid Date, whose comparisons are all false).
    - [new Date()] is a clock reading handed to the operation as an
      argument, one argument per reading.
    - The services keep their arrays private and hand out copies
      ([{...a}]), so a service state changes through its methods only. *)

From Stdlib Require Import ZArith QArith Qround Qminmax List String Ascii Bool Lia Lqa.
From Stdlib Require Import Permutation Sorted SpecFloat.
Import ListNotations.

Local Open Scope Z_scope.

(** ** Numbers *)

Module Num.

(** [Math.round]. *)
Definition mathRound (x : Q) : Z := Qfloor (x + (1 # 2)).

(** [round2(n) = Math.round(n * 100) / 100]. *)
Definition round2 (n : Q) : Q := inject_Z (mathRound (n * 100)) / 100.

(** [Math.round(x * 10) / 10], the rounding of [getAverageRating]. *)
Definition round1 (x : Q) : Q := inject_Z (mathRound (x * 10)) / 10.

(** [a < b] on numbers. *)
Definition ltb (a b : Q) : bool := negb (Qle_bool b a).

(** [a > b] on numbers. *)
Definition gtb (a b : Q) : bool := ltb b a.

(** [a <= b] on numbers. *)
Definition leb (a b : Q) : bool := Qle_bool a b.

(** [x] is a whole number of cents. *)
Definition isCents (x : Q) : Prop := exists k : Z, x == inject_Z k / 100.

(** [Math.trunc], as used by [ToIntegerOrInfinity]. *)
Definition trunc (x : Q) : Z :=
  if Qle_bool 0 x then Qfloor x else Qceiling x.

End Num.

(** ** Numbers as the engine has them: IEEE 754 binary64

    The auction engine is also embedded with its amounts and prices as
    the [number]s they are at run time, to settle what depends on NaN,
    on the infinities and on rounding in binary: a double is a
    [spec_float] of the standard library's specification of IEEE 754
    arithmetic, at precision 53 and maximal exponent 1024, and [+], [-],
    [*], [/] and the comparisons are its correctly rounded operations. *)

Module Number.

Definition prec : Z := 53.
Definition emax : Z := 1024.

Definition t : Type := spec_float.

Definition NaN : t := S754_nan.

(** The double nearest to an integer; exact up to 2^53. *)
Definition ofZ (z : Z) : t := binary_normalize prec emax z 0 false.

Definition zero : t := ofZ 0.
Definition one : t := ofZ 1.

Definition add : t -> t -> t := SFadd prec emax.
Definition sub : t -> t -> t := SFsub prec emax.
Definition mul : t -> t -> t := SFmul prec emax.
Definition div : t -> t -> t := SFdiv prec emax.
Definition opp : t -> t := SFopp.

(** [a < b] and [a <= b]: false when either side is NaN. *)
Definition ltb : t -> t -> bool := SFltb.
Definition leb : t -> t -> bool := SFleb.

Definition isNaN (x : t) : bool :=
  match x with S754_nan => true | _ => false end.

(** The [spec_float]s that are doubles: the mantissa of a finite number
    has 53 bits, or fewer at the least exponent, and its exponent is in
    range. *)
Definition isDouble (x : t) : bool := valid_binary prec emax x.

(** The value of a decimal literal with numerator [n] over the power of
    ten [d], both below 2^53: the nearest double, which is what the
    correctly rounded quotient of the two integers is. *)
Definition dec (n : Z) (d : positive) : t := div (ofZ n) (ofZ (Zpos d)).

(** [Math.round]: the nearest integer, ties towards +infinity; a number
    with a non-negative exponent is an integer already.  The sign of a
    zero result is the sign of the argument. *)
Definition mathRound (x : t) : t :=
  match x with
  | S754_finite s m e =>
      if 0 <=? e then x
      else binary_normalize prec emax
             ((2 * cond_Zopp s (Zpos m) + 2 ^ (- e)) / 2 ^ (1 - e)) 0 s
  | _ => x
  end.

(** [Math.ceil]. *)
Definition mathCeil (x : t) : t :=
  match x with
  | S754_finite s m e =>
      if 0 <=? e then x
      else binary_normalize prec emax (- ((- cond_Zopp s (Zpos m)) / 2 ^ (- e))) 0 s
  | _ => x
  end.

(** [Math.trunc], as [ToIntegerOrInfinity] applies it; NaN gives 0.
    The infinities do not occur where it is used. *)
Definition trunc (x : t) : Z :=
  match x with
  | S754_finite s m e =>
      if 0 <=? e then cond_Zopp s (Zpos m * 2 ^ e)
      else cond_Zopp s (Zpos m / 2 ^ (- e))
  | _ => 0
  end.

(** [round2(n) = Math.round(n * 100) / 100]. *)
Definition round2 (n : t) : t := div (mathRound (mul n (ofZ 100))) (ofZ 100).

(** One step of [Math.max]: the larger of the two, [+0] above [-0]. *)
Definition max2 (highest x : t) : t :=
  match highest, x with
  | S754_zero true, S754_zero false => x
  | _, _ => if ltb highest x then x else highest
  end.

(** [Math.max(...l)]: NaN when an argument is NaN, -Infinity for no
    argument. *)
Definition mathMax (l : list t) : t :=
  if existsb isNaN l then NaN else fold_left max2 l (S754_infinity true).

End Number.

(** The order of the doubles. *)

Module NumberSpec.
(** The place of a number among the doubles, as a triple to be compared
    from left to right: the negative numbers, zero and the positive
    numbers, then exponent and mantissa.  The two zeros have one place;
    NaN has none and is given the place of zero. *)
Definition rank (x : Number.t) : Z * Z * Z :=
  match x with
  | S754_zero _ | S754_nan => (0, 0, 0)
  | S754_infinity s => (if s then -2 else 2, 0, 0)
  | S754_finite s m e => if s then (-1, - e, - Zpos m) else (1, e, Zpos m)
  end.

(** The triple [r] comes before [r']. *)
Definition below (r r' : Z * Z * Z) : Prop :=
  fst (fst r) < fst (fst r') \/
  (fst (fst r) = fst (fst r') /\
   (snd (fst r) < snd (fst r') \/ (snd (fst r) = snd (fst r') /\ snd r < snd r'))).
End NumberSpec.

(** ** JavaScript array, string and date helpers *)

Module Js.

(** The time value of [new Date(str)]; [None] is Invalid Date. *)
Definition Time := option Z.

(** [new Date(str) <= now], false for an invalid date. *)
Definition dateLe (d : Time) (now : Z) : bool :=
  match d with
  | Some t => t <=? now
  | None => false
  end.

(** The comparator [(a, b) => a.getTime() - b.getTime()] read as
    "a is not after b"; a NaN difference counts as 0. *)
Definition timeAsc (a b : Time) : bool :=
  match a, b with
  | Some x, Some y => x - y <=? 0
  | _, _ => true
  end.

(** The comparator [(a, b) => b.getTime() - a.getTime()]. *)
Definition timeDesc (a b : Time) : bool := timeAsc b a.

Section Arrays.
Context {A : Type}.

(** [Array.prototype.sort] is stable: an element moves in front of a
    later one only when the comparator is positive.  [before x y]
    holds when [compare(x, y) <= 0]. *)
Fixpoint insertSorted (before : A -> A -> bool) (x : A) (l : list A) : list A :=
  match l with
  | [] => [x]
  | y :: l' => if before x y then x :: y :: l' else y :: insertSorted before x l'
  end.

Definition sort (before : A -> A -> bool) (l : list A) : list A :=
  fold_right (insertSorted before) [] l.

(** Assignment through the reference returned by [find]: the first
    element that satisfies [p] is replaced by its image under [f]. *)
Fixpoint updateFirst (p : A -> bool) (f : A -> A) (l : list A) : list A :=
  match l with
  | [] => []
  | x :: l' => if p x then f x :: l' else x :: updateFirst p f l'
  end.

(** [Array.prototype.findIndex], [None] for -1. *)
Fixpoint findIndex (p : A -> bool) (l : list A) : option nat :=
  match l with
  | [] => None
  | x :: l' => if p x then Some O
               else match findIndex p l' with
                    | Some i => Some (S i)
                    | None => None
                    end
  end.

(** [arr[i] = v] for an index inside the array. *)
Fixpoint setAt (i : nat) (v : A) (l : list A) : list A :=
  match l, i with
  | [], _ => []
  | _ :: l', O => v :: l'
  | x :: l', S j => x :: setAt j v l'
  end.

(** [[...new Set(l)]]: first occurrences, in order. *)
Fixpoint unique (eqb : A -> A -> bool) (l : list A) : list A :=
  match l with
  | [] => []
  | x :: l' => x :: filter (fun y => negb (eqb x y)) (unique eqb l')
  end.
End Arrays.

(** [includes] on an array of numbers. *)
Definition includesZ (l : list Z) (x : Z) : bool := existsb (Z.eqb x) l.

(** [String.prototype.toLowerCase] on the ASCII letters; other
    characters are left as they are. *)
Definition lowerChar (c : ascii) : ascii :=
  let n := nat_of_ascii c in
  if (Nat.leb 65 n && Nat.leb n 90)%bool then ascii_of_nat (n + 32) else c.

Fixpoint toLowerCase (s : string) : string :=
  match s with
  | EmptyString => EmptyString
  | String c s' => String (lowerChar c) (toLowerCase s')
  end.

(** [hay.includes(needle)]. *)
Fixpoint includes (needle hay : string) : bool :=
  if String.prefix needle hay then true
  else match hay with
       | EmptyString => false
       | String _ hay' => includes needle hay'
       end.

(** [Math.max(...l)] for a non-empty argument list. *)
Definition mathMax (x : Q) (l : list Q) : Q := fold_left Qmax l x.

End Js.

(** ** Error classes of the engines

    The services reject with plain objects ([{ error: '...' }], or an
    HTTP status in the backend).  The classes are the taxonomy the
    engines' contract uses for them: 400, 404, 403, 409 and 500. *)

Inductive ErrorClass :=
| ValidationError
| NotFoundError
| ForbiddenError
| ConflictError
| InternalError.

(** What a method call produces: an RxJS observable that emits one value
    ([of(v)], here [ofValue]) or errors ([throwError(...)]); a method can also end in an
    uncaught [TypeError]. *)
Inductive Observable (T E : Type) :=
| ofValue (v : T)
| throwError (e : E).
Arguments ofValue {T E} v.
Arguments throwError {T E} e.

Inductive Completion (T : Type) :=
| Normal (v : T)
| TypeError.
Arguments Normal {T} v.
Arguments TypeError {T}.

(** ** AuctionService (auction.service.ts) *)

Module AuctionService.

Inductive AuctionStatus := active | ended | sold | cancelled.

Definition statusEqb (a b : AuctionStatus) : bool :=
  match a, b with
  | active, active | ended, ended | sold, sold | cancelled, cancelled => true
  | _, _ => false
  end.

Record Auction := mkAuction {
  id : Z;
  sellerId : Z;
  sellerName : string;
  title : string;
  description : string;
  imageUrl : string;
  category : string;
  startingPrice : Q;
  currentPrice : Q;
  bidCount : Z;
  status : AuctionStatus;
  createdAt : Js.Time;
  endsAt : Js.Time;
  winnerId : option Z;
  winnerName : option string
}.

Record Bid := mkBid {
  bidId : Z;
  auctionId : Z;
  bidderId : Z;
  bidderName : string;
  amount : Q;
  bidCreatedAt : Js.Time
}.

(** The private fields of the service. *)
Record State := mkState {
  auctions : list Auction;
  bids : list Bid;
  nextAuctionId : Z;
  nextBidId : Z
}.

(** The objects handed to [throwError]. *)
Inductive Error :=
| AuctionNotFound404      (* { status: 404, error: 'Auction not found' } *)
| AuctionNotFound         (* { error: 'Auction not found' } *)
| NoLongerActive          (* 'This auction is no longer active' *)
| HasEnded                (* 'This auction has ended' *)
| OwnAuction              (* 'You cannot bid on your own auction' *)
| BidTooLow (minBid : Q)  (* `Bid must be at least $${minBid.toFixed(2)}` *)
| NotYourAuction          (* 'You can only cancel your own auctions' *)
| OnlyActiveCancellable.  (* 'Only active auctions can be cancelled' *)

(** The class of each rejection in the engine's contract: 404 for an
    absent auction, 409 for an inactive or expired one, 403 for a
    requester who is not entitled, 400 for an amount that is too low. *)
Definition classify (e : Error) : ErrorClass :=
  match e with
  | AuctionNotFound404 | AuctionNotFound => NotFoundError
  | NoLongerActive | HasEnded | OnlyActiveCancellable => ConflictError
  | OwnAuction | NotYourAuction => ForbiddenError
  | BidTooLow _ => ValidationError
  end.

Definition Result (T : Type) := Completion (Observable T Error).

(** *** Field assignments *)

(** [auction.status = st]. *)
Definition setStatus (st : AuctionStatus) (a : Auction) : Auction :=
  mkAuction (id a) (sellerId a) (sellerName a) (title a) (description a)
    (imageUrl a) (category a) (startingPrice a) (currentPrice a) (bidCount a)
    st (createdAt a) (endsAt a) (winnerId a) (winnerName a).

(** [auction.winnerId = b.bidderId; auction.winnerName = b.bidderName]. *)
Definition setWinner (b : Bid) (a : Auction) : Auction :=
  mkAuction (id a) (sellerId a) (sellerName a) (title a) (description a)
    (imageUrl a) (category a) (startingPrice a) (currentPrice a) (bidCount a)
    (status a) (createdAt a) (endsAt a) (Some (bidderId b)) (Some (bidderName b)).

(** [auction.currentPrice = bid.amount; auction.bidCount++]. *)
Definition recordBid (b : Bid) (a : Auction) : Auction :=
  mkAuction (id a) (sellerId a) (sellerName a) (title a) (description a)
    (imageUrl a) (category a) (startingPrice a) (amount b) (bidCount a + 1)
    (status a) (createdAt a) (endsAt a) (winnerId a) (winnerName a).

Definition setAuctions (l : list Auction) (s : State) : State :=
  mkState l (bids s) (nextAuctionId s) (nextBidId s).

(** *** Auto-expiration *)

(** [this.bids.filter(b => b.auctionId === id)]. *)
Definition bidsOf (aid : Z) (bs : list Bid) : list Bid :=
  filter (fun b => auctionId b =? aid) bs.

(** The comparator [(a, b) => b.amount - a.amount]. *)
Definition amountDesc (a b : Bid) : bool := Num.leb (amount b - amount a) 0.

(** [bids.filter(b => b.auctionId === id).sort(...)[0]]. *)
Definition topBid (aid : Z) (bs : list Bid) : option Bid :=
  hd_error (Js.sort amountDesc (bidsOf aid bs)).

(** The condition of the sweep:
    [auction.status === 'active' && new Date(auction.endsAt) <= now]. *)
Definition expired (now : Z) (a : Auction) : bool :=
  statusEqb (status a) active && Js.dateLe (endsAt a) now.

(** The [forEach] of [checkAndEndAuctions] over the auctions from some
    position on.  The boolean tells whether the loop ran to its end:
    when an auction counts bids but the ledger holds none for it,
    [topBid] is [undefined] and reading [topBid.bidderId] throws, after
    the status was already set, and the auctions behind it are not
    visited. *)
Fixpoint sweep (now : Z) (bs : list Bid) (l : list Auction) : list Auction * bool :=
  match l with
  | [] => ([], true)
  | a :: rest =>
      if expired now a then
        if bidCount a >? 0 then
          match topBid (id a) bs with
          | Some top =>
              let (rest', ok) := sweep now bs rest in
              (setWinner top (setStatus sold a) :: rest', ok)
          | None => (setStatus sold a :: rest, false)
          end
        else
          let (rest', ok) := sweep now bs rest in
          (setStatus ended a :: rest', ok)
      else
        let (rest', ok) := sweep now bs rest in
        (a :: rest', ok)
  end.

Definition checkAndEndAuctions (now : Z) (s : State) : State * bool :=
  let (l, ok) := sweep now (bids s) (auctions s) in
  (setAuctions l s, ok).

(** Runs the sweep and then the rest of the method on the swept state. *)
Definition afterSweep {T : Type} (now : Z) (s : State)
    (k : State -> State * Result T) : State * Result T :=
  let (s1, ok) := checkAndEndAuctions now s in
  if ok then k s1 else (s1, TypeError).

(** *** Reads *)

Definition findAuction (aid : Z) (s : State) : option Auction :=
  find (fun a => id a =? aid) (auctions s).

Definition getActiveAuctions (now : Z) (s : State) : State * Result (list Auction) :=
  afterSweep now s (fun s1 =>
    (s1, Normal (ofValue
      (Js.sort (fun a b => Js.timeAsc (endsAt a) (endsAt b))
         (filter (fun a => statusEqb (status a) active) (auctions s1)))))).

Definition getAllAuctions (now : Z) (s : State) : State * Result (list Auction) :=
  afterSweep now s (fun s1 =>
    (s1, Normal (ofValue
      (Js.sort (fun a b => Js.timeDesc (createdAt a) (createdAt b)) (auctions s1))))).

Definition getAuctionById (now : Z) (aid : Z) (s : State) : State * Result Auction :=
  afterSweep now s (fun s1 =>
    match findAuction aid s1 with
    | None => (s1, Normal (throwError AuctionNotFound404))
    | Some a => (s1, Normal (ofValue a))
    end).

Definition getAuctionsBySeller (now : Z) (seller : Z) (s : State)
    : State * Result (list Auction) :=
  afterSweep now s (fun s1 =>
    (s1, Normal (ofValue
      (Js.sort (fun a b => Js.timeDesc (createdAt a) (createdAt b))
         (filter (fun a => sellerId a =? seller) (auctions s1)))))).

Definition getAuctionsByBidder (now : Z) (bidder : Z) (s : State)
    : State * Result (list Auction) :=
  afterSweep now s (fun s1 =>
    let bidAuctionIds :=
      Js.unique Z.eqb
        (map auctionId (filter (fun b => bidderId b =? bidder) (bids s1))) in
    (s1, Normal (ofValue
      (Js.sort (fun a b => Js.timeDesc (createdAt a) (createdAt b))
         (filter (fun a => Js.includesZ bidAuctionIds (id a)) (auctions s1)))))).

(** No sweep here. *)
Definition getBidsByAuction (aid : Z) (s : State) : State * Result (list Bid) :=
  (s, Normal (ofValue
    (Js.sort (fun a b => Js.timeDesc (bidCreatedAt a) (bidCreatedAt b))
       (bidsOf aid (bids s))))).

Definition searchAuctions (now : Z) (term : string) (s : State)
    : State * Result (list Auction) :=
  afterSweep now s (fun s1 =>
    let lower := Js.toLowerCase term in
    (s1, Normal (ofValue
      (filter (fun a =>
         Js.includes lower (Js.toLowerCase (title a))
         || Js.includes lower (Js.toLowerCase (description a))
         || Js.includes lower (Js.toLowerCase (sellerName a))
         || Js.includes lower (Js.toLowerCase (category a)))
         (auctions s1))))).

(** [[...new Set(categories)].sort()]. *)
Definition getCategories (s : State) : list string :=
  Js.sort String.leb (Js.unique String.eqb (map category (auctions s))).

Definition getUserHighestBid (aid user : Z) (s : State) : Q :=
  match map amount (filter (fun b => (auctionId b =? aid) && (bidderId b =? user)) (bids s)) with
  | [] => 0%Q
  | x :: l => Js.mathMax x l
  end.

Definition isHighestBidder (aid user : Z) (s : State) : bool :=
  match findAuction aid s with
  | None => false
  | Some a =>
      if bidCount a =? 0 then false
      else match topBid aid (bids s) with
           | Some top => bidderId top =? user
           | None => false
           end
  end.

Definition getAuctionCount (s : State) : Z := Z.of_nat (List.length (auctions s)).

Definition getActiveAuctionCount (now : Z) (s : State) : State * Completion Z :=
  let (s1, ok) := checkAndEndAuctions now s in
  if ok
  then (s1, Normal (Z.of_nat (List.length (filter (fun a => statusEqb (status a) active) (auctions s1)))))
  else (s1, TypeError).

Definition getTotalBidCount (s : State) : Z := Z.of_nat (List.length (bids s)).

(** *** Create *)

Record NewAuction := mkNewAuction {
  newSellerId : Z;
  newSellerName : string;
  newTitle : string;
  newDescription : string;
  newImageUrl : string;
  newCategory : string;
  newStartingPrice : Q;
  newEndsAt : Js.Time
}.

(** [now] is the reading behind [createdAt]. *)
Definition createAuction (now : Z) (data : NewAuction) (s : State)
    : State * Result Auction :=
  let auction :=
    mkAuction (nextAuctionId s) (newSellerId data) (newSellerName data)
      (newTitle data) (newDescription data)
      (if String.eqb (newImageUrl data) EmptyString
       then "https://picsum.photos/seed/auction-default/600/400"%string
       else newImageUrl data)
      (newCategory data)
      (Num.round2 (newStartingPrice data))
      (Num.round2 (newStartingPrice data))
      0 active (Some now) (newEndsAt data) None None in
  (mkState (auctions s ++ [auction]) (bids s) (nextAuctionId s + 1) (nextBidId s),
   Normal (ofValue auction)).

(** [now] is the reading of the sweep, [now'] the one of the deadline
    test, [now''] the one behind the bid's [createdAt]. *)
Definition placeBid (now now' now'' : Z) (aid bidder : Z) (name : string)
    (amt : Q) (s : State) : State * Result Bid :=
  afterSweep now s (fun s1 =>
    match findAuction aid s1 with
    | None => (s1, Normal (throwError AuctionNotFound))
    | Some auction =>
        if negb (statusEqb (status auction) active) then
          (s1, Normal (throwError NoLongerActive))
        else if Js.dateLe (endsAt auction) now' then
          (s1, Normal (throwError HasEnded))
        else if sellerId auction =? bidder then
          (s1, Normal (throwError OwnAuction))
        else
          let minBid := Num.round2 (currentPrice auction + 1) in
          if Num.ltb amt minBid then
            (s1, Normal (throwError (BidTooLow minBid)))
          else
            let bid := mkBid (nextBidId s1) aid bidder name (Num.round2 amt) (Some now'') in
            (mkState
               (Js.updateFirst (fun a => id a =? aid) (recordBid bid) (auctions s1))
               (bids s1 ++ [bid])
               (nextAuctionId s1)
               (nextBidId s1 + 1),
             Normal (ofValue bid))
    end).

(** *** Update *)

Definition cancelAuction (aid seller : Z) (s : State) : State * Result Auction :=
  match findAuction aid s with
  | None => (s, Normal (throwError AuctionNotFound))
  | Some auction =>
      if negb (sellerId auction =? seller) then
        (s, Normal (throwError NotYourAuction))
      else if negb (statusEqb (status auction) active) then
        (s, Normal (throwError OnlyActiveCancellable))
      else
        (setAuctions
           (Js.updateFirst (fun a => id a =? aid) (setStatus cancelled) (auctions s)) s,
         Normal (ofValue (setStatus cancelled auction)))
  end.

Definition updateAuctionStatus (aid : Z) (st : AuctionStatus) (s : State)
    : State * Result Auction :=
  match findAuction aid s with
  | None => (s, Normal (throwError AuctionNotFound))
  | Some auction =>
      (setAuctions
         (Js.updateFirst (fun a => id a =? aid) (setStatus st) (auctions s)) s,
       Normal (ofValue (setStatus st auction)))
  end.

(** *** The public interface as a transition system *)

Inductive Call :=
| GetActiveAuctions (now : Z)
| GetAllAuctions (now : Z)
| GetAuctionById (now aid : Z)
| GetAuctionsBySeller (now seller : Z)
| GetAuctionsByBidder (now bidder : Z)
| GetBidsByAuction (aid : Z)
| SearchAuctions (now : Z) (term : string)
| GetCategories
| GetUserHighestBid (aid user : Z)
| IsHighestBidder (aid user : Z)
| CreateAuction (now : Z) (data : NewAuction)
| PlaceBid (now now' now'' aid bidder : Z) (name : string) (amt : Q)
| CancelAuction (aid seller : Z)
| UpdateAuctionStatus (aid : Z) (st : AuctionStatus)
| GetAuctionCount
| GetActiveAuctionCount (now : Z)
| GetTotalBidCount.

(** The service state a call leaves behind. *)
Definition run (c : Call) (s : State) : State :=
  match c with
  | GetActiveAuctions now => fst (getActiveAuctions now s)
  | GetAllAuctions now => fst (getAllAuctions now s)
  | GetAuctionById now aid => fst (getAuctionById now aid s)
  | GetAuctionsBySeller now seller => fst (getAuctionsBySeller now seller s)
  | GetAuctionsByBidder now bidder => fst (getAuctionsByBidder now bidder s)
  | GetBidsByAuction aid => fst (getBidsByAuction aid s)
  | SearchAuctions now term => fst (searchAuctions now term s)
  | GetCategories => s
  | GetUserHighestBid _ _ => s
  | IsHighestBidder _ _ => s
  | CreateAuction now data => fst (createAuction now data s)
  | PlaceBid now now' now'' aid bidder name amt =>
      fst (placeBid now now' now'' aid bidder name amt s)
  | CancelAuction aid seller => fst (cancelAuction aid seller s)
  | UpdateAuctionStatus aid st => fst (updateAuctionStatus aid st s)
  | GetAuctionCount => s
  | GetActiveAuctionCount now => fst (getActiveAuctionCount now s)
  | GetTotalBidCount => s
  end.

(** The calls that are reads: everything but the four mutators. *)
Definition isRead (c : Call) : bool :=
  match c with
  | CreateAuction _ _ | PlaceBid _ _ _ _ _ _ _
  | CancelAuction _ _ | UpdateAuctionStatus _ _ => false
  | _ => true
  end.

(** The reads whose body starts with [this.checkAndEndAuctions()]. *)
Definition sweepTime (c : Call) : option Z :=
  match c with
  | GetActiveAuctions now | GetAllAuctions now | GetAuctionById now _
  | GetAuctionsBySeller now _ | GetAuctionsByBidder now _
  | SearchAuctions now _ | GetActiveAuctionCount now => Some now
  | _ => None
  end.

(** *** Seed data

    [loaded] is the clock reading when the module is evaluated and
    [hour] the local hour of the day at that moment: [setHours] keeps
    the integer part of [getHours() + hours].  Daylight-saving shifts
    are not modelled. *)

Section Seed.
Variables (loaded hour : Z).

Definition hoursFromNow (hours : Q) : Js.Time :=
  Some (loaded + (Num.trunc (inject_Z hour + hours) - hour) * 3600000).

Definition daysFromNow (days : Q) : Js.Time := hoursFromNow (days * 24).

Definition daysAgo (days : Q) : Js.Time := hoursFromNow (- days * 24).

Definition SEED_AUCTIONS : list Auction :=
  [ mkAuction 1 100 "Jane S." "Vintage Mechanical Keyboard"
      "A beautiful Cherry MX Blue mechanical keyboard from the 1990s. Fully restored, all keys tested and working. Includes original keycaps and a custom USB adapter. Perfect for collectors or enthusiasts who love that classic clicky feel."
      "https://picsum.photos/seed/mech-keyboard/600/400" "Electronics"
      45 78 4 active (daysAgo 3) (daysFromNow 2) None None;
    mkAuction 2 998 "Demo U." "Limited Edition Sneakers"
      "Brand new, never worn limited edition running sneakers. Size 10. Released as part of a collaboration with a famous designer. Original box and authentication card included. Only 500 pairs made worldwide."
      "https://picsum.photos/seed/ltd-sneakers/600/400" "Clothing"
      120 185 3 active (daysAgo 2) (hoursFromNow 5) None None;
    mkAuction 3 101 "Mark J." "First Edition Novel Collection"
      "A curated set of 5 first edition novels from the 1960s. All in excellent condition with original dust jackets. Includes works by acclaimed authors. A must-have for any serious book collector."
      "https://picsum.photos/seed/first-editions/600/400" "Books"
      60 95 3 active (daysAgo 4) (daysFromNow 1) None None;
    mkAuction 4 102 "Sarah W." "Handmade Ceramic Vase Set"
      "Set of 3 handmade ceramic vases in earth tones. Each piece is unique with a slightly different glaze pattern. Perfect for modern or rustic home decor. Signed by the artist on the bottom."
      "https://picsum.photos/seed/ceramic-vases/600/400" "Home"
      35 52 2 active (daysAgo 1) (daysFromNow 3) None None;
    mkAuction 5 998 "Demo U." "Retro Gaming Console Bundle"
      "Classic 16-bit gaming console with 2 controllers, power adapter, and 8 cartridge games. All tested and working. Console has been cleaned inside and out. Minor cosmetic wear consistent with age."
      "https://picsum.photos/seed/retro-console/600/400" "Electronics"
      80 145 5 sold (daysAgo 10) (daysAgo 1) (Some 101) (Some "Mark J."%string);
    mkAuction 6 100 "Jane S." "Designer Sunglasses"
      "Authentic designer sunglasses with polarized lenses. Comes with original case and cleaning cloth. Barely used — selling because they don't fit my face shape. Retail price was $220."
      "https://picsum.photos/seed/designer-shades/600/400" "Clothing"
      55 55 0 cancelled (daysAgo 7) (daysAgo 2) None None ].

Definition SEED_BIDS : list Bid :=
  [ mkBid 1 1 998 "Demo U." 50 (daysAgo 2.5);
    mkBid 2 1 101 "Mark J." 58 (daysAgo 2);
    mkBid 3 1 102 "Sarah W." 65 (daysAgo 1.5);
    mkBid 4 1 998 "Demo U." 78 (daysAgo 1);
    mkBid 5 2 100 "Jane S." 135 (daysAgo 1.5);
    mkBid 6 2 101 "Mark J." 155 (daysAgo 1);
    mkBid 7 2 100 "Jane S." 185 (daysAgo 0.5);
    mkBid 8 3 998 "Demo U." 70 (daysAgo 3);
    mkBid 9 3 102 "Sarah W." 82 (daysAgo 2);
    mkBid 10 3 998 "Demo U." 95 (daysAgo 1);
    mkBid 11 4 998 "Demo U." 42 (daysAgo 0.8);
    mkBid 12 4 100 "Jane S." 52 (daysAgo 0.3);
    mkBid 13 5 100 "Jane S." 90 (daysAgo 8);
    mkBid 14 5 101 "Mark J." 105 (daysAgo 6);
    mkBid 15 5 102 "Sarah W." 120 (daysAgo 4);
    mkBid 16 5 100 "Jane S." 132 (daysAgo 3);
    mkBid 17 5 101 "Mark J." 145 (daysAgo 2) ].

(** The field initialisers of the class. *)
Definition initialState : State := mkState SEED_AUCTIONS SEED_BIDS 7 18.

(** The states the service can be in: the initial one and whatever a
    sequence of calls makes of it. *)
Inductive reachable : State -> Prop :=
| reach_init : reachable initialState
| reach_call c s : reachable s -> reachable (run c s).
End Seed.

End AuctionService.

(** ** AuctionService with its numbers in binary64

    The same methods, translated line by line as above, with every
    amount and price a [Number.t]. *)

Module AuctionService64.

Inductive AuctionStatus := active | ended | sold | cancelled.

Definition statusEqb (a b : AuctionStatus) : bool :=
  match a, b with
  | active, active | ended, ended | sold, sold | cancelled, cancelled => true
  | _, _ => false
  end.

Record Auction := mkAuction {
  id : Z;
  sellerId : Z;
  sellerName : string;
  title : string;
  description : string;
  imageUrl : string;
  category : string;
  startingPrice : Number.t;
  currentPrice : Number.t;
  bidCount : Z;
  status : AuctionStatus;
  createdAt : Js.Time;
  endsAt : Js.Time;
  winnerId : option Z;
  winnerName : option string
}.

Record Bid := mkBid {
  bidId : Z;
  auctionId : Z;
  bidderId : Z;
  bidderName : string;
  amount : Number.t;
  bidCreatedAt : Js.Time
}.

(** The private fields of the service. *)
Record State := mkState {
  auctions : list Auction;
  bids : list Bid;
  nextAuctionId : Z;
  nextBidId : Z
}.

(** The objects handed to [throwError]. *)
Inductive Error :=
| AuctionNotFound404      (* { status: 404, error: 'Auction not found' } *)
| AuctionNotFound         (* { error: 'Auction not found' } *)
| NoLongerActive          (* 'This auction is no longer active' *)
| HasEnded                (* 'This auction has ended' *)
| OwnAuction              (* 'You cannot bid on your own auction' *)
| BidTooLow (minBid : Number.t)  (* `Bid must be at least $${minBid.toFixed(2)}` *)
| NotYourAuction          (* 'You can only cancel your own auctions' *)
| OnlyActiveCancellable.  (* 'Only active auctions can be cancelled' *)

(** The class of each rejection in the engine's contract: 404 for an
    absent auction, 409 for an inactive or expired one, 403 for a
    requester who is not entitled, 400 for an amount that is too low. *)
Definition classify (e : Error) : ErrorClass :=
  match e with
  | AuctionNotFound404 | AuctionNotFound => NotFoundError
  | NoLongerActive | HasEnded | OnlyActiveCancellable => ConflictError
  | OwnAuction | NotYourAuction => ForbiddenError
  | BidTooLow _ => ValidationError
  end.

Definition Result (T : Type) := Completion (Observable T Error).

(** *** Field assignments *)

(** [auction.status = st]. *)
Definition setStatus (st : AuctionStatus) (a : Auction) : Auction :=
  mkAuction (id a) (sellerId a) (sellerName a) (title a) (description a)
    (imageUrl a) (category a) (startingPrice a) (currentPrice a) (bidCount a)
    st (createdAt a) (endsAt a) (winnerId a) (winnerName a).

(** [auction.winnerId = b.bidderId; auction.winnerName = b.bidderName]. *)
Definition setWinner (b : Bid) (a : Auction) : Auction :=
  mkAuction (id a) (sellerId a) (sellerName a) (title a) (description a)
    (imageUrl a) (category a) (startingPrice a) (currentPrice a) (bidCount a)
    (status a) (createdAt a) (endsAt a) (Some (bidderId b)) (Some (bidderName b)).

(** [auction.currentPrice = bid.amount; auction.bidCount++]. *)
Definition recordBid (b : Bid) (a : Auction) : Auction :=
  mkAuction (id a) (sellerId a) (sellerName a) (title a) (description a)
    (imageUrl a) (category a) (startingPrice a) (amount b) (bidCount a + 1)
    (status a) (createdAt a) (endsAt a) (winnerId a) (winnerName a).

Definition setAuctions (l : list Auction) (s : State) : State :=
  mkState l (bids s) (nextAuctionId s) (nextBidId s).

(** *** Auto-expiration *)

(** [this.bids.filter(b => b.auctionId === id)]. *)
Definition bidsOf (aid : Z) (bs : list Bid) : list Bid :=
  filter (fun b => auctionId b =? aid) bs.

(** The comparator [(a, b) => b.amount - a.amount], read as "a is not
    after b": the difference is not above 0.  A NaN difference counts
    as 0, as [sort] takes it. *)
Definition amountDesc (a b : Bid) : bool :=
  negb (Number.ltb Number.zero (Number.sub (amount b) (amount a))).

(** [bids.filter(b => b.auctionId === id).sort(...)[0]].  [sort] is
    stable, and where the comparator orders the amounts, as it does
    when none of them is NaN, the first element is a bid of the highest
    amount.  With a NaN amount among several the comparator is not an
    order and the result of [sort] is the engine's choice; what is
    stated of the winner is stated for amounts the comparator orders. *)
Definition topBid (aid : Z) (bs : list Bid) : option Bid :=
  hd_error (Js.sort amountDesc (bidsOf aid bs)).

(** The condition of the sweep:
    [auction.status === 'active' && new Date(auction.endsAt) <= now]. *)
Definition expired (now : Z) (a : Auction) : bool :=
  statusEqb (status a) active && Js.dateLe (endsAt a) now.

(** The [forEach] of [checkAndEndAuctions] over the auctions from some
    position on.  The boolean tells whether the loop ran to its end:
    when an auction counts bids but the ledger holds none for it,
    [topBid] is [undefined] and reading [topBid.bidderId] throws, after
    the status was already set, and the auctions behind it are not
    visited. *)
Fixpoint sweep (now : Z) (bs : list Bid) (l : list Auction) : list Auction * bool :=
  match l with
  | [] => ([], true)
  | a :: rest =>
      if expired now a then
        if bidCount a >? 0 then
          match topBid (id a) bs with
          | Some top =>
              let (rest', ok) := sweep now bs rest in
              (setWinner top (setStatus sold a) :: rest', ok)
          | None => (setStatus sold a :: rest, false)
          end
        else
          let (rest', ok) := sweep now bs rest in
          (setStatus ended a :: rest', ok)
      else
        let (rest', ok) := sweep now bs rest in
        (a :: rest', ok)
  end.

Definition checkAndEndAuctions (now : Z) (s : State) : State * bool :=
  let (l, ok) := sweep now (bids s) (auctions s) in
  (setAuctions l s, ok).

(** Runs the sweep and then the rest of the method on the swept state. *)
Definition afterSweep {T : Type} (now : Z) (s : State)
    (k : State -> State * Result T) : State * Result T :=
  let (s1, ok) := checkAndEndAuctions now s in
  if ok then k s1 else (s1, TypeError).

(** *** Reads *)

Definition findAuction (aid : Z) (s : State) : option Auction :=
  find (fun a => id a =? aid) (auctions s).

Definition getActiveAuctions (now : Z) (s : State) : State * Result (list Auction) :=
  afterSweep now s (fun s1 =>
    (s1, Normal (ofValue
      (Js.sort (fun a b => Js.timeAsc (endsAt a) (endsAt b))
         (filter (fun a => statusEqb (status a) active) (auctions s1)))))).

Definition getAllAuctions (now : Z) (s : State) : State * Result (list Auction) :=
  afterSweep now s (fun s1 =>
    (s1, Normal (ofValue
      (Js.sort (fun a b => Js.timeDesc (createdAt a) (createdAt b)) (auctions s1))))).

Definition getAuctionById (now : Z) (aid : Z) (s : State) : State * Result Auction :=
  afterSweep now s (fun s1 =>
    match findAuction aid s1 with
    | None => (s1, Normal (throwError AuctionNotFound404))
    | Some a => (s1, Normal (ofValue a))
    end).

Definition getAuctionsBySeller (now : Z) (seller : Z) (s : State)
    : State * Result (list Auction) :=
  afterSweep now s (fun s1 =>
    (s1, Normal (ofValue
      (Js.sort (fun a b => Js.timeDesc (createdAt a) (createdAt b))
         (filter (fun a => sellerId a =? seller) (auctions s1)))))).

Definition getAuctionsByBidder (now : Z) (bidder : Z) (s : State)
    : State * Result (list Auction) :=
  afterSweep now s (fun s1 =>
    let bidAuctionIds :=
      Js.unique Z.eqb
        (map auctionId (filter (fun b => bidderId b =? bidder) (bids s1))) in
    (s1, Normal (ofValue
      (Js.sort (fun a b => Js.timeDesc (createdAt a) (createdAt b))
         (filter (fun a => Js.includesZ bidAuctionIds (id a)) (auctions s1)))))).

(** No sweep here. *)
Definition getBidsByAuction (aid : Z) (s : State) : State * Result (list Bid) :=
  (s, Normal (ofValue
    (Js.sort (fun a b => Js.timeDesc (bidCreatedAt a) (bidCreatedAt b))
       (bidsOf aid (bids s))))).

Definition searchAuctions (now : Z) (term : string) (s : State)
    : State * Result (list Auction) :=
  afterSweep now s (fun s1 =>
    let lower := Js.toLowerCase term in
    (s1, Normal (ofValue
      (filter (fun a =>
         Js.includes lower (Js.toLowerCase (title a))
         || Js.includes lower (Js.toLowerCase (description a))
         || Js.includes lower (Js.toLowerCase (sellerName a))
         || Js.includes lower (Js.toLowerCase (category a)))
         (auctions s1))))).

(** [[...new Set(categories)].sort()]. *)
Definition getCategories (s : State) : list string :=
  Js.sort String.leb (Js.unique String.eqb (map category (auctions s))).

Definition getUserHighestBid (aid user : Z) (s : State) : Number.t :=
  match map amount (filter (fun b => (auctionId b =? aid) && (bidderId b =? user)) (bids s)) with
  | [] => Number.zero
  | x :: l => Number.mathMax (x :: l)
  end.

Definition isHighestBidder (aid user : Z) (s : State) : bool :=
  match findAuction aid s with
  | None => false
  | Some a =>
      if bidCount a =? 0 then false
      else match topBid aid (bids s) with
           | Some top => bidderId top =? user
           | None => false
           end
  end.

Definition getAuctionCount (s : State) : Z := Z.of_nat (List.length (auctions s)).

Definition getActiveAuctionCount (now : Z) (s : State) : State * Completion Z :=
  let (s1, ok) := checkAndEndAuctions now s in
  if ok
  then (s1, Normal (Z.of_nat (List.length (filter (fun a => statusEqb (status a) active) (auctions s1)))))
  else (s1, TypeError).

Definition getTotalBidCount (s : State) : Z := Z.of_nat (List.length (bids s)).

(** *** Create *)

Record NewAuction := mkNewAuction {
  newSellerId : Z;
  newSellerName : string;
  newTitle : string;
  newDescription : string;
  newImageUrl : string;
  newCategory : string;
  newStartingPrice : Number.t;
  newEndsAt : Js.Time
}.

(** [now] is the reading behind [createdAt]. *)
Definition createAuction (now : Z) (data : NewAuction) (s : State)
    : State * Result Auction :=
  let auction :=
    mkAuction (nextAuctionId s) (newSellerId data) (newSellerName data)
      (newTitle data) (newDescription data)
      (if String.eqb (newImageUrl data) EmptyString
       then "https://picsum.photos/seed/auction-default/600/400"%string
       else newImageUrl data)
      (newCategory data)
      (Number.round2 (newStartingPrice data))
      (Number.round2 (newStartingPrice data))
      0 active (Some now) (newEndsAt data) None None in
  (mkState (auctions s ++ [auction]) (bids s) (nextAuctionId s + 1) (nextBidId s),
   Normal (ofValue auction)).

(** [now] is the reading of the sweep, [now'] the one of the deadline
    test, [now''] the one behind the bid's [createdAt]. *)
Definition placeBid (now now' now'' : Z) (aid bidder : Z) (name : string)
    (amt : Number.t) (s : State) : State * Result Bid :=
  afterSweep now s (fun s1 =>
    match findAuction aid s1 with
    | None => (s1, Normal (throwError AuctionNotFound))
    | Some auction =>
        if negb (statusEqb (status auction) active) then
          (s1, Normal (throwError NoLongerActive))
        else if Js.dateLe (endsAt auction) now' then
          (s1, Normal (throwError HasEnded))
        else if sellerId auction =? bidder then
          (s1, Normal (throwError OwnAuction))
        else
          let minBid := Number.round2 (Number.add (currentPrice auction) Number.one) in
          if Number.ltb amt minBid then
            (s1, Normal (throwError (BidTooLow minBid)))
          else
            let bid := mkBid (nextBidId s1) aid bidder name (Number.round2 amt) (Some now'') in
            (mkState
               (Js.updateFirst (fun a => id a =? aid) (recordBid bid) (auctions s1))
               (bids s1 ++ [bid])
               (nextAuctionId s1)
               (nextBidId s1 + 1),
             Normal (ofValue bid))
    end).

(** *** Update *)

Definition cancelAuction (aid seller : Z) (s : State) : State * Result Auction :=
  match findAuction aid s with
  | None => (s, Normal (throwError AuctionNotFound))
  | Some auction =>
      if negb (sellerId auction =? seller) then
        (s, Normal (throwError NotYourAuction))
      else if negb (statusEqb (status auction) active) then
        (s, Normal (throwError OnlyActiveCancellable))
      else
        (setAuctions
           (Js.updateFirst (fun a => id a =? aid) (setStatus cancelled) (auctions s)) s,
         Normal (ofValue (setStatus cancelled auction)))
  end.

Definition updateAuctionStatus (aid : Z) (st : AuctionStatus) (s : State)
    : State * Result Auction :=
  match findAuction aid s with
  | None => (s, Normal (throwError AuctionNotFound))
  | Some auction =>
      (setAuctions
         (Js.updateFirst (fun a => id a =? aid) (setStatus st) (auctions s)) s,
       Normal (ofValue (setStatus st auction)))
  end.

(** *** The public interface as a transition system *)

Inductive Call :=
| GetActiveAuctions (now : Z)
| GetAllAuctions (now : Z)
| GetAuctionById (now aid : Z)
| GetAuctionsBySeller (now seller : Z)
| GetAuctionsByBidder (now bidder : Z)
| GetBidsByAuction (aid : Z)
| SearchAuctions (now : Z) (term : string)
| GetCategories
| GetUserHighestBid (aid user : Z)
| IsHighestBidder (aid user : Z)
| CreateAuction (now : Z) (data : NewAuction)
| PlaceBid (now now' now'' aid bidder : Z) (name : string) (amt : Number.t)
| CancelAuction (aid seller : Z)
| UpdateAuctionStatus (aid : Z) (st : AuctionStatus)
| GetAuctionCount
| GetActiveAuctionCount (now : Z)
| GetTotalBidCount.

(** The service state a call leaves behind. *)
Definition run (c : Call) (s : State) : State :=
  match c with
  | GetActiveAuctions now => fst (getActiveAuctions now s)
  | GetAllAuctions now => fst (getAllAuctions now s)
  | GetAuctionById now aid => fst (getAuctionById now aid s)
  | GetAuctionsBySeller now seller => fst (getAuctionsBySeller now seller s)
  | GetAuctionsByBidder now bidder => fst (getAuctionsByBidder now bidder s)
  | GetBidsByAuction aid => fst (getBidsByAuction aid s)
  | SearchAuctions now term => fst (searchAuctions now term s)
  | GetCategories => s
  | GetUserHighestBid _ _ => s
  | IsHighestBidder _ _ => s
  | CreateAuction now data => fst (createAuction now data s)
  | PlaceBid now now' now'' aid bidder name amt =>
      fst (placeBid now now' now'' aid bidder name amt s)
  | CancelAuction aid seller => fst (cancelAuction aid seller s)
  | UpdateAuctionStatus aid st => fst (updateAuctionStatus aid st s)
  | GetAuctionCount => s
  | GetActiveAuctionCount now => fst (getActiveAuctionCount now s)
  | GetTotalBidCount => s
  end.

(** The calls that are reads: everything but the four mutators. *)
Definition isRead (c : Call) : bool :=
  match c with
  | CreateAuction _ _ | PlaceBid _ _ _ _ _ _ _
  | CancelAuction _ _ | UpdateAuctionStatus _ _ => false
  | _ => true
  end.

(** The reads whose body starts with [this.checkAndEndAuctions()]. *)
Definition sweepTime (c : Call) : option Z :=
  match c with
  | GetActiveAuctions now | GetAllAuctions now | GetAuctionById now _
  | GetAuctionsBySeller now _ | GetAuctionsByBidder now _
  | SearchAuctions now _ | GetActiveAuctionCount now => Some now
  | _ => None
  end.

(** *** Seed data

    [loaded] is the clock reading when the module is evaluated and
    [hour] the local hour of the day at that moment: [setHours] keeps
    the integer part of [getHours() + hours].  Daylight-saving shifts
    are not modelled. *)

Section Seed.
Variables (loaded hour : Z).

Definition hoursFromNow (hours : Number.t) : Js.Time :=
  Some (loaded + (Number.trunc (Number.add (Number.ofZ hour) hours) - hour) * 3600000).

Definition daysFromNow (days : Number.t) : Js.Time :=
  hoursFromNow (Number.mul days (Number.ofZ 24)).

Definition daysAgo (days : Number.t) : Js.Time :=
  hoursFromNow (Number.mul (Number.opp days) (Number.ofZ 24)).

Definition SEED_AUCTIONS : list Auction :=
  [ mkAuction 1 100 "Jane S." "Vintage Mechanical Keyboard"
      "A beautiful Cherry MX Blue mechanical keyboard from the 1990s. Fully restored, all keys tested and working. Includes original keycaps and a custom USB adapter. Perfect for collectors or enthusiasts who love that classic clicky feel."
      "https://picsum.photos/seed/mech-keyboard/600/400" "Electronics"
      (Number.ofZ 45) (Number.ofZ 78) 4 active (daysAgo (Number.ofZ 3)) (daysFromNow (Number.ofZ 2)) None None;
    mkAuction 2 998 "Demo U." "Limited Edition Sneakers"
      "Brand new, never worn limited edition running sneakers. Size 10. Released as part of a collaboration with a famous designer. Original box and authentication card included. Only 500 pairs made worldwide."
      "https://picsum.photos/seed/ltd-sneakers/600/400" "Clothing"
      (Number.ofZ 120) (Number.ofZ 185) 3 active (daysAgo (Number.ofZ 2)) (hoursFromNow (Number.ofZ 5)) None None;
    mkAuction 3 101 "Mark J." "First Edition Novel Collection"
      "A curated set of 5 first edition novels from the 1960s. All in excellent condition with original dust jackets. Includes works by acclaimed authors. A must-have for any serious book collector."
      "https://picsum.photos/seed/first-editions/600/400" "Books"
      (Number.ofZ 60) (Number.ofZ 95) 3 active (daysAgo (Number.ofZ 4)) (daysFromNow (Number.ofZ 1)) None None;
    mkAuction 4 102 "Sarah W." "Handmade Ceramic Vase Set"
      "Set of 3 handmade ceramic vases in earth tones. Each piece is unique with a slightly different glaze pattern. Perfect for modern or rustic home decor. Signed by the artist on the bottom."
      "https://picsum.photos/seed/ceramic-vases/600/400" "Home"
      (Number.ofZ 35) (Number.ofZ 52) 2 active (daysAgo (Number.ofZ 1)) (daysFromNow (Number.ofZ 3)) None None;
    mkAuction 5 998 "Demo U." "Retro Gaming Console Bundle"
      "Classic 16-bit gaming console with 2 controllers, power adapter, and 8 cartridge games. All tested and working. Console has been cleaned inside and out. Minor cosmetic wear consistent with age."
      "https://picsum.photos/seed/retro-console/600/400" "Electronics"
      (Number.ofZ 80) (Number.ofZ 145) 5 sold (daysAgo (Number.ofZ 10)) (daysAgo (Number.ofZ 1)) (Some 101) (Some "Mark J."%string);
    mkAuction 6 100 "Jane S." "Designer Sunglasses"
      "Authentic designer sunglasses with polarized lenses. Comes with original case and cleaning cloth. Barely used — selling because they don't fit my face shape. Retail price was $220."
      "https://picsum.photos/seed/designer-shades/600/400" "Clothing"
      (Number.ofZ 55) (Number.ofZ 55) 0 cancelled (daysAgo (Number.ofZ 7)) (daysAgo (Number.ofZ 2)) None None ].

Definition SEED_BIDS : list Bid :=
  [ mkBid 1 1 998 "Demo U." (Number.ofZ 50) (daysAgo (Number.dec 25 10));
    mkBid 2 1 101 "Mark J." (Number.ofZ 58) (daysAgo (Number.ofZ 2));
    mkBid 3 1 102 "Sarah W." (Number.ofZ 65) (daysAgo (Number.dec 15 10));
    mkBid 4 1 998 "Demo U." (Number.ofZ 78) (daysAgo (Number.ofZ 1));
    mkBid 5 2 100 "Jane S." (Number.ofZ 135) (daysAgo (Number.dec 15 10));
    mkBid 6 2 101 "Mark J." (Number.ofZ 155) (daysAgo (Number.ofZ 1));
    mkBid 7 2 100 "Jane S." (Number.ofZ 185) (daysAgo (Number.dec 5 10));
    mkBid 8 3 998 "Demo U." (Number.ofZ 70) (daysAgo (Number.ofZ 3));
    mkBid 9 3 102 "Sarah W." (Number.ofZ 82) (daysAgo (Number.ofZ 2));
    mkBid 10 3 998 "Demo U." (Number.ofZ 95) (daysAgo (Number.ofZ 1));
    mkBid 11 4 998 "Demo U." (Number.ofZ 42) (daysAgo (Number.dec 8 10));
    mkBid 12 4 100 "Jane S." (Number.ofZ 52) (daysAgo (Number.dec 3 10));
    mkBid 13 5 100 "Jane S." (Number.ofZ 90) (daysAgo (Number.ofZ 8));
    mkBid 14 5 101 "Mark J." (Number.ofZ 105) (daysAgo (Number.ofZ 6));
    mkBid 15 5 102 "Sarah W." (Number.ofZ 120) (daysAgo (Number.ofZ 4));
    mkBid 16 5 100 "Jane S." (Number.ofZ 132) (daysAgo (Number.ofZ 3));
    mkBid 17 5 101 "Mark J." (Number.ofZ 145) (daysAgo (Number.ofZ 2)) ].

(** The field initialisers of the class. *)
Definition initialState : State := mkState SEED_AUCTIONS SEED_BIDS 7 18.

(** The states the service can be in: the initial one and whatever a
    sequence of calls makes of it. *)
Inductive reachable : State -> Prop :=
| reach_init : reachable initialState
| reach_call c s : reachable s -> reachable (run c s).
End Seed.

End AuctionService64.

(** ** OrderService (order.service.ts) *)

Module OrderService.

(** 8.25% *)
Definition TAX_RATE : Q := 0.0825.

(** Shipping / processing *)
Definition FLAT_FEE : Q := 4.99.

Inductive OrderStatus := pending | processing | shipped | delivered | cancelled.

Definition statusEqb (a b : OrderStatus) : bool :=
  match a, b with
  | pending, pending | processing, processing | shipped, shipped
  | delivered, delivered | cancelled, cancelled => true
  | _, _ => false
  end.

Record OrderItem := mkItem {
  itemId : Z;
  order_id : Z;
  product_id : Z;
  quantity : Z;
  price_at_purchase : Q;
  name : option string;
  image : option string;
  category : option string
}.

Record Order := mkOrder {
  id : Z;
  orderNumber : string;
  user_id : Z;
  status : OrderStatus;
  subtotal : Q;
  tax : Q;
  fees : Q;
  total : Q;
  shipping_address : string;
  created_at : Js.Time;
  email : option string;
  first_name : option string;
  last_name : option string;
  items : option (list OrderItem)
}.

(** [items.reduce((s, i) => s + i.price_at_purchase * i.quantity, 0)]. *)
Definition itemsSum (its : list OrderItem) : Q :=
  fold_left (fun s i => s + price_at_purchase i * inject_Z (quantity i))%Q its 0%Q.

(** Helper to build an order with auto-computed totals. *)
Definition buildOrder (id : Z) (orderNumber : string) (userId : Z)
    (status : OrderStatus) (createdAt : Js.Time)
    (address email firstName lastName : string)
    (items : list OrderItem) : Order :=
  let subtotal := Num.round2 (itemsSum items) in
  let tax := Num.round2 (subtotal * TAX_RATE) in
  let fees := FLAT_FEE in
  let total := Num.round2 (subtotal + tax + fees) in
  mkOrder id orderNumber userId status subtotal tax fees total
    address createdAt (Some email) (Some firstName) (Some lastName) (Some items).

Definition SEED_ORDERS : list Order :=
  [ buildOrder 1 "ORD-10001" 998 pending (Some 1765794180000)
      "742 Evergreen Terrace, Springfield, IL 62704"
      "user@shopng.com" "Demo" "User"
      [ mkItem 1 1 1 1 79.99 (Some "Wireless Bluetooth Headphones"%string)
          (Some "https://picsum.photos/seed/headphones/400/400"%string)
          (Some "Electronics"%string);
        mkItem 2 1 10 2 29.99 (Some "Ceramic Plant Pot Set"%string)
          (Some "https://picsum.photos/seed/plant-pots/400/400"%string)
          (Some "Home"%string) ];
    buildOrder 2 "ORD-10002" 100 processing (Some 1767451500000)
      "1600 Pennsylvania Ave NW, Washington, DC 20500"
      "jane.smith@example.com" "Jane" "Smith"
      [ mkItem 3 2 2 1 199.99 (Some "Smart Watch Pro"%string)
          (Some "https://picsum.photos/seed/smartwatch/400/400"%string)
          (Some "Electronics"%string) ];
    buildOrder 3 "ORD-10003" 101 shipped (Some 1769073120000)
      "350 Fifth Avenue, New York, NY 10118"
      "mark.johnson@example.com" "Mark" "Johnson"
      [ mkItem 4 3 7 1 34.99 (Some "The Art of Clean Code"%string)
          (Some "https://picsum.photos/seed/coding-book/400/400"%string)
          (Some "Books"%string);
        mkItem 5 3 8 1 44.99 (Some "Modern JavaScript Deep Dive"%string)
          (Some "https://picsum.photos/seed/js-book/400/400"%string)
          (Some "Books"%string);
        mkItem 6 3 9 1 39.99 (Some "Design Patterns Handbook"%string)
          (Some "https://picsum.photos/seed/patterns-book/400/400"%string)
          (Some "Books"%string) ];
    buildOrder 4 "ORD-10004" 102 delivered (Some 1769963400000)
      "221B Baker Street, London, CA 90210"
      "sarah.williams@example.com" "Sarah" "Williams"
      [ mkItem 7 4 4 1 89.99 (Some "Classic Denim Jacket"%string)
          (Some "https://picsum.photos/seed/denim-jacket/400/400"%string)
          (Some "Clothing"%string);
        mkItem 8 4 5 1 129.99 (Some "Running Sneakers Ultra"%string)
          (Some "https://picsum.photos/seed/sneakers/400/400"%string)
          (Some "Clothing"%string) ];
    buildOrder 5 "ORD-10005" 998 cancelled (Some 1770721500000)
      "742 Evergreen Terrace, Springfield, IL 62704"
      "user@shopng.com" "Demo" "User"
      [ mkItem 9 5 11 3 54.99 (Some "LED Desk Lamp"%string)
          (Some "https://picsum.photos/seed/desk-lamp/400/400"%string)
          (Some "Home"%string) ] ].

Record State := mkState {
  orders : list Order;
  nextId : Z;
  nextOrderNum : Z
}.

Definition initialState : State := mkState SEED_ORDERS 6 10006.

(** [{ status: 404, error: 'Order not found' }]. *)
Inductive Error := OrderNotFound404.

Definition classify (e : Error) : ErrorClass :=
  match e with OrderNotFound404 => NotFoundError end.

Definition byNewest (a b : Order) : bool := Js.timeDesc (created_at a) (created_at b).

Definition getAllOrders (s : State) : Observable (list Order) Error :=
  ofValue (Js.sort byNewest (orders s)).

Definition getOrdersByUserId (userId : Z) (s : State) : Observable (list Order) Error :=
  ofValue (Js.sort byNewest (filter (fun o => user_id o =? userId) (orders s))).

Definition getOrderById (oid : Z) (s : State) : Observable Order Error :=
  match find (fun o => id o =? oid) (orders s) with
  | None => throwError OrderNotFound404
  | Some o => ofValue o
  end.

(** [{ ...order, status }]. *)
Definition withStatus (st : OrderStatus) (o : Order) : Order :=
  mkOrder (id o) (orderNumber o) (user_id o) st (subtotal o) (tax o) (fees o)
    (total o) (shipping_address o) (created_at o) (email o) (first_name o)
    (last_name o) (items o).

(** Update order status.  [findIndex] answers with a position inside
    the array, so the inner [None] branch is never taken. *)
Definition updateOrderStatus (oid : Z) (st : OrderStatus) (s : State)
    : State * Observable Order Error :=
  match Js.findIndex (fun o => id o =? oid) (orders s) with
  | None => (s, throwError OrderNotFound404)
  | Some index =>
      match nth_error (orders s) index with
      | Some o =>
          (mkState (Js.setAt index (withStatus st o) (orders s)) (nextId s) (nextOrderNum s),
           ofValue (withStatus st o))
      | None => (s, throwError OrderNotFound404)
      end
  end.

Definition getTotalRevenue (s : State) : Q :=
  Num.round2
    (fold_left (fun sum o => sum + total o)%Q
       (filter (fun o => negb (statusEqb (status o) cancelled)) (orders s)) 0%Q).

Definition getOrderCount (s : State) : Z := Z.of_nat (List.length (orders s)).

Definition getRecentOrders (count : nat) (s : State) : Observable (list Order) Error :=
  ofValue (firstn count (Js.sort byNewest (orders s))).

(** The text of a status, as [o.status.toLowerCase()] reads it. *)
Definition statusName (st : OrderStatus) : string :=
  match st with
  | pending => "pending"
  | processing => "processing"
  | shipped => "shipped"
  | delivered => "delivered"
  | cancelled => "cancelled"
  end.

(** [(v && v.toLowerCase().includes(lower))] for an optional field: a
    missing or empty value is falsy and never matches. *)
Definition optIncludes (lower : string) (v : option string) : bool :=
  match v with
  | Some e => if String.eqb e EmptyString then false
              else Js.includes lower (Js.toLowerCase e)
  | None => false
  end.

(** Search orders by order number, customer name, or email. *)
Definition searchOrders (term : string) (s : State) : Observable (list Order) Error :=
  let lower := Js.toLowerCase term in
  ofValue
    (Js.sort byNewest
       (filter (fun o =>
          Js.includes lower (Js.toLowerCase (orderNumber o))
          || optIncludes lower (email o)
          || optIncludes lower (first_name o)
          || optIncludes lower (last_name o)
          || Js.includes lower (Js.toLowerCase (statusName (status o))))
          (orders s))).

End OrderService.

(** ** The PostgreSQL tables of seed.js

    The order routes talk to a database through [pg].  The model keeps
    what these routes read and write: the four tables with the columns
    and constraints of the [CREATE TABLE] statements, the [SERIAL]
    sequences, and the open transaction as a snapshot of the tables that
    [ROLLBACK] puts back.  Sequences are not transactional: a rolled
    back [INSERT] still consumes its id. *)

Module Pg.

Record UserRow := mkUser {
  userId : Z;
  userEmail : string;
  userRole : string
}.

Record ProductRow := mkProduct {
  productId : Z;
  productName : string;
  productPrice : Q;
  productImage : string;
  productCategory : string;
  stock : Z
}.

Record OrderRow := mkOrderRow {
  orderId : Z;
  orderUserId : option Z;
  orderStatus : string;
  total : Q;
  shipping_address : string;
  created_at : Z
}.

Record OrderItemRow := mkItemRow {
  itemRowId : Z;
  order_id : Z;
  product_id : Z;
  quantity : Z;
  price_at_purchase : Q
}.

Record Tables := mkTables {
  users : list UserRow;
  products : list ProductRow;
  orders : list OrderRow;
  order_items : list OrderItemRow
}.

Record Db := mkDb {
  tables : Tables;
  orders_id_seq : Z;
  order_items_id_seq : Z;
  snapshot : option Tables
}.

Definition setTables (t : Tables) (db : Db) : Db :=
  mkDb t (orders_id_seq db) (order_items_id_seq db) (snapshot db).

(** A value stored in a [DECIMAL(10, 2)] column: rounded to two
    decimals, ties away from zero; [None] is "numeric field overflow". *)
Definition decimal_10_2 (x : Q) : option Q :=
  let cents := if Qle_bool 0 x
               then Qfloor (x * 100 + (1 # 2))
               else (- Qfloor (- x * 100 + (1 # 2)))%Z in
  if Z.abs cents <? 10000000000 then Some (inject_Z cents / 100)%Q else None.

(** A value stored in an [INTEGER] column; [None] is "integer out of
    range". *)
Definition int4 (n : Z) : option Z :=
  if (-2147483648 <=? n) && (n <=? 2147483647) then Some n else None.

(** A statement run on the connection: it may change the database and
    either yields a value or raises an error. *)
Definition Stmt (A : Type) := Db -> Db * option A.

Definition ret {A} (a : A) : Stmt A := fun db => (db, Some a).

Definition bind {A B} (m : Stmt A) (k : A -> Stmt B) : Stmt B :=
  fun db => match m db with
            | (db', Some a) => k a db'
            | (db', None) => (db', None)
            end.

Declare Scope stmt_scope.
Delimit Scope stmt_scope with stmt.
Notation "x <- m ;; k" := (bind m (fun x => k))
  (at level 61, m at next level, right associativity) : stmt_scope.
Notation "m ;;; k" := (bind m (fun _ => k))
  (at level 61, right associativity) : stmt_scope.

(** [BEGIN]. *)
Definition begin : Stmt unit :=
  fun db => (mkDb (tables db) (orders_id_seq db) (order_items_id_seq db)
                  (Some (tables db)), Some tt).

(** [COMMIT]. *)
Definition commit : Stmt unit :=
  fun db => (mkDb (tables db) (orders_id_seq db) (order_items_id_seq db) None, Some tt).

(** [ROLLBACK]; outside a transaction it changes nothing. *)
Definition rollback (db : Db) : Db :=
  match snapshot db with
  | Some t => mkDb t (orders_id_seq db) (order_items_id_seq db) None
  | None => db
  end.

Definition hasUser (uid : Z) (t : Tables) : bool :=
  existsb (fun u => userId u =? uid) (users t).

Definition hasProduct (pid : Z) (t : Tables) : bool :=
  existsb (fun p => productId p =? pid) (products t).

Definition nextOrderId (db : Db) : Db :=
  mkDb (tables db) (orders_id_seq db + 1) (order_items_id_seq db) (snapshot db).

Definition nextItemId (db : Db) : Db :=
  mkDb (tables db) (orders_id_seq db) (order_items_id_seq db + 1) (snapshot db).

(** [INSERT INTO orders (user_id, total, shipping_address) VALUES ...
    RETURNING *]: the id comes from the sequence, the status defaults
    to 'pending', [user_id] must reference a user. *)
Definition insertOrder (now : Z) (uid : Z) (tot : Q) (addr : string) : Stmt OrderRow :=
  fun db =>
    let oid := orders_id_seq db in
    let t := tables db in
    match decimal_10_2 tot with
    | None => (nextOrderId db, None)
    | Some stored =>
        if hasUser uid t then
          let row := mkOrderRow oid (Some uid) "pending" stored addr now in
          (setTables (mkTables (users t) (products t) (orders t ++ [row]) (order_items t))
             (nextOrderId db),
           Some row)
        else (nextOrderId db, None)
    end.

(** [INSERT INTO order_items (order_id, product_id, quantity,
    price_at_purchase) VALUES ...]: [product_id] must reference a
    product. *)
Definition insertOrderItem (oid pid qty : Z) (price : Q) : Stmt unit :=
  fun db =>
    let iid := order_items_id_seq db in
    let t := tables db in
    match int4 qty, decimal_10_2 price with
    | Some q, Some p =>
        if hasProduct pid t then
          (setTables (mkTables (users t) (products t) (orders t)
                        (order_items t ++ [mkItemRow iid oid pid q p]))
             (nextItemId db),
           Some tt)
        else (nextItemId db, None)
    | _, _ => (nextItemId db, None)
    end.

Definition withStock (n : Z) (p : ProductRow) : ProductRow :=
  mkProduct (productId p) (productName p) (productPrice p) (productImage p)
    (productCategory p) n.

(** The new [products] table of [UPDATE products SET stock = stock - $1
    WHERE id = $2], or [None] when a new stock leaves the [INTEGER]
    range. *)
Fixpoint decreaseStock (qty pid : Z) (ps : list ProductRow) : option (list ProductRow) :=
  match ps with
  | [] => Some []
  | p :: ps' =>
      if productId p =? pid then
        match int4 (stock p - qty), decreaseStock qty pid ps' with
        | Some n, Some rest => Some (withStock n p :: rest)
        | _, _ => None
        end
      else
        match decreaseStock qty pid ps' with
        | Some rest => Some (p :: rest)
        | None => None
        end
  end.

Definition updateStock (qty pid : Z) : Stmt unit :=
  fun db =>
    let t := tables db in
    match int4 qty, decreaseStock qty pid (products t) with
    | Some q, Some ps =>
        (setTables (mkTables (users t) ps (orders t) (order_items t)) db, Some tt)
    | _, _ => (db, None)
    end.

Definition withOrderStatus (st : string) (o : OrderRow) : OrderRow :=
  mkOrderRow (orderId o) (orderUserId o) st (total o) (shipping_address o) (created_at o).

(** [UPDATE orders SET status = $1 WHERE id = $2 RETURNING *] through
    [pool.query]: the new database and the rows that were updated. *)
Definition updateOrderStatus (st : string) (oid : Z) (db : Db) : Db * list OrderRow :=
  let t := tables db in
  (setTables
     (mkTables (users t) (products t)
        (map (fun o => if orderId o =? oid then withOrderStatus st o else o) (orders t))
        (order_items t)) db,
   map (withOrderStatus st) (filter (fun o => orderId o =? oid) (orders t))).

(** The database as seed.js leaves it: the two users, the twelve
    products, no orders. *)
Definition seedDb : Db :=
  mkDb
    (mkTables
       [ mkUser 1 "admin@shopng.com" "admin"; mkUser 2 "user@shopng.com" "user" ]
       [
    mkProduct 1 "Wireless Bluetooth Headphones" 79.99 "https://picsum.photos/seed/headphones/400/400" "Electronics" 15;
    mkProduct 2 "Smart Watch Pro" 199.99 "https://picsum.photos/seed/smartwatch/400/400" "Electronics" 8;
    mkProduct 3 "Portable Bluetooth Speaker" 49.99 "https://picsum.photos/seed/speaker/400/400" "Electronics" 22;
    mkProduct 4 "Classic Denim Jacket" 89.99 "https://picsum.photos/seed/denim-jacket/400/400" "Clothing" 12;
    mkProduct 5 "Running Sneakers Ultra" 129.99 "https://picsum.photos/seed/sneakers/400/400" "Clothing" 18;
    mkProduct 6 "Wool Blend Overcoat" 159.99 "https://picsum.photos/seed/overcoat/400/400" "Clothing" 5;
    mkProduct 7 "The Art of Clean Code" 34.99 "https://picsum.photos/seed/coding-book/400/400" "Books" 30;
    mkProduct 8 "Modern JavaScript Deep Dive" 44.99 "https://picsum.photos/seed/js-book/400/400" "Books" 25;
    mkProduct 9 "Design Patterns Handbook" 39.99 "https://picsum.photos/seed/patterns-book/400/400" "Books" 20;
    mkProduct 10 "Ceramic Plant Pot Set" 29.99 "https://picsum.photos/seed/plant-pots/400/400" "Home" 35;
    mkProduct 11 "LED Desk Lamp" 54.99 "https://picsum.photos/seed/desk-lamp/400/400" "Home" 14;
    mkProduct 12 "Scented Candle Collection" 24.99 "https://picsum.photos/seed/candles/400/400" "Home" 40 ]
       [] [])
    1 1 None.

End Pg.

(** ** The order routes of the backend (routes/orders.js) *)

Module OrdersRoute.
Import Pg.

(** An element of [req.body.items]: [{ productId, quantity, price }]. *)
Record Item := mkItem {
  productId : Z;
  quantity : Z;
  price : Q
}.

(** [req.body] of [POST /api/orders]; [None] is a missing field. *)
Record CreateBody := mkCreateBody {
  items : option (list Item);
  shippingAddress : option string
}.

(** [res.status(code).json(...)]. *)
Inductive Response :=
| Json (code : Z) (row : OrderRow)
| ErrorJson (code : Z) (error : string).

Definition statusCode (r : Response) : Z :=
  match r with Json c _ | ErrorJson c _ => c end.

(** The class of an error response, by its HTTP status. *)
Definition classify (r : Response) : option ErrorClass :=
  match r with
  | Json _ _ => None
  | ErrorJson c _ =>
      if c =? 400 then Some ValidationError
      else if c =? 403 then Some ForbiddenError
      else if c =? 404 then Some NotFoundError
      else if c =? 409 then Some ConflictError
      else Some InternalError
  end.

(** [!value] for an optional string: missing or empty. *)
Definition falsy (s : option string) : bool :=
  match s with
  | None => true
  | Some str => String.eqb str EmptyString
  end.

(** [items.reduce((sum, item) => sum + (item.price * item.quantity), 0)]. *)
Definition itemsTotal (its : list Item) : Q :=
  fold_left (fun sum item => sum + price item * inject_Z (quantity item))%Q its 0%Q.

(** The body of [for (const item of items)]. *)
Fixpoint insertItems (oid : Z) (its : list Item) : Stmt unit :=
  match its with
  | [] => ret tt
  | item :: rest =>
      (insertOrderItem oid (productId item) (quantity item) (price item) ;;;
       updateStock (quantity item) (productId item) ;;;
       insertItems oid rest)%stmt
  end.

(** The statements between [try {] and [res.status(201)], after the
    two validations. *)
Definition createOrderTx (now user : Z) (its : list Item) (addr : string) : Stmt OrderRow :=
  (begin ;;;
   let total := itemsTotal its in
   order <- insertOrder now user total addr ;;
   insertItems (orderId order) its ;;;
   commit ;;;
   ret order)%stmt.

(** [POST /api/orders] for the authenticated user [user]; [now] is
    the database's [CURRENT_TIMESTAMP]. *)
Definition createOrder (now user : Z) (body : CreateBody) (db : Db) : Db * Response :=
  match items body with
  | None => (db, ErrorJson 400 "Order must contain at least one item.")
  | Some [] => (db, ErrorJson 400 "Order must contain at least one item.")
  | Some its =>
      match shippingAddress body with
      | None => (db, ErrorJson 400 "Shipping address is required.")
      | Some addr =>
          if String.eqb addr EmptyString then
            (db, ErrorJson 400 "Shipping address is required.")
          else
            match createOrderTx now user its addr db with
            | (db', Some order) => (db', Json 201 order)
            | (db', None) => (rollback db', ErrorJson 500 "Server error creating order.")
            end
      end
  end.

Definition validStatuses : list string :=
  ["pending"; "processing"; "shipped"; "delivered"; "cancelled"]%string.

(** [validStatuses.includes(status)]. *)
Definition isValidStatus (st : string) : bool := existsb (String.eqb st) validStatuses.


(** [req.user], the decoded token the [auth] middleware attaches. *)
Record ReqUser := mkReqUser {
  reqId : Z;
  reqRole : string
}.



(** [LEFT JOIN users u ON o.user_id = u.id]: the user row an order
    joins with, if any.  Of the joined row the routes select the email
    and the two names; the names are not among the modelled columns. *)
Definition customerOf (o : OrderRow) (t : Tables) : option UserRow :=
  match orderUserId o with
  | Some uid => find (fun u => userId u =? uid) (users t)
  | None => None
  end.

(** A row of [GET /api/orders]: for an administrator the order with the
    joined customer, for anybody else the order alone. *)
Inductive ListedOrder :=
| WithCustomer (o : OrderRow) (u : option UserRow)
| Plain (o : OrderRow).

Definition listedOrder (l : ListedOrder) : OrderRow :=
  match l with WithCustomer o _ | Plain o => o end.

(** [ORDER BY created_at DESC]; rows of equal time keep the order of
    the table. *)
Definition newestFirst (a b : OrderRow) : bool := created_at b <=? created_at a.

(** [WHERE user_id = $1]. *)
Definition ownedBy (uid : Z) (o : OrderRow) : bool :=
  match orderUserId o with
  | Some u => u =? uid
  | None => false
  end.

(** [GET /api/orders]. *)
Definition listOrders (user : ReqUser) (db : Db) : list ListedOrder :=
  let t := tables db in
  if String.eqb (reqRole user) "admin" then
    map (fun o => WithCustomer o (customerOf o t)) (Js.sort newestFirst (orders t))
  else
    map Plain (Js.sort newestFirst (filter (ownedBy (reqId user)) (orders t))).

(** A row of the items query: [oi.*] and the joined product, of which
    the route selects name, image and category. *)
Record ItemDetail := mkItemDetail {
  detailItem : OrderItemRow;
  detailProduct : option ProductRow
}.

(** The answers of [GET /api/orders/:id]. *)
Inductive DetailResponse :=
| DetailJson (o : OrderRow) (u : option UserRow) (its : list ItemDetail)
| DetailError (code : Z) (error : string).

(** [order.user_id !== req.user.id]. *)
Definition notOwner (user : ReqUser) (o : OrderRow) : bool := negb (ownedBy (reqId user) o).


(** The route parameter [:id] as it arrives: text.  PostgreSQL reads it
    as a value of the [INTEGER] column it is compared with:
    [IdInteger z] is text that reads as the integer [z], in the
    column's range or not, and [IdOther] is any other text. *)
Inductive RouteId :=
| IdInteger (z : Z)
| IdOther (text : string).

(** [$n] bound to [orders.id]; [None] is the error the query raises for
    text that is no integer and for an integer the column cannot hold. *)
Definition boundId (id : RouteId) : option Z :=
  match id with
  | IdInteger z => int4 z
  | IdOther _ => None
  end.

(** [PUT /api/orders/:id/status] behind its middleware, the route
    parameter as it arrives; when the query raises, the [catch] answers
    500. *)
Definition updateStatusRoute (id : RouteId) (st : string) (db : Db) : Db * Response :=
  if negb (isValidStatus st) then
    (db, ErrorJson 400
           "Invalid status. Must be one of: pending, processing, shipped, delivered, cancelled")
  else
    match boundId id with
    | None => (db, ErrorJson 500 "Server error.")
    | Some oid =>
        let (db', rows) := Pg.updateOrderStatus st oid db in
        match rows with
        | [] => (db', ErrorJson 404 "Order not found.")
        | row :: _ => (db', Json 200 row)
        end
    end.

Section Rows.

(** The order in which the rows of the items query come back: the query
    has no [ORDER BY], so it is whatever the executor makes it. *)
Variable rowOrder : list ItemDetail -> list ItemDetail.

(** [GET /api/orders/:id], the route parameter as it arrives; when a
    query raises, the [catch] answers 500. *)
Definition getOrderRoute (user : ReqUser) (id : RouteId) (db : Db) : DetailResponse :=
  let t := tables db in
  match boundId id with
  | None => DetailError 500 "Server error."
  | Some oid =>
      match filter (fun o => orderId o =? oid) (orders t) with
      | [] => DetailError 404 "Order not found."
      | order :: _ =>
          if negb (String.eqb (reqRole user) "admin") && notOwner user order then
            DetailError 403 "Access denied."
          else
            DetailJson order (customerOf order t)
              (rowOrder
                 (map (fun oi =>
                         mkItemDetail oi
                           (find (fun p => Pg.productId p =? product_id oi) (products t)))
                    (filter (fun oi => order_id oi =? oid) (order_items t))))
      end
  end.

End Rows.

End OrdersRoute.

(** ** ReviewService (review.service.ts) *)

Module ReviewService.

Inductive ReviewStatus := approved | pending | rejected.

Definition statusEqb (a b : ReviewStatus) : bool :=
  match a, b with
  | approved, approved | pending, pending | rejected, rejected => true
  | _, _ => false
  end.

Record Review := mkReview {
  id : Z;
  productId : Z;
  userId : Z;
  userName : string;
  rating : Q;
  title : string;
  comment : string;
  createdAt : Js.Time;
  helpful : Z;
  status : ReviewStatus
}.

Definition SEED_REVIEWS : list Review :=
  [
    mkReview 1 1 998 "Demo U." 5
      "Best headphones I've owned"
      "Crystal clear sound quality and the battery lasts forever. The noise cancellation is a game changer for my commute."
      (Some 1766241000000) 8 approved;
    mkReview 2 1 100 "Jane S." 4
      "Great sound, slightly tight fit"
      "Audio quality is fantastic for the price. Only complaint is they feel a bit tight after 2+ hours of use. Would still recommend."
      (Some 1767604500000) 3 approved;
    mkReview 3 1 101 "Mark J." 4
      "Solid purchase"
      "Good build quality and pairs easily with my phone. The carrying case is a nice bonus."
      (Some 1769622300000) 1 approved;
    mkReview 4 2 102 "Sarah W." 5
      "Love the health tracking"
      "The heart rate monitor and sleep tracking are incredibly accurate. Syncs perfectly with my phone. Battery lasts about 3 days."
      (Some 1770290400000) 12 approved;
    mkReview 5 2 998 "Demo U." 4
      "Stylish and functional"
      "Looks great on the wrist and the notifications are handy. Wish the screen was a bit brighter outdoors."
      (Some 1768464000000) 5 approved;
    mkReview 6 3 100 "Jane S." 5
      "Non-slip and comfortable"
      "Perfect thickness — not too thin, not too bulky. The grip is excellent even during hot yoga."
      (Some 1762790400000) 6 approved;
    mkReview 7 4 102 "Sarah W." 5
      "Perfect fit and quality denim"
      "The fit is exactly as described. The denim is heavy enough to feel premium but not stiff. Already getting compliments."
      (Some 1770039000000) 4 approved;
    mkReview 8 4 101 "Mark J." 3
      "Good jacket, runs small"
      "Quality is nice but I had to size up. If you're between sizes, go with the larger one."
      (Some 1768905900000) 7 approved;
    mkReview 9 7 101 "Mark J." 5
      "Must-read for developers"
      "Changed how I think about writing code. Practical examples and clear explanations. Keep it on your desk."
      (Some 1769367600000) 15 approved;
    mkReview 10 7 100 "Jane S." 4
      "Good principles, some basics"
      "Great refresher on clean code practices. A few chapters felt elementary if you have 3+ years experience, but still worth it."
      (Some 1770535800000) 2 approved;
    mkReview 11 5 998 "Demo U." 5
      "Like running on clouds"
      "The cushioning is unreal. Did a half marathon in these and my feet felt fine the next day. Worth every penny."
      (Some 1770908400000) 9 approved;
    mkReview 12 2 101 "Mark J." 2
      "Battery died after 2 months"
      "Worked great initially but the battery started draining in hours. Might be a defective unit. Waiting on support."
      (Some 1771444800000) 0 pending ].

Record State := mkState {
  reviews : list Review;
  nextId : Z
}.

Definition initialState : State := mkState SEED_REVIEWS 13.

(** [r => r.productId === productId && r.status === 'approved']. *)
Definition isApprovedFor (pid : Z) (r : Review) : bool :=
  (productId r =? pid) && statusEqb (status r) approved.

(** Compute average rating from approved reviews for a product. *)
Definition getAverageRating (pid : Z) (s : State) : Q :=
  let approvedReviews := filter (isApprovedFor pid) (reviews s) in
  if Nat.eqb (List.length approvedReviews) 0 then 0%Q
  else
    let sum := fold_left (fun acc r => acc + rating r)%Q approvedReviews 0%Q in
    Num.round1 (sum / inject_Z (Z.of_nat (List.length approvedReviews)))%Q.

(** Get the count of approved reviews for a product. *)
Definition getReviewCount (pid : Z) (s : State) : Z :=
  Z.of_nat (List.length (filter (isApprovedFor pid) (reviews s))).

(** Check if a user has already reviewed a product. *)
Definition hasUserReviewed (pid uid : Z) (s : State) : bool :=
  existsb (fun r => (productId r =? pid) && (userId r =? uid)) (reviews s).

(** The fields a caller supplies to [submitReview]. *)
Record NewReview := mkNewReview {
  newProductId : Z;
  newUserId : Z;
  newUserName : string;
  newRating : Q;
  newTitle : string;
  newComment : string
}.

(** Submit a new review (starts as 'approved'); [now] is the reading
    behind [createdAt]. *)
Definition submitReview (now : Z) (r : NewReview) (s : State) : State * Review :=
  let newReview :=
    mkReview (nextId s) (newProductId r) (newUserId r) (newUserName r)
      (newRating r) (newTitle r) (newComment r) (Some now) 0 approved in
  (mkState (reviews s ++ [newReview]) (nextId s + 1), newReview).

(** The comparator [(a, b) => new Date(b.createdAt) - new Date(a.createdAt)]. *)
Definition byNewest (a b : Review) : bool := Js.timeDesc (createdAt a) (createdAt b).

(** Get approved reviews for a product (storefront). *)
Definition getReviewsByProduct (pid : Z) (s : State) : list Review :=
  Js.sort byNewest (filter (isApprovedFor pid) (reviews s)).

(** Get ALL reviews for a product (admin). *)
Definition getReviewsByProductAdmin (pid : Z) (s : State) : list Review :=
  Js.sort byNewest (filter (fun r => productId r =? pid) (reviews s)).

(** Get all pending reviews across all products. *)
Definition getPendingReviews (s : State) : list Review :=
  filter (fun r => statusEqb (status r) pending) (reviews s).

(** Get all reviews (admin). *)
Definition getAllReviews (s : State) : list Review := Js.sort byNewest (reviews s).

(** [{ status: 404, error: 'Review not found' }]. *)
Inductive Error := ReviewNotFound404.

(** [{ ...review, helpful }]. *)
Definition withHelpful (n : Z) (r : Review) : Review :=
  mkReview (id r) (productId r) (userId r) (userName r) (rating r) (title r)
    (comment r) (createdAt r) n (status r).

(** [{ ...review, status }]. *)
Definition withStatus (st : ReviewStatus) (r : Review) : Review :=
  mkReview (id r) (productId r) (userId r) (userName r) (rating r) (title r)
    (comment r) (createdAt r) (helpful r) st.

(** The array after [this.reviews[index] = f(this.reviews[index])] for
    the index [findIndex] answers, with the new element; [None] for -1.
    [findIndex] answers with a position inside the array, so the inner
    [None] branch is never taken. *)
Definition replaceFound (rid : Z) (f : Review -> Review) (s : State)
    : option (State * Review) :=
  match Js.findIndex (fun r => id r =? rid) (reviews s) with
  | None => None
  | Some index =>
      match nth_error (reviews s) index with
      | Some r => Some (mkState (Js.setAt index (f r) (reviews s)) (nextId s), f r)
      | None => None
      end
  end.

(** Mark a review as helpful (increment upvote). *)
Definition markHelpful (rid : Z) (s : State) : State * Observable Review Error :=
  match replaceFound rid (fun r => withHelpful (helpful r + 1) r) s with
  | Some (s', r') => (s', ofValue r')
  | None => (s, throwError ReviewNotFound404)
  end.

(** Admin: update review status (approve/reject). *)
Definition updateReviewStatus (rid : Z) (st : ReviewStatus) (s : State)
    : State * Observable Review Error :=
  match replaceFound rid (withStatus st) s with
  | Some (s', r') => (s', ofValue r')
  | None => (s, throwError ReviewNotFound404)
  end.

(** [arr.splice(index, 1)]. *)
Fixpoint removeAt (index : nat) (l : list Review) : list Review :=
  match l, index with
  | [], _ => []
  | _ :: l', O => l'
  | x :: l', S i => x :: removeAt i l'
  end.

(** Admin: delete a review entirely. *)
Definition deleteReview (rid : Z) (s : State) : State * Observable unit Error :=
  match Js.findIndex (fun r => id r =? rid) (reviews s) with
  | None => (s, throwError ReviewNotFound404)
  | Some index => (mkState (removeAt index (reviews s)) (nextId s), ofValue tt)
  end.

Definition getTotalReviewCount (s : State) : Z := Z.of_nat (List.length (reviews s)).

Definition getPendingCount (s : State) : Z :=
  Z.of_nat (List.length (filter (fun r => statusEqb (status r) pending) (reviews s))).

(** The calls that change the service. *)
Inductive Call :=
| SubmitReview (now : Z) (r : NewReview)
| MarkHelpful (rid : Z)
| UpdateReviewStatus (rid : Z) (st : ReviewStatus)
| DeleteReview (rid : Z).

Definition run (c : Call) (s : State) : State :=
  match c with
  | SubmitReview now r => fst (submitReview now r s)
  | MarkHelpful rid => fst (markHelpful rid s)
  | UpdateReviewStatus rid st => fst (updateReviewStatus rid st s)
  | DeleteReview rid => fst (deleteReview rid s)
  end.

(** The states the service can be in. *)
Inductive reachable : State -> Prop :=
| reach_init : reachable initialState
| reach_call c s : reachable s -> reachable (run c s).

End ReviewService.

(** ** AuctionDetailComponent (auction-detail.component.ts)

    The getters and the bid form of the auction page.  [user] is the id
    of [authService.currentUser()], [auction] the copy the page holds. *)

Module AuctionDetail.
Import AuctionService64.

(** [new Date(endsAt) > new Date()], false for an invalid date. *)
Definition dateGt (d : Js.Time) (now : Z) : bool :=
  match d with
  | Some t => t >? now
  | None => false
  end.

Definition isOwnAuction (user : option Z) (auction : option Auction) : bool :=
  match user, auction with
  | Some u, Some a => u =? sellerId a
  | _, _ => false
  end.

Definition canBid (now : Z) (user : option Z) (auction : option Auction) : bool :=
  match user, auction with
  | Some u, Some a =>
      statusEqb (status a) active && negb (u =? sellerId a) && dateGt (endsAt a) now
  | _, _ => false
  end.

(** [Math.ceil((currentPrice + 1) * 100) / 100], or 0 without an
    auction. *)
Definition minimumBid (auction : option Auction) : Number.t :=
  match auction with
  | Some a =>
      Number.div
        (Number.mathCeil
           (Number.mul (Number.add (currentPrice a) Number.one) (Number.ofZ 100)))
        (Number.ofZ 100)
  | None => Number.zero
  end.

(** The amount [loadAuction] puts in the form:
    [Math.ceil(auction.currentPrice + 1)]. *)
Definition initialBidAmount (a : Auction) : Number.t :=
  Number.mathCeil (Number.add (currentPrice a) Number.one).

(** [getTimerClass]; the difference of the two times is NaN for an
    invalid date, and every comparison with it is false. *)
Definition getTimerClass (now : Z) (auction : option Auction) : string :=
  match auction with
  | None => ""
  | Some a =>
      match endsAt a with
      | None => "timer-normal"
      | Some e =>
          let diff := e - now in
          if diff <=? 0 then "timer-ended"
          else if diff <? 15 * 60 * 1000 then "timer-critical"
          else if diff <? 60 * 60 * 1000 then "timer-warning"
          else "timer-normal"
      end
  end.

(** [placeBid()] of the page: nothing happens without an auction, a
    user or [canBid]; otherwise the form's amount goes to the service.
    [now0] is the reading of [canBid], the others those of the service. *)
Definition placeBid (now0 now now' now'' : Z) (user : option (Z * string))
    (auction : option Auction) (bidAmount : Number.t) (s : State)
    : option (State * Result Bid) :=
  match auction, user with
  | Some a, Some (uid, displayName) =>
      if canBid now0 (Some uid) (Some a)
      then Some (AuctionService64.placeBid now now' now'' (id a) uid displayName bidAmount s)
      else None
  | _, _ => None
  end.

End AuctionDetail.

(** ** ProductDetailComponent (product-detail.component.ts) *)

Module ProductDetail.

(** Generate star array for rating display. *)
Definition getStars (rating : Q) : list string :=
  map (fun i : Z =>
         if Qle_bool (inject_Z i) rating then "full"
         else if Qle_bool (inject_Z i - 0.5) rating then "half"
         else "empty")%string
      [1; 2; 3; 4; 5].

(** Increase the quantity (can't exceed stock); [stock] is [None]
    while no product is loaded. *)
Definition incrementQuantity (stock : option Z) (quantity : Z) : Z :=
  match stock with
  | Some st => if quantity <? st then quantity + 1 else quantity
  | None => quantity
  end.

(** Decrease the quantity (minimum 1). *)
Definition decrementQuantity (quantity : Z) : Z :=
  if quantity >? 1 then quantity - 1 else quantity.

(** What [loadReviews] puts on the page: the approved reviews, their
    number and the average rating. *)
Definition loadReviews (pid : Z) (s : ReviewService.State) : list ReviewService.Review * Z * Q :=
  let reviews := ReviewService.getReviewsByProduct pid s in
  (reviews, Z.of_nat (List.length reviews), ReviewService.getAverageRating pid s).

End ProductDetail.

(** * Specification vocabulary

    The notions the properties below are stated with. *)

Module AuctionSpec.
Import AuctionService.

(** A call ends in [throwError] of class [cls] and leaves the service in
    state [s1]. *)
Definition failsWith {T} (r : State * Result T) (s1 : State) (cls : ErrorClass) : Prop :=
  exists e, r = (s1, Normal (throwError e)) /\ classify e = cls.

(** Every auction that counts bids has one in the ledger. *)
Definition ledgerCovers (s : State) : Prop :=
  forall a, In a (auctions s) -> bidCount a > 0 -> bidsOf (id a) (bids s) <> [].

(** [b] is a highest bid on auction [aid] in the ledger [bs]. *)
Definition isTopBid (aid : Z) (bs : list Bid) (b : Bid) : Prop :=
  In b bs /\ auctionId b = aid /\
  forall b', In b' bs -> auctionId b' = aid -> (amount b' <= amount b)%Q.

(** [max(startingPrice, max(bid.amount for bid in bids))]. *)
Definition ledgerPrice (a : Auction) (bs : list Bid) : Q :=
  fold_left Qmax (map amount (bidsOf (id a) bs)) (startingPrice a).

(** [count(bids)]. *)
Definition ledgerCount (a : Auction) (bs : list Bid) : Z :=
  Z.of_nat (List.length (bidsOf (id a) bs)).

Definition ledgerMatches (a : Auction) (bs : list Bid) : Prop :=
  currentPrice a == ledgerPrice a bs /\ bidCount a = ledgerCount a bs.

Definition ledgerMatchesb (a : Auction) (bs : list Bid) : bool :=
  Qeq_bool (currentPrice a) (ledgerPrice a bs) && (bidCount a =? ledgerCount a bs).

(** The invariant of the service state: ids are unique and below the
    next id, bids belong to allocated auctions, and each auction's price
    and bid count are the ones of the ledger. *)
Record wellFormed (s : State) : Prop := {
  wf_unique : NoDup (map id (auctions s));
  wf_ids : forall a, In a (auctions s) -> id a < nextAuctionId s;
  wf_bids : forall b, In b (bids s) -> auctionId b < nextAuctionId s;
  wf_cents : forall a, In a (auctions s) -> Num.isCents (currentPrice a);
  wf_ledger : forall a, In a (auctions s) -> ledgerMatches a (bids s)
}.

(** [a'] is [a] up to its status and winner. *)
Definition sameListing (a a' : Auction) : Prop :=
  id a' = id a /\ sellerId a' = sellerId a /\
  startingPrice a' = startingPrice a /\ currentPrice a' = currentPrice a /\
  bidCount a' = bidCount a /\ endsAt a' = endsAt a /\ createdAt a' = createdAt a.

(** The auction the expiry sweep leaves in the place of [a]. *)
Definition settle (now : Z) (bs : list Bid) (a : Auction) : Auction :=
  if expired now a then
    if bidCount a >? 0 then
      match topBid (id a) bs with
      | Some top => setWinner top (setStatus sold a)
      | None => setStatus sold a
      end
    else setStatus ended a
  else a.

(** The bid [placeBid] stores. *)
Definition storedBid (now'' aid bidder : Z) (name : string) (amt : Q) (s1 : State) : Bid :=
  mkBid (nextBidId s1) aid bidder name (Num.round2 amt) (Some now'').

(** The service as it starts when the module is loaded at time 0, local
    hour 0.  Auction 2 (seller 998, three bids, the highest by user 100)
    then ends at 18000000, five hours later. *)
Definition atMidnight : State := initialState 0 0.

(** The same after an expiry sweep at time 0. *)
Definition sweptAtMidnight : State := fst (checkAndEndAuctions 0 atMidnight).

(** The administrator's status update. *)
Definition isStatusOverride (c : Call) : bool :=
  match c with
  | UpdateAuctionStatus _ _ => true
  | _ => false
  end.

Definition isTerminal (st : AuctionStatus) : Prop :=
  st = sold \/ st = ended \/ st = cancelled.

End AuctionSpec.

Module Auction64Spec.
Import AuctionService64.

(** A call ends in [throwError] of class [cls] and leaves the service in
    state [s1]. *)
Definition failsWith {T} (r : State * Result T) (s1 : State) (cls : ErrorClass) : Prop :=
  exists e, r = (s1, Normal (throwError e)) /\ classify e = cls.

(** Every auction that counts bids has one in the ledger. *)
Definition ledgerCovers (s : State) : Prop :=
  forall a, In a (auctions s) -> bidCount a > 0 -> bidsOf (id a) (bids s) <> [].

(** The amounts of the bids [l] are doubles other than NaN. *)
Definition numericAmounts (l : list Bid) : Prop :=
  forall b, In b l -> Number.isDouble (amount b) = true /\ amount b <> Number.NaN.

(** The same as a test. *)
Definition numericAmountsb (l : list Bid) : bool :=
  forallb (fun b => Number.isDouble (amount b) && negb (Number.isNaN (amount b))) l.

(** The comparator of the sweep orders the bids [l]: none of their
    amounts is NaN, and [b.amount - a.amount] is above 0 exactly when
    [a.amount < b.amount]. *)
Definition ordersByAmount (l : list Bid) : Prop :=
  (forall b, In b l -> amount b <> Number.NaN) /\
  (forall b b', In b l -> In b' l ->
     amountDesc b b' = Number.leb (amount b') (amount b)).

(** [b] is a highest bid on auction [aid] in the ledger [bs]. *)
Definition isTopBid (aid : Z) (bs : list Bid) (b : Bid) : Prop :=
  In b bs /\ auctionId b = aid /\
  forall b', In b' bs -> auctionId b' = aid -> Number.leb (amount b') (amount b) = true.

(** [a'] is [a] up to its status and winner. *)
Definition sameListing (a a' : Auction) : Prop :=
  id a' = id a /\ sellerId a' = sellerId a /\
  startingPrice a' = startingPrice a /\ currentPrice a' = currentPrice a /\
  bidCount a' = bidCount a /\ endsAt a' = endsAt a /\ createdAt a' = createdAt a.

(** The auction the expiry sweep leaves in the place of [a]. *)
Definition settle (now : Z) (bs : list Bid) (a : Auction) : Auction :=
  if expired now a then
    if bidCount a >? 0 then
      match topBid (id a) bs with
      | Some top => setWinner top (setStatus sold a)
      | None => setStatus sold a
      end
    else setStatus ended a
  else a.

(** The least amount [placeBid] lets through on [a]. *)
Definition minBid (a : Auction) : Number.t :=
  Number.round2 (Number.add (currentPrice a) Number.one).

(** The bid [placeBid] stores. *)
Definition storedBid (now'' aid bidder : Z) (name : string) (amt : Number.t) (s1 : State)
    : Bid :=
  mkBid (nextBidId s1) aid bidder name (Number.round2 amt) (Some now'').

(** The amount of the last bid placed on [a], or its starting price
    when nobody has bid. *)
Definition lastAmount (a : Auction) (bs : list Bid) : Number.t :=
  last (map amount (bidsOf (id a) bs)) (startingPrice a).

(** [count(bids)]. *)
Definition ledgerCount (a : Auction) (bs : list Bid) : Z :=
  Z.of_nat (List.length (bidsOf (id a) bs)).

(** What holds of the service state whatever is called: ids are unique
    and below the next id, bids belong to allocated auctions, and each
    auction's price is the amount of the last bid placed on it and its
    bid count the number of its bids. *)
Record wellFormed (s : State) : Prop := {
  wf_unique : NoDup (map id (auctions s));
  wf_ids : forall a, In a (auctions s) -> id a < nextAuctionId s;
  wf_bids : forall b, In b (bids s) -> auctionId b < nextAuctionId s;
  wf_bid_unique : NoDup (map bidId (bids s));
  wf_bid_ids : forall b, In b (bids s) -> bidId b < nextBidId s;
  wf_price : forall a, In a (auctions s) -> currentPrice a = lastAmount a (bids s);
  wf_count : forall a, In a (auctions s) -> bidCount a = ledgerCount a (bids s)
}.

(** The service as it starts when the module is loaded at time 0, local
    hour 0.  Auction 1 (seller 100) is active at price 78 and ends in two
    days; auction 2 (seller 998, three bids, the highest by user 100)
    ends at 18000000, five hours later. *)
Definition atMidnight : State := initialState 0 0.

(** The same after an expiry sweep at time 0. *)
Definition sweptAtMidnight : State := fst (checkAndEndAuctions 0 atMidnight).


(** User 101 bids NaN on auction 1, and then 1. *)
Definition nanBid : Call := PlaceBid 0 0 0 1 101 "Mark J." Number.NaN.
Definition lowBid : Call := PlaceBid 0 0 0 1 101 "Mark J." (Number.ofZ 1).
Definition afterNaNBid : State := run nanBid atMidnight.
Definition afterLowBid : State := run lowBid afterNaNBid.

(** 10^17, above 2^53: the next double is 16 further. *)
Definition e17 : Number.t := Number.ofZ (10 ^ 17).

(** User 101 bids 10^17 on auction 1, and user 102 the same amount
    after that. *)
Definition hugeBid (bidder : Z) : Call := PlaceBid 0 0 0 1 bidder "Bidder" e17.
Definition afterHugeBid : State := run (hugeBid 101) atMidnight.

(** A listing of user 100 that starts at 10 and ends at time 1000; on
    the seed state it gets id 7.  User 101 bids NaN on it and user 102
    bids 500 after that. *)
Definition lot : NewAuction :=
  mkNewAuction 100 "Jane S." "Lot" "A lot." "" "Home" (Number.ofZ 10) (Some 1000).

Definition afterNaNThen500 : State :=
  run (PlaceBid 0 0 0 7 102 "Sarah W." (Number.ofZ 500))
    (run (PlaceBid 0 0 0 7 101 "Mark J." Number.NaN)
       (run (CreateAuction 0 lot) atMidnight)).

(** A listing with a starting price of 12.345. *)
Definition lamp : NewAuction :=
  mkNewAuction 998 "Demo U." "Lamp" "A lamp." "" "Home" (Number.dec 12345 1000)
    (Some 3600000).

End Auction64Spec.

Module OrderSpec.

(** The sum of unit price times quantity over a list of lines. *)
Fixpoint lineTotal (lines : list (Q * Z)) : Q :=
  match lines with
  | [] => 0
  | (p, q) :: rest => p * inject_Z q + lineTotal rest
  end.

(** The sum of a list of numbers. *)
Fixpoint sumQ (l : list Q) : Q :=
  match l with
  | [] => 0
  | x :: rest => x + sumQ rest
  end.

(** The total quantity ordered of product [pid]. *)
Fixpoint orderedQty (pid : Z) (lines : list (Z * Z)) : Z :=
  match lines with
  | [] => 0
  | (p, q) :: rest => (if p =? pid then q else 0) + orderedQty pid rest
  end.

(** The price and quantity of each item of a backend order request. *)
Definition requestLines (its : list OrdersRoute.Item) : list (Q * Z) :=
  map (fun i => (OrdersRoute.price i, OrdersRoute.quantity i)) its.

(** The product and quantity of each item of a backend order request. *)
Definition requestQuantities (its : list OrdersRoute.Item) : list (Z * Z) :=
  map (fun i => (OrdersRoute.productId i, OrdersRoute.quantity i)) its.

(** The price and quantity of each item of a storefront order. *)
Definition orderLines (its : list OrderService.OrderItem) : list (Q * Z) :=
  map (fun i => (OrderService.price_at_purchase i, OrderService.quantity i)) its.

(** [p'] is the product row [p] with [n] units less in stock. *)
Definition stockLowered (n : Z) (p p' : Pg.ProductRow) : Prop :=
  Pg.productId p' = Pg.productId p /\ Pg.productName p' = Pg.productName p /\
  Pg.productPrice p' = Pg.productPrice p /\ Pg.productImage p' = Pg.productImage p /\
  Pg.productCategory p' = Pg.productCategory p /\
  Pg.stock p' = Pg.stock p - n.

(** [r] is the row stored for item [i] of order [oid]. *)
Definition storedItem (oid : Z) (i : OrdersRoute.Item) (r : Pg.OrderItemRow) : Prop :=
  Pg.order_id r = oid /\ Pg.product_id r = OrdersRoute.productId i /\
  Pg.quantity r = OrdersRoute.quantity i /\
  Pg.decimal_10_2 (OrdersRoute.price i) = Some (Pg.price_at_purchase r).

(** [o'] is the order row [o] up to its status. *)
Definition sameOrderRow (o o' : Pg.OrderRow) : Prop :=
  Pg.orderId o' = Pg.orderId o /\ Pg.orderUserId o' = Pg.orderUserId o /\
  Pg.total o' = Pg.total o /\ Pg.shipping_address o' = Pg.shipping_address o /\
  Pg.created_at o' = Pg.created_at o.

(** An ordinary cart: at most a thousand items, each at a price in
    whole cents that is not negative and in a positive quantity.  The
    order route is embedded with exact decimals; the handler adds
    doubles and PostgreSQL rounds the sum to the two decimals of the
    column, which can differ from the exact sum by a cent when a price
    has more than two decimals (1.005 three times is stored as 3.01).
    What is stated of a stored total is stated for ordinary carts. *)
Definition plainCart (its : list OrdersRoute.Item) : Prop :=
  (List.length its <= 1000)%nat /\
  Forall (fun i => Num.isCents (OrdersRoute.price i) /\
                   (0 <= OrdersRoute.price i)%Q /\
                   0 < OrdersRoute.quantity i) its.

(** A request for one pair of headphones at 79.99. *)
Definition oneHeadphones : OrdersRoute.CreateBody :=
  OrdersRoute.mkCreateBody (Some [OrdersRoute.mkItem 1 1 79.99])
    (Some "742 Evergreen Terrace"%string).

(** A request whose second item names a product the catalog lacks. *)
Definition withUnknownProduct : OrdersRoute.CreateBody :=
  OrdersRoute.mkCreateBody
    (Some [OrdersRoute.mkItem 1 1 79.99; OrdersRoute.mkItem 99 1 5])
    (Some "742 Evergreen Terrace"%string).

(** The same request without a shipping address. *)
Definition withoutAddress : OrdersRoute.CreateBody :=
  OrdersRoute.mkCreateBody (OrdersRoute.items withUnknownProduct) None.

(** The items of the first seed order, as a request. *)
Definition headphonesAndPots : OrdersRoute.CreateBody :=
  OrdersRoute.mkCreateBody
    (Some [OrdersRoute.mkItem 1 1 79.99; OrdersRoute.mkItem 10 2 29.99])
    (Some "742 Evergreen Terrace, Springfield, IL 62704"%string).

(** The seeded database after user 2 ordered one pair of headphones. *)
Definition dbWithOneOrder : Pg.Db :=
  fst (OrdersRoute.createOrder 0 2 oneHeadphones Pg.seedDb).

(** [o'] is the storefront order [o] up to its status. *)
Definition sameOrder (o o' : OrderService.Order) : Prop :=
  OrderService.id o' = OrderService.id o /\
  OrderService.orderNumber o' = OrderService.orderNumber o /\
  OrderService.user_id o' = OrderService.user_id o /\
  OrderService.subtotal o' = OrderService.subtotal o /\
  OrderService.tax o' = OrderService.tax o /\
  OrderService.fees o' = OrderService.fees o /\
  OrderService.total o' = OrderService.total o /\
  OrderService.shipping_address o' = OrderService.shipping_address o /\
  OrderService.created_at o' = OrderService.created_at o /\
  OrderService.email o' = OrderService.email o /\
  OrderService.first_name o' = OrderService.first_name o /\
  OrderService.last_name o' = OrderService.last_name o /\
  OrderService.items o' = OrderService.items o.

(** The orders that are cancelled. *)
Definition cancelledOrders (os : list OrderService.Order) : list OrderService.Order :=
  filter (fun o => OrderService.statusEqb (OrderService.status o) OrderService.cancelled) os.

(** The orders that are not cancelled. *)
Definition nonCancelled (os : list OrderService.Order) : list OrderService.Order :=
  filter (fun o => negb (OrderService.statusEqb (OrderService.status o) OrderService.cancelled)) os.

End OrderSpec.

Module ReviewSpec.
Import ReviewService.




End ReviewSpec.


Module LedgerSpec.
Import AuctionService.

(** The bids a user placed on an auction. *)
Definition bidsOfUser (aid user : Z) (bs : list Bid) : list Bid :=
  filter (fun b => (auctionId b =? aid) && (bidderId b =? user)) bs.

(** [a] ends no later than [b]. *)
Definition endsNoLater (a b : Auction) : Prop :=
  match endsAt a, endsAt b with
  | Some x, Some y => x <= y
  | _, _ => True
  end.

End LedgerSpec.

Module StoreSpec.

(** [a] was created no earlier than [b]. *)
Definition noOlder (a b : OrderService.Order) : Prop :=
  match OrderService.created_at a, OrderService.created_at b with
  | Some x, Some y => y <= x
  | _, _ => True
  end.

(** The invariant of the order tables: order ids are unique and below
    the sequence, and every order item belongs to an order that was
    allocated. *)
Record tablesOk (db : Pg.Db) : Prop := {
  ok_unique : NoDup (map Pg.orderId (Pg.orders (Pg.tables db)));
  ok_orders : forall o, In o (Pg.orders (Pg.tables db)) -> Pg.orderId o < Pg.orders_id_seq db;
  ok_items : forall i, In i (Pg.order_items (Pg.tables db)) -> Pg.order_id i < Pg.orders_id_seq db
}.

(** The administrator and the shopper of seed.js, as [req.user]. *)
Definition adminUser : OrdersRoute.ReqUser := OrdersRoute.mkReqUser 1 "admin".
Definition shopper : OrdersRoute.ReqUser := OrdersRoute.mkReqUser 2 "user".

(** The invariant of the review store: ids are unique and below the
    next id. *)
Record reviewsOk (s : ReviewService.State) : Prop := {
  rv_unique : NoDup (map ReviewService.id (ReviewService.reviews s));
  rv_ids : forall r, In r (ReviewService.reviews s) ->
                     ReviewService.id r < ReviewService.nextId s
}.

(** A review written by nobody yet, for the examples. *)
Definition fiveStars : ReviewService.NewReview :=
  ReviewService.mkNewReview 6 998 "Demo U." 5 "Warm" "Keeps the cold out.".

(** A star row: full stars, then at most one half star, then empty
    ones. *)
Definition starRow (full half : nat) : list string :=
  repeat "full"%string full ++ repeat "half"%string half
  ++ repeat "empty"%string (5 - full - half).

(** The number a star row shows. *)
Definition shownStars (full half : nat) : Q :=
  (inject_Z (Z.of_nat full) + inject_Z (Z.of_nat half) * (1 # 2))%Q.

(** Review [a] was written no earlier than review [b]. *)
Definition noOlderReview (a b : ReviewService.Review) : Prop :=
  match ReviewService.createdAt a, ReviewService.createdAt b with
  | Some x, Some y => y <= x
  | _, _ => True
  end.

(** The two quantity buttons of the product page, and a run of clicks
    on them. *)
Inductive Click := Plus | Minus.

Definition click (stock : option Z) (quantity : Z) (c : Click) : Z :=
  match c with
  | Plus => ProductDetail.incrementQuantity stock quantity
  | Minus => ProductDetail.decrementQuantity quantity
  end.

Definition clicks (stock : option Z) (cs : list Click) (quantity : Z) : Z :=
  fold_left (click stock) cs quantity.

End StoreSpec.


(** * Properties *)

(** ** Rounding *)

Module NumFacts.
Import Num.
Local Open Scope Q_scope.

Lemma ltb_lt (a b : Q) : ltb a b = true <-> a < b.
Proof.
  unfold ltb. rewrite negb_true_iff.
  split; intro H.
  - apply Qnot_le_lt. intro Hle. apply Qle_bool_iff in Hle. congruence.
  - destruct (Qle_bool b a) eqn:E; [|reflexivity].
    apply Qle_bool_iff in E. exfalso. apply (Qlt_not_le _ _ H E).
Qed.

Lemma ltb_ge (a b : Q) : ltb a b = false <-> b <= a.
Proof.
  unfold ltb. rewrite negb_false_iff. apply Qle_bool_iff.
Qed.

Lemma leb_le (a b : Q) : leb a b = true <-> a <= b.
Proof. apply Qle_bool_iff. Qed.

Lemma mathRound_bounds (x : Q) :
  inject_Z (mathRound x) <= x + (1 # 2) /\ x - (1 # 2) < inject_Z (mathRound x).
Proof.
  unfold mathRound. split.
  - apply Qfloor_le.
  - pose proof (Qlt_floor (x + (1 # 2))) as H.
    rewrite inject_Z_plus in H. change (inject_Z 1) with 1 in H. lra.
Qed.

Lemma mathRound_mono (x y : Q) : x <= y -> (mathRound x <= mathRound y)%Z.
Proof.
  intro H. unfold mathRound. apply Qfloor_resp_le. lra.
Qed.

Lemma mathRound_comp (x y : Q) : x == y -> mathRound x = mathRound y.
Proof.
  intro H. unfold mathRound. apply Qfloor_comp. rewrite H. reflexivity.
Qed.

Lemma mathRound_Z (k : Z) : mathRound (inject_Z k) = k.
Proof.
  unfold mathRound.
  assert (H1 : (k <= Qfloor (inject_Z k + (1 # 2)))%Z).
  { rewrite <- (Qfloor_Z k) at 1. apply Qfloor_resp_le. lra. }
  assert (H2 : (Qfloor (inject_Z k + (1 # 2)) < k + 1)%Z).
  { rewrite Zlt_Qlt. eapply Qle_lt_trans; [apply Qfloor_le|].
    rewrite inject_Z_plus. change (inject_Z 1) with 1. lra. }
  lia.
Qed.

#[export] Instance round2_proper : Proper (Qeq ==> Qeq) round2.
Proof.
  intros x y H. unfold round2.
  rewrite (mathRound_comp (x * 100) (y * 100)); [reflexivity|].
  rewrite H. reflexivity.
Qed.


(** [round2] moves a number by at most half a cent. *)
Lemma round2_bounds (x : Q) :
  round2 x <= x + (1 # 200) /\ x - (1 # 200) < round2 x.
Proof.
  unfold round2. destruct (mathRound_bounds (x * 100)) as [H1 H2].
  set (r := inject_Z (mathRound (x * 100))) in *.
  split.
  - apply Qle_shift_div_r; lra.
  - apply Qlt_shift_div_l; lra.
Qed.

Lemma round2_mono (x y : Q) : x <= y -> round2 x <= round2 y.
Proof.
  intro H. unfold round2.
  assert (Hz : (mathRound (x * 100) <= mathRound (y * 100))%Z)
    by (apply mathRound_mono; lra).
  rewrite Zle_Qle in Hz.
  apply Qle_shift_div_l; [lra|].
  unfold Qdiv. rewrite <- Qmult_assoc.
  setoid_replace (/ 100 * 100) with 1 by reflexivity. lra.
Qed.

Lemma round2_cents (k : Z) : round2 (inject_Z k / 100) == inject_Z k / 100.
Proof.
  unfold round2.
  rewrite (mathRound_comp (inject_Z k / 100 * 100) (inject_Z k)).
  - rewrite mathRound_Z. reflexivity.
  - field.
Qed.

Lemma round2_isCents (x : Q) : isCents (round2 x).
Proof. exists (mathRound (x * 100)). reflexivity. Qed.

Lemma round2_of_cents (x : Q) : isCents x -> round2 x == x.
Proof.
  intros [k Hk]. rewrite Hk. apply round2_cents.
Qed.

Lemma round2_idem (x : Q) : round2 (round2 x) == round2 x.
Proof. apply round2_of_cents, round2_isCents. Qed.

Lemma isCents_plus_1 (x : Q) : isCents x -> isCents (x + 1).
Proof.
  intros [k Hk]. exists (k + 100)%Z. rewrite Hk, inject_Z_plus. field.
Qed.

#[export] Instance isCents_proper : Proper (Qeq ==> iff) isCents.
Proof.
  intros x y H. unfold isCents. split; intros [k Hk]; exists k.
  - rewrite <- H. exact Hk.
  - rewrite H. exact Hk.
Qed.

(** The least acceptable bid is above the current price, whatever the
    current price is. *)
Lemma minBid_above (cp : Q) : cp < round2 (cp + 1).
Proof.
  destruct (round2_bounds (cp + 1)) as [_ H]. lra.
Qed.


Lemma round1_tenths (k : Z) : round1 (inject_Z k / 10) == inject_Z k / 10.
Proof.
  unfold round1.
  rewrite (mathRound_comp (inject_Z k / 10 * 10) (inject_Z k)).
  - rewrite mathRound_Z. reflexivity.
  - field.
Qed.

End NumFacts.

(** ** Comparing doubles *)

Module NumberFacts.
Import Number NumberSpec.

Lemma compare_cases (x y : t) :
  match SFcompare x y with
  | None => x = NaN \/ y = NaN
  | Some Lt => x <> NaN /\ y <> NaN /\ below (rank x) (rank y)
  | Some Eq => x <> NaN /\ y <> NaN /\ rank x = rank y
  | Some Gt => x <> NaN /\ y <> NaN /\ below (rank y) (rank x)
  end.
Proof.
  unfold NaN, below.
  destruct x as [sx|sx| |sx mx ex], y as [sy|sy| |sy my ey]; simpl; auto;
    try (destruct sx; simpl; repeat split; try discriminate; lia);
    try (destruct sy; simpl; repeat split; try discriminate; lia);
    try (destruct sx, sy; simpl; repeat split; try discriminate; lia).
  destruct sx, sy; simpl; try (repeat split; try discriminate; lia).
  - destruct (Z.compare_spec ex ey) as [He|He|He]; simpl;
      try (repeat split; try discriminate; lia).
    rewrite Pos.compare_cont_spec. simpl.
    destruct (Pos.compare_spec mx my) as [Hm|Hm|Hm]; simpl;
      repeat split; try discriminate; try lia.
    subst. reflexivity.
  - destruct (Z.compare_spec ex ey) as [He|He|He]; simpl;
      try (repeat split; try discriminate; lia).
    rewrite Pos.compare_cont_spec. simpl.
    destruct (Pos.compare_spec mx my) as [Hm|Hm|Hm]; simpl;
      repeat split; try discriminate; try lia.
    subst. reflexivity.
Qed.

Ltac rank_lia :=
  unfold below in *;
  repeat match goal with
  | H : rank ?x = rank ?y |- _ => rewrite H in *; clear H
  end;
  repeat match goal with
  | |- context [rank ?x] =>
      let a := fresh "a" in let b := fresh "b" in let c := fresh "c" in
      destruct (rank x) as [[a b] c]
  | H : context [rank ?x] |- _ =>
      let a := fresh "a" in let b := fresh "b" in let c := fresh "c" in
      destruct (rank x) as [[a b] c]
  end;
  cbn [fst snd] in *; try lia.

Lemma ltb_spec (x y : t) :
  ltb x y = true <-> x <> NaN /\ y <> NaN /\ below (rank x) (rank y).
Proof.
  unfold ltb, SFltb. pose proof (compare_cases x y) as H.
  destruct (SFcompare x y) as [[]|]; split; intro H'; try discriminate; try tauto;
    exfalso; destruct H' as (Hx & Hy & Hb); try tauto.
  - destruct H as (_ & _ & He). rank_lia.
  - destruct H as (_ & _ & He). rank_lia.
Qed.

Lemma leb_spec (x y : t) :
  leb x y = true <-> x <> NaN /\ y <> NaN /\ ~ below (rank y) (rank x).
Proof.
  unfold leb, SFleb. pose proof (compare_cases x y) as H.
  destruct (SFcompare x y) as [[]|]; split; intro H'; try discriminate; try tauto.
  - destruct H as (Hx & Hy & He). repeat split; auto. intro Hb. rank_lia.
  - destruct H as (Hx & Hy & He). repeat split; auto. intro Hb. rank_lia.
Qed.

Lemma ltb_irrefl (x : t) : ltb x x = false.
Proof.
  destruct (ltb x x) eqn:E; [|reflexivity].
  apply ltb_spec in E. destruct E as (_ & _ & Hb). exfalso. rank_lia.
Qed.

(** [a <= b] rules out [b < a]. *)
Lemma leb_not_ltb (x y : t) : leb x y = true -> ltb y x = false.
Proof.
  intro H. apply leb_spec in H. destruct H as (_ & _ & Hn).
  destruct (ltb y x) eqn:E; [|reflexivity].
  apply ltb_spec in E. tauto.
Qed.

Lemma leb_ltb_trans (x y z : t) : leb x y = true -> ltb y z = true -> ltb x z = true.
Proof.
  intros H1 H2. apply leb_spec in H1. apply ltb_spec in H2. apply ltb_spec.
  destruct H1 as (Hx & _ & H1), H2 as (_ & Hz & H2). repeat split; auto.
  rank_lia.
Qed.

Lemma leb_trans (x y z : t) : leb x y = true -> leb y z = true -> leb x z = true.
Proof.
  intros H1 H2. apply leb_spec in H1. apply leb_spec in H2. apply leb_spec.
  destruct H1 as (Hx & _ & H1), H2 as (_ & Hz & H2). repeat split; auto.
  intro Hb. rank_lia.
Qed.

Lemma leb_refl (x : t) : x <> NaN -> leb x x = true.
Proof. intro H. apply leb_spec. repeat split; auto. intro Hb. rank_lia. Qed.

Lemma leb_total (x y : t) : x <> NaN -> y <> NaN -> leb x y = true \/ leb y x = true.
Proof.
  intros Hx Hy.
  destruct (leb x y) eqn:E; [left; reflexivity|right].
  apply leb_spec. repeat split; auto. intro Hb.
  assert (H : leb x y = true); [|congruence].
  apply leb_spec. repeat split; auto. intro Hb'. rank_lia.
Qed.

(** Among numbers, [a < b] fails exactly when [b <= a]. *)
Lemma ltb_false_leb (x y : t) : x <> NaN -> y <> NaN -> ltb x y = false -> leb y x = true.
Proof.
  intros Hx Hy H. apply leb_spec. repeat split; auto. intro Hb.
  assert (H' : ltb x y = true) by (apply ltb_spec; auto). congruence.
Qed.

Lemma leb_number (x y : t) : leb x y = true -> x <> NaN /\ y <> NaN.
Proof. intro H. apply leb_spec in H. tauto. Qed.

Lemma ltb_number (x y : t) : ltb x y = true -> x <> NaN /\ y <> NaN.
Proof. intro H. apply ltb_spec in H. tauto. Qed.

Lemma ltb_leb (x y : t) : ltb x y = true -> leb x y = true.
Proof.
  intro H. apply ltb_spec in H. apply leb_spec.
  destruct H as (Hx & Hy & Hb). repeat split; auto. intro Hb'. rank_lia.
Qed.

(** *** The sign of a difference *)

Lemma digits2_bounds (m : positive) :
  2 ^ (Zpos (digits2_pos m) - 1) <= Zpos m < 2 ^ Zpos (digits2_pos m).
Proof.
  induction m as [p IH|p IH|]; cbn [digits2_pos].
  - rewrite Pos2Z.inj_succ.
    replace (Z.succ (Zpos (digits2_pos p)) - 1) with (Zpos (digits2_pos p)) by lia.
    rewrite Z.pow_succ_r by lia.
    assert (H : 2 ^ Zpos (digits2_pos p) = 2 * 2 ^ (Zpos (digits2_pos p) - 1)).
    { rewrite <- Z.pow_succ_r by lia. f_equal. lia. }
    lia.
  - rewrite Pos2Z.inj_succ.
    replace (Z.succ (Zpos (digits2_pos p)) - 1) with (Zpos (digits2_pos p)) by lia.
    rewrite Z.pow_succ_r by lia.
    assert (H : 2 ^ Zpos (digits2_pos p) = 2 * 2 ^ (Zpos (digits2_pos p) - 1)).
    { rewrite <- Z.pow_succ_r by lia. f_equal. lia. }
    lia.
  - simpl. lia.
Qed.

Lemma shr_1_m (mrs : shr_record) :
  0 <= shr_m mrs -> shr_m (shr_1 mrs) = shr_m mrs / 2.
Proof.
  destruct mrs as [[|[p|p|]|p] r s]; simpl; intro H; try lia.
  - reflexivity.
  - apply Z.div_unique with (r := 1); lia.
  - apply Z.div_unique with (r := 0); lia.
  - reflexivity.
Qed.

Lemma iter_shr_m (p : positive) (mrs : shr_record) :
  0 <= shr_m mrs ->
  shr_m (iter_pos shr_1 p mrs) = shr_m mrs / 2 ^ Zpos p.
Proof.
  revert mrs. induction p as [p IH|p IH|]; intros mrs H; cbn [iter_pos].
  - assert (H1 : 0 <= shr_m (shr_1 mrs)) by (rewrite shr_1_m by exact H; apply Z.div_pos; lia).
    assert (H2 : 0 <= shr_m (iter_pos shr_1 p (shr_1 mrs))).
    { rewrite IH by exact H1. apply Z.div_pos; [exact H1|]. apply Z.pow_pos_nonneg; lia. }
    rewrite IH by exact H2. rewrite IH by exact H1. rewrite shr_1_m by exact H.
    assert (Hp : 0 < 2 ^ Zpos p) by (apply Z.pow_pos_nonneg; lia).
    rewrite !Z.div_div by lia. f_equal.
    rewrite <- Z.pow_add_r, <- Z.pow_succ_r by lia. f_equal. lia.
  - assert (H2 : 0 <= shr_m (iter_pos shr_1 p mrs)).
    { rewrite IH by exact H. apply Z.div_pos; [exact H|]. apply Z.pow_pos_nonneg; lia. }
    rewrite IH by exact H2. rewrite IH by exact H.
    assert (Hp : 0 < 2 ^ Zpos p) by (apply Z.pow_pos_nonneg; lia).
    rewrite !Z.div_div by lia. f_equal.
    rewrite <- Z.pow_add_r by lia. f_equal. lia.
  - rewrite shr_1_m by exact H. reflexivity.
Qed.

Lemma shr_record_of_loc_m (m : Z) (l : location) : shr_m (shr_record_of_loc m l) = m.
Proof. destruct l as [|[]]; reflexivity. Qed.

Lemma shr_fexp_pos (m e : Z) (l : location) :
  0 < m -> -1074 <= e ->
  0 < shr_m (fst (shr_fexp prec emax m e l)) /\ -1074 <= snd (shr_fexp prec emax m e l).
Proof.
  intros Hm He. unfold shr_fexp, shr.
  destruct m as [|p|p]; try lia. cbn [Zdigits2].
  pose proof (digits2_bounds p) as Hd.
  set (d := Zpos (digits2_pos p)) in *.
  unfold fexp, emin, prec, emax.
  destruct (Z.max (d + e - 53) (3 - 1024 - 53) - e) as [|n|n] eqn:En; cbn [fst snd].
  - rewrite shr_record_of_loc_m. lia.
  - rewrite iter_shr_m by (rewrite shr_record_of_loc_m; lia).
    rewrite shr_record_of_loc_m. split; [|lia].
    assert (Hn : Zpos n = d - 53) by lia.
    apply Z.div_str_pos. split; [apply Z.pow_pos_nonneg; lia|].
    transitivity (2 ^ (d - 1)); [apply Z.pow_le_mono_r; lia|tauto].
  - rewrite shr_record_of_loc_m. lia.
Qed.

Lemma round_nearest_even_pos (m : Z) (l : location) :
  0 < m -> 0 < round_nearest_even m l.
Proof.
  intro H. destruct l as [|[]]; simpl; try lia. destruct (Z.even m); lia.
Qed.

Lemma binary_round_aux_sign (sx : bool) (m e : Z) (l : location) :
  0 < m -> -1074 <= e ->
  (exists m' e', binary_round_aux prec emax sx m e l = S754_finite sx m' e') \/
  binary_round_aux prec emax sx m e l = S754_infinity sx.
Proof.
  intros Hm He. unfold binary_round_aux.
  destruct (shr_fexp_pos m e l Hm He) as [H1 H2].
  destruct (shr_fexp prec emax m e l) as [mrs' e']. cbn [fst snd] in H1, H2.
  pose proof (round_nearest_even_pos _ (loc_of_shr_record mrs') H1) as H3.
  destruct (shr_fexp_pos _ e' loc_Exact H3 H2) as [H4 H5].
  destruct (shr_fexp prec emax
              (round_nearest_even (shr_m mrs') (loc_of_shr_record mrs')) e' loc_Exact)
    as [mrs'' e''].
  cbn [fst snd] in H4, H5.
  destruct (shr_m mrs'') as [|q|q]; try lia.
  destruct (e'' <=? emax - prec); eauto.
Qed.

Lemma binary_round_sign (sx : bool) (m : positive) (e : Z) :
  -1074 <= e ->
  (exists m' e', binary_round prec emax sx m e = S754_finite sx m' e') \/
  binary_round prec emax sx m e = S754_infinity sx.
Proof.
  intro He. unfold binary_round, shl_align.
  set (e' := fexp prec emax (Zpos (digits2_pos m) + e)).
  assert (He' : -1074 <= e') by (unfold e', fexp, emin, prec, emax; lia).
  destruct (e' - e); apply binary_round_aux_sign; lia.
Qed.

(** The sign of a number rounded to a double is the sign of the
    number: rounding does not reach zero from an exponent of at least
    the least one. *)
Lemma binary_normalize_sign (z e : Z) :
  -1074 <= e ->
  SFltb (S754_zero false) (binary_normalize prec emax z e false) = (0 <? z).
Proof.
  intro He. destruct z as [|p|p]; cbn [binary_normalize].
  - reflexivity.
  - destruct (binary_round_sign false p e He) as [(m' & e' & ->)| ->]; reflexivity.
  - destruct (binary_round_sign true p e He) as [(m' & e' & ->)| ->]; reflexivity.
Qed.

Lemma iter_xO_value (d m : positive) : Zpos (Pos.iter xO m d) = Zpos m * 2 ^ Zpos d.
Proof.
  induction d as [|d IH] using Pos.peano_ind.
  - simpl. lia.
  - rewrite Pos.iter_succ, Pos2Z.inj_succ, Z.pow_succ_r by lia.
    rewrite Pos2Z.inj_xO, IH. lia.
Qed.

Lemma shl_align_value (m : positive) (e ez : Z) :
  ez <= e -> Zpos (fst (shl_align m e ez)) = Zpos m * 2 ^ (e - ez).
Proof.
  intro H. unfold shl_align. destruct (ez - e) as [|d|d] eqn:E; cbn [fst].
  - replace (e - ez) with 0 by lia. simpl. lia.
  - lia.
  - rewrite iter_xO_value. f_equal. f_equal. lia.
Qed.

Lemma bounded_digits (m : positive) (e : Z) :
  bounded prec emax m e = true ->
  -1074 <= e /\ Zpos m < 2 ^ 53 /\ (-1074 < e -> 2 ^ 52 <= Zpos m).
Proof.
  unfold bounded, canonical_mantissa, fexp, emin, prec, emax.
  rewrite andb_true_iff, Z.eqb_eq. intros [H _].
  pose proof (digits2_bounds m) as Hd.
  set (d := Zpos (digits2_pos m)) in *.
  split; [lia|]. split.
  - apply Z.lt_le_trans with (2 ^ d); [tauto|]. apply Z.pow_le_mono_r; lia.
  - intro He. assert (d = 53) by lia. replace 52 with (d - 1) by lia. tauto.
Qed.

(** Two positive doubles compare as their exponents do, and as their
    mantissas at equal exponents. *)
Lemma aligned_compare (mx my : positive) (ex ey : Z) :
  bounded prec emax mx ex = true -> bounded prec emax my ey = true ->
  let ez := Z.min ey ex in
  (Zpos mx * 2 ^ (ex - ez) ?= Zpos my * 2 ^ (ey - ez)) =
  match ex ?= ey with
  | Lt => Lt
  | Gt => Gt
  | Eq => Pos.compare_cont Eq mx my
  end.
Proof.
  intros Hx Hy ez.
  destruct (bounded_digits _ _ Hx) as (Hex & Hmx & Hnx).
  destruct (bounded_digits _ _ Hy) as (Hey & Hmy & Hny).
  change (2 ^ 53) with 9007199254740992 in *.
  change (2 ^ 52) with 4503599627370496 in *.
  destruct (Z.compare_spec ex ey) as [He|He|He].
  - subst ey. unfold ez. rewrite Z.min_id, Z.sub_diag. simpl (2 ^ 0).
    rewrite !Z.mul_1_r. reflexivity.
  - unfold ez. rewrite Z.min_r by lia. rewrite Z.sub_diag. simpl (2 ^ 0).
    rewrite Z.mul_1_r. apply Z.compare_lt_iff.
    assert (Hk : 2 <= 2 ^ (ey - ex)).
    { change 2 with (2 ^ 1) at 1. apply Z.pow_le_mono_r; lia. }
    specialize (Hny ltac:(lia)). nia.
  - unfold ez. rewrite Z.min_l by lia. rewrite Z.sub_diag. simpl (2 ^ 0).
    rewrite Z.mul_1_r. apply Z.compare_gt_iff.
    assert (Hk : 2 <= 2 ^ (ex - ey)).
    { change 2 with (2 ^ 1) at 1. apply Z.pow_le_mono_r; lia. }
    specialize (Hnx ltac:(lia)). nia.
Qed.

(** For doubles other than NaN, [y - x] is above 0 exactly when
    [x < y]. *)
Lemma sub_sign (x y : t) :
  isDouble x = true -> isDouble y = true -> x <> NaN -> y <> NaN ->
  ltb zero (sub y x) = ltb x y.
Proof.
  unfold isDouble, NaN, ltb, sub. change zero with (S754_zero false).
  intros Hx Hy Nx Ny.
  destruct x as [sx|sx| |sx mx ex]; [| |congruence|];
    destruct y as [sy|sy| |sy my ey]; try congruence;
    try (destruct sx, sy; reflexivity);
    try (destruct sx; reflexivity); try (destruct sy; reflexivity).
  cbn [valid_binary] in Hx, Hy. cbn [SFsub].
  destruct (bounded_digits _ _ Hx) as (Hex & _).
  destruct (bounded_digits _ _ Hy) as (Hey & _).
  rewrite binary_normalize_sign by lia.
  rewrite !shl_align_value by lia.
  pose proof (aligned_compare mx my ex ey Hx Hy) as Hc. cbv zeta in Hc.
  set (X := Zpos mx * 2 ^ (ex - Z.min ey ex)) in *.
  set (Y := Zpos my * 2 ^ (ey - Z.min ey ex)) in *.
  assert (HX : 0 < X) by (apply Z.mul_pos_pos; [lia|apply Z.pow_pos_nonneg; lia]).
  assert (HY : 0 < Y) by (apply Z.mul_pos_pos; [lia|apply Z.pow_pos_nonneg; lia]).
  clearbody X Y. unfold SFltb, SFcompare, cond_Zopp.
  destruct sx, sy.
  - destruct (ex ?= ey) eqn:E.
    + rewrite <- Hc.
      destruct (Z.compare_spec X Y) as [E'|E'|E']; simpl;
        [apply Z.ltb_ge|apply Z.ltb_ge|apply Z.ltb_lt]; lia.
    + change (X < Y) in Hc. apply Z.ltb_ge. lia.
    + assert (Hg : Y < X) by (apply Z.compare_gt_iff; exact Hc). apply Z.ltb_lt. lia.
  - apply Z.ltb_lt. lia.
  - apply Z.ltb_ge. lia.
  - destruct (ex ?= ey) eqn:E.
    + rewrite <- Hc.
      destruct (Z.compare_spec X Y) as [E'|E'|E']; simpl;
        [apply Z.ltb_ge|apply Z.ltb_lt|apply Z.ltb_ge]; lia.
    + change (X < Y) in Hc. apply Z.ltb_lt. lia.
    + assert (Hg : Y < X) by (apply Z.compare_gt_iff; exact Hc). apply Z.ltb_ge. lia.
Qed.

Lemma negb_ltb (x y : t) : x <> NaN -> y <> NaN -> negb (ltb x y) = leb y x.
Proof.
  intros Hx Hy. destruct (ltb x y) eqn:E; simpl.
  - destruct (leb y x) eqn:E'; [|reflexivity].
    apply leb_not_ltb in E'. congruence.
  - symmetry. apply ltb_false_leb; assumption.
Qed.

End NumberFacts.

(** ** Arrays *)

Module JsFacts.
Import Js.

Section Arrays.
Context {A : Type}.

Lemma In_insertSorted (before : A -> A -> bool) (x y : A) (l : list A) :
  In y (insertSorted before x l) <-> y = x \/ In y l.
Proof.
  induction l as [|z l IH]; simpl.
  - intuition congruence.
  - destruct (before x z); simpl.
    + intuition congruence.
    + rewrite IH. intuition congruence.
Qed.

Lemma In_sort (before : A -> A -> bool) (y : A) (l : list A) :
  In y (sort before l) <-> In y l.
Proof.
  induction l as [|x l IH]; simpl.
  - tauto.
  - unfold sort in *. simpl. rewrite In_insertSorted, IH. intuition congruence.
Qed.

Lemma sort_nil_inv (before : A -> A -> bool) (l : list A) :
  sort before l = [] -> l = [].
Proof.
  destruct l as [|x l]; [reflexivity|].
  intro H. exfalso.
  assert (Hin : In x (sort before (x :: l))) by (apply In_sort; left; reflexivity).
  rewrite H in Hin. exact Hin.
Qed.

Lemma updateFirst_length (p : A -> bool) (f : A -> A) (l : list A) :
  List.length (updateFirst p f l) = List.length l.
Proof.
  induction l as [|x l IH]; simpl; [reflexivity|].
  destruct (p x); simpl; congruence.
Qed.

(** What [updateFirst] leaves at each position. *)
Lemma updateFirst_nth (p : A -> bool) (f : A -> A) (l : list A) (i : nat) (x : A) :
  nth_error l i = Some x ->
  nth_error (updateFirst p f l) i = Some x \/
  (p x = true /\ find p l = Some x /\ nth_error (updateFirst p f l) i = Some (f x)).
Proof.
  revert i. induction l as [|y l IH]; intros [|i] H; simpl in *; try discriminate.
  - injection H as ->. destruct (p x) eqn:E; simpl; auto.
  - destruct (p y) eqn:E; simpl; [left; exact H|].
    destruct (IH i H) as [H1|(H1 & H2 & H3)]; auto.
Qed.

Lemma updateFirst_nth_other (p : A -> bool) (f : A -> A) (l : list A) (i : nat) (x : A) :
  nth_error l i = Some x -> p x = false ->
  nth_error (updateFirst p f l) i = Some x.
Proof.
  intros H Hp. destruct (updateFirst_nth p f l i x H) as [H1|(H1 & _)]; [exact H1|congruence].
Qed.

(** After the assignment, [find] with a test that [f] does not affect
    answers with the updated element. *)
Lemma find_updateFirst (p : A -> bool) (f : A -> A) (l : list A) (x : A) :
  (forall y, p (f y) = p y) ->
  find p l = Some x -> find p (updateFirst p f l) = Some (f x).
Proof.
  intros Hf. induction l as [|y l IH]; simpl; [discriminate|].
  destruct (p y) eqn:E; intro H.
  - injection H as ->. simpl. rewrite Hf, E. reflexivity.
  - simpl. rewrite E. apply IH, H.
Qed.

Lemma find_updateFirst_other (p q : A -> bool) (f : A -> A) (l : list A) :
  (forall y, q (f y) = q y) ->
  (forall y, p y = true -> q y = false) ->
  find q (updateFirst p f l) = find q l.
Proof.
  intros Hf Hpq. induction l as [|y l IH]; simpl; [reflexivity|].
  destruct (p y) eqn:E; simpl.
  - rewrite Hf. rewrite (Hpq y E). reflexivity.
  - destruct (q y); [reflexivity|exact IH].
Qed.

Lemma find_none_updateFirst (p : A -> bool) (f : A -> A) (l : list A) :
  find p l = None -> updateFirst p f l = l.
Proof.
  induction l as [|y l IH]; simpl; [reflexivity|].
  destruct (p y); [discriminate|]. intro H. rewrite (IH H). reflexivity.
Qed.

Lemma findIndex_find (p : A -> bool) (l : list A) :
  match findIndex p l with
  | Some i => exists x, nth_error l i = Some x /\ find p l = Some x
  | None => find p l = None
  end.
Proof.
  induction l as [|y l IH]; simpl; [reflexivity|].
  destruct (p y) eqn:E.
  - exists y. simpl. auto.
  - destruct (findIndex p l) as [i|].
    + destruct IH as (x & H1 & H2). exists x. simpl. auto.
    + exact IH.
Qed.

Lemma setAt_nth_same (i : nat) (v x : A) (l : list A) :
  nth_error l i = Some x -> nth_error (setAt i v l) i = Some v.
Proof.
  revert i. induction l as [|y l IH]; intros [|i] H; simpl in *; try discriminate; auto.
Qed.

Lemma setAt_nth_other (i j : nat) (v : A) (l : list A) :
  i <> j -> nth_error (setAt i v l) j = nth_error l j.
Proof.
  revert i j. induction l as [|y l IH]; intros [|i] [|j] H; simpl; auto;
    try congruence.
Qed.

Lemma setAt_length (i : nat) (v : A) (l : list A) :
  List.length (setAt i v l) = List.length l.
Proof.
  revert i. induction l as [|y l IH]; intros [|i]; simpl; auto.
Qed.

End Arrays.

Lemma dateLe_mono (d : Time) (t t' : Z) :
  (t <= t')%Z -> dateLe d t = true -> dateLe d t' = true.
Proof.
  destruct d as [x|]; simpl; [|discriminate].
  rewrite !Z.leb_le. lia.
Qed.

End JsFacts.

(** ** Auction engine: the expiry sweep *)

Module AuctionFacts.
Import AuctionService AuctionSpec.

Lemma statusEqb_eq (a b : AuctionStatus) : statusEqb a b = true <-> a = b.
Proof. destruct a, b; simpl; split; intro H; congruence. Qed.

Lemma statusEqb_neq (a b : AuctionStatus) : statusEqb a b = false <-> a <> b.
Proof. destruct a, b; simpl; split; intro H; congruence. Qed.

Lemma expired_iff (now : Z) (a : Auction) :
  expired now a = true <-> status a = active /\ Js.dateLe (endsAt a) now = true.
Proof.
  unfold expired. rewrite andb_true_iff, statusEqb_eq. tauto.
Qed.

Lemma In_bidsOf (aid : Z) (bs : list Bid) (b : Bid) :
  In b (bidsOf aid bs) <-> In b bs /\ auctionId b = aid.
Proof.
  unfold bidsOf. rewrite filter_In, Z.eqb_eq. tauto.
Qed.

Lemma topBid_none (aid : Z) (bs : list Bid) :
  topBid aid bs = None <-> bidsOf aid bs = [].
Proof.
  unfold topBid. split; intro H.
  - destruct (Js.sort amountDesc (bidsOf aid bs)) eqn:E; [|discriminate].
    apply JsFacts.sort_nil_inv in E. exact E.
  - rewrite H. reflexivity.
Qed.

(** [settle] touches the status and the winner only. *)
Lemma settle_sameListing (now : Z) (bs : list Bid) (a : Auction) :
  sameListing a (settle now bs a).
Proof.
  unfold settle, sameListing.
  destruct (expired now a); [|tauto].
  destruct (bidCount a >? 0); [|simpl; tauto].
  destruct (topBid (id a) bs); simpl; tauto.
Qed.

Lemma settle_terminal (now : Z) (bs : list Bid) (a : Auction) :
  status a <> active -> settle now bs a = a.
Proof.
  intro H. unfold settle.
  destruct (expired now a) eqn:E; [|reflexivity].
  apply expired_iff in E. tauto.
Qed.

(** The sweep visits the auctions one by one; where it stops early the
    rest is left as it was. *)
Lemma sweep_nth (now : Z) (bs : list Bid) (l : list Auction) (i : nat) (a : Auction) :
  nth_error l i = Some a ->
  nth_error (fst (sweep now bs l)) i = Some (settle now bs a) \/
  (snd (sweep now bs l) = false /\ nth_error (fst (sweep now bs l)) i = Some a).
Proof.
  revert i. induction l as [|x l IH]; intros [|i] H; simpl in H; try discriminate.
  - injection H as ->. left. simpl. unfold settle.
    destruct (expired now a); [|destruct (sweep now bs l); reflexivity].
    destruct (bidCount a >? 0); [|destruct (sweep now bs l); reflexivity].
    destruct (topBid (id a) bs); [destruct (sweep now bs l)|]; reflexivity.
  - specialize (IH i H). simpl.
    destruct (expired now x).
    + destruct (bidCount x >? 0).
      * destruct (topBid (id x) bs).
        -- destruct (sweep now bs l); simpl in *. exact IH.
        -- right. simpl. auto.
      * destruct (sweep now bs l); simpl in *. exact IH.
    + destruct (sweep now bs l); simpl in *. exact IH.
Qed.

(** When the ledger covers the auctions the sweep runs to its end and
    settles every auction. *)
Lemma sweep_complete (now : Z) (bs : list Bid) (l : list Auction) :
  (forall a, In a l -> bidCount a > 0 -> bidsOf (id a) bs <> []) ->
  sweep now bs l = (map (settle now bs) l, true).
Proof.
  induction l as [|x l IH]; intro Hc; simpl; [reflexivity|].
  rewrite IH by (intros a Ha; apply Hc; right; exact Ha).
  unfold settle.
  destruct (expired now x); [|reflexivity].
  destruct (bidCount x >? 0) eqn:Hb; [|reflexivity].
  destruct (topBid (id x) bs) eqn:Ht; [reflexivity|].
  exfalso. apply topBid_none in Ht.
  apply (Hc x (or_introl eq_refl)); [|exact Ht].
  apply Z.gtb_lt in Hb. lia.
Qed.

Lemma checkAndEndAuctions_complete (now : Z) (s : State) :
  ledgerCovers s ->
  checkAndEndAuctions now s =
    (setAuctions (map (settle now (bids s)) (auctions s)) s, true).
Proof.
  intro H. unfold checkAndEndAuctions.
  rewrite (sweep_complete now (bids s) (auctions s) H). reflexivity.
Qed.

Lemma find_map_settle (now : Z) (bs : list Bid) (aid : Z) (l : list Auction) :
  find (fun a => id a =? aid) (map (settle now bs) l) =
  option_map (settle now bs) (find (fun a => id a =? aid) l).
Proof.
  induction l as [|x l IH]; simpl; [reflexivity|].
  destruct (settle_sameListing now bs x) as [Hid _]. rewrite Hid.
  destruct (id x =? aid); [reflexivity|exact IH].
Qed.

(** ** Auction engine: the shape of a step *)

Lemma afterSweep_read {T : Type} (now : Z) (s : State) (k : State -> State * Result T) :
  (forall s1, fst (k s1) = s1) ->
  fst (afterSweep now s k) = fst (checkAndEndAuctions now s).
Proof.
  intro Hk. unfold afterSweep.
  destruct (checkAndEndAuctions now s) as [s1 ok]. destruct ok; simpl; auto.
Qed.

Lemma run_sweeping_any (s : State) (c : Call) (now : Z) :
  sweepTime c = Some now -> run c s = fst (checkAndEndAuctions now s).
Proof.
  intro Ht.
  destruct c; simpl in Ht; try discriminate; injection Ht as ->; simpl;
    try (apply afterSweep_read; intro s1; reflexivity).
  - apply afterSweep_read. intro s1. destruct (findAuction aid s1); reflexivity.
  - unfold getActiveAuctionCount.
    destruct (checkAndEndAuctions now s) as [s1 ok]. destruct ok; reflexivity.
Qed.

Lemma placeBid_state (now now' now'' aid bidder : Z) (name : string) (amt : Q) (s : State) :
  let s1 := fst (checkAndEndAuctions now s) in
  let bid := storedBid now'' aid bidder name amt s1 in
  fst (placeBid now now' now'' aid bidder name amt s) = s1 \/
  exists a,
    findAuction aid s1 = Some a /\ status a = active /\
    (Num.round2 (currentPrice a + 1) <= amt)%Q /\
    fst (placeBid now now' now'' aid bidder name amt s) =
      mkState (Js.updateFirst (fun x => id x =? aid) (recordBid bid) (auctions s1))
              (bids s1 ++ [bid]) (nextAuctionId s1) (nextBidId s1 + 1).
Proof.
  cbv zeta. unfold placeBid, afterSweep, storedBid.
  destruct (checkAndEndAuctions now s) as [s1 ok]. simpl fst.
  destruct ok; [|left; reflexivity].
  destruct (findAuction aid s1) as [a|] eqn:Hf; [|left; reflexivity].
  destruct (statusEqb (status a) active) eqn:Hs; simpl; [|left; reflexivity].
  destruct (Js.dateLe (endsAt a) now'); [left; reflexivity|].
  destruct (sellerId a =? bidder); [left; reflexivity|].
  destruct (Num.ltb amt (Num.round2 (currentPrice a + 1))) eqn:Hl; [left; reflexivity|].
  right. exists a. simpl.
  repeat split; auto.
  - apply statusEqb_eq, Hs.
  - apply NumFacts.ltb_ge, Hl.
Qed.

Lemma sweep_keeps_settled (now : Z) (s : State) (i : nat) (a : Auction) :
  nth_error (auctions s) i = Some a ->
  nth_error (auctions (fst (checkAndEndAuctions now s))) i = Some (settle now (bids s) a) \/
  nth_error (auctions (fst (checkAndEndAuctions now s))) i = Some a.
Proof.
  intro H. unfold checkAndEndAuctions.
  pose proof (sweep_nth now (bids s) (auctions s) i a H) as Hn.
  destruct (sweep now (bids s) (auctions s)) as [l ok]. simpl in *.
  destruct Hn as [Hn|[_ Hn]]; auto.
Qed.

Lemma sweep_keeps_terminal (now : Z) (s : State) (i : nat) (a : Auction) :
  nth_error (auctions s) i = Some a -> status a <> active ->
  nth_error (auctions (fst (checkAndEndAuctions now s))) i = Some a.
Proof.
  intros H Hs.
  destruct (sweep_keeps_settled now s i a H) as [Hn|Hn]; [|exact Hn].
  rewrite (settle_terminal now (bids s) a Hs) in Hn. exact Hn.
Qed.

Lemma terminal_not_active (st : AuctionStatus) : isTerminal st -> st <> active.
Proof. intros [->|[->| ->]]; discriminate. Qed.

(** C5, amended.  No call other than the administrator's
    [updateAuctionStatus] changes an auction that is sold, ended or
    cancelled: after the call the same auction, with the same status,
    sits at the same place.  [updateAuctionStatus] overwrites the status
    of the auction it finds with whatever status it is given, whatever
    the status was. *)
Theorem terminal_status_kept (s : State) (c : Call) (i : nat) (a : Auction) :
  nth_error (auctions s) i = Some a ->
  isTerminal (status a) ->
  (isStatusOverride c = false -> nth_error (auctions (run c s)) i = Some a) /\
  (forall aid st, findAuction aid s = Some a ->
     exists s',
       updateAuctionStatus aid st s = (s', Normal (ofValue (setStatus st a))) /\
       findAuction aid s' = Some (setStatus st a) /\
       status (setStatus st a) = st).
Proof.
  intros Hi Ht. apply terminal_not_active in Ht.
  split.
  - intro Hc.
    destruct (sweepTime c) as [now|] eqn:Hsw.
    { rewrite (run_sweeping_any s c now Hsw). apply sweep_keeps_terminal; assumption. }
    destruct c; simpl in Hsw, Hc; try discriminate; simpl; try exact Hi.
    + (* createAuction *)
      rewrite nth_error_app1; [exact Hi|].
      apply nth_error_Some. congruence.
    + (* placeBid *)
      pose proof (sweep_keeps_terminal now s i a Hi Ht) as H1.
      destruct (placeBid_state now now' now'' aid bidder name amt s)
        as [->|(x & Hf & Hx & _ & ->)]; [exact H1|].
      simpl.
      destruct (JsFacts.updateFirst_nth (fun y => id y =? aid)
                  (recordBid (storedBid now'' aid bidder name amt
                                (fst (checkAndEndAuctions now s))))
                  _ i a H1) as [H2|(_ & H2 & _)]; [exact H2|].
      unfold findAuction in Hf. congruence.
    + (* cancelAuction *)
      unfold cancelAuction.
      destruct (findAuction aid s) as [x|] eqn:Hf; [|exact Hi].
      destruct (sellerId x =? seller); simpl; [|exact Hi].
      destruct (statusEqb (status x) active) eqn:Hx; simpl; [|exact Hi].
      apply statusEqb_eq in Hx.
      destruct (JsFacts.updateFirst_nth (fun y => id y =? aid) (setStatus cancelled)
                  _ i a Hi) as [H2|(_ & H2 & _)]; [exact H2|].
      unfold findAuction in Hf. congruence.
  - intros aid st Hf. unfold updateAuctionStatus. rewrite Hf.
    eexists. split; [reflexivity|]. split; [|reflexivity].
    unfold findAuction in *. simpl.
    apply JsFacts.find_updateFirst; [reflexivity|exact Hf].
Qed.

(** ** Auction engine: the ledger invariant *)

Lemma Forall2_In_r {A B : Type} (R : A -> B -> Prop) (l : list A) (l' : list B) (y : B) :
  Forall2 R l l' -> In y l' -> exists x, In x l /\ R x y.
Proof.
  induction 1 as [|x y' l l' HR HF IH]; intro Hin; [destruct Hin|].
  destruct Hin as [->|Hin].
  - exists x. split; [left; reflexivity|exact HR].
  - destruct (IH Hin) as (x' & Hx & HR'). exists x'. split; [right; exact Hx|exact HR'].
Qed.

Lemma findAuction_some (aid : Z) (s : State) (a : Auction) :
  findAuction aid s = Some a -> In a (auctions s) /\ id a = aid.
Proof.
  unfold findAuction. intro H. apply find_some in H.
  rewrite Z.eqb_eq in H. exact H.
Qed.

Lemma ledgerMatchesb_true (a : Auction) (bs : list Bid) :
  ledgerMatchesb a bs = true -> ledgerMatches a bs.
Proof.
  unfold ledgerMatchesb, ledgerMatches. rewrite andb_true_iff, Z.eqb_eq.
  intros [H1 H2]. split; [apply Qeq_bool_iff, H1|exact H2].
Qed.

Lemma wellFormed_initial (loaded hour : Z) : wellFormed (initialState loaded hour).
Proof.
  assert (Hids : map id (SEED_AUCTIONS loaded hour) = [1; 2; 3; 4; 5; 6])
    by reflexivity.
  constructor; unfold initialState; cbn [auctions bids nextAuctionId nextBidId].
  - rewrite Hids. repeat constructor; simpl; intuition lia.
  - intros a Ha. apply (in_map id) in Ha. rewrite Hids in Ha.
    simpl in Ha. intuition lia.
  - intros b Hb. apply (in_map auctionId) in Hb.
    change (map auctionId (SEED_BIDS loaded hour))
      with [1; 1; 1; 1; 2; 2; 2; 3; 3; 3; 4; 4; 5; 5; 5; 5; 5] in Hb.
    simpl in Hb. intuition lia.
  - intros a Ha.
    assert (Hall : forallb (fun x => Qeq_bool (Num.round2 (currentPrice x)) (currentPrice x))
                     (SEED_AUCTIONS loaded hour) = true) by (vm_compute; reflexivity).
    rewrite forallb_forall in Hall. specialize (Hall a Ha).
    apply Qeq_bool_iff in Hall.
    apply (proj1 (NumFacts.isCents_proper _ _ Hall)), NumFacts.round2_isCents.
  - intros a Ha.
    assert (Hall : forallb (fun x => ledgerMatchesb x (SEED_BIDS loaded hour))
                     (SEED_AUCTIONS loaded hour) = true) by (vm_compute; reflexivity).
    rewrite forallb_forall in Hall. apply ledgerMatchesb_true, Hall, Ha.
Qed.

Lemma wellFormed_ledgerCovers (s : State) : wellFormed s -> ledgerCovers s.
Proof.
  intros H a Ha Hb Hnil.
  destruct (wf_ledger s H a Ha) as [_ Hn].
  unfold ledgerCount in Hn. rewrite Hnil in Hn. simpl in Hn. lia.
Qed.

(** The ledger price is the largest of the starting price and the bid
    amounts. *)
Lemma fold_left_Qmax_spec (l : list Q) (start : Q) :
  (start <= fold_left Qmax l start)%Q /\
  (forall x, In x l -> (x <= fold_left Qmax l start)%Q) /\
  (fold_left Qmax l start == start \/ exists x, In x l /\ fold_left Qmax l start == x)%Q.
Proof.
  revert start. induction l as [|y l IH]; intro start; simpl.
  - split; [apply Qle_refl|]. split; [intros x []|left; reflexivity].
  - destruct (IH (Qmax start y)) as (H1 & H2 & H3).
    pose proof (Q.le_max_l start y) as Hl. pose proof (Q.le_max_r start y) as Hr.
    split; [lra|]. split.
    + intros x [<-|Hx]; [lra|apply H2, Hx].
    + destruct H3 as [H3|(x & Hx & H3)].
      * destruct (Q.max_dec start y) as [Hm|Hm].
        -- left. rewrite H3. exact Hm.
        -- right. exists y. split; [left; reflexivity|]. rewrite H3. exact Hm.
      * right. exists x. split; [right; exact Hx|exact H3].
Qed.

Lemma terminal_status_kept_witness :
  exists a,
    nth_error (auctions atMidnight) 4 = Some a /\
    isTerminal (status a) /\
    nth_error (auctions (run (GetAllAuctions 0) atMidnight)) 4 = Some a /\
    nth_error (auctions (run (CancelAuction 5 998) atMidnight)) 4 = Some a.
Proof.
  set (s := atMidnight). eexists.
  split; [reflexivity|].
  assert (Ht : isTerminal sold) by (left; reflexivity).
  split; [exact Ht|].
  split.
  - apply (terminal_status_kept s (GetAllAuctions 0) 4 _ eq_refl Ht). reflexivity.
  - apply (terminal_status_kept s (CancelAuction 5 998) 4 _ eq_refl Ht). reflexivity.
Defined.

(** C5 as stated fails for the administrator's update: the sold auction
    5 is active again after [updateAuctionStatus(5, 'active')]. *)
Lemma sold_auction_reactivated :
  exists a a',
    findAuction 5 atMidnight = Some a /\ status a = sold /\
    findAuction 5 (run (UpdateAuctionStatus 5 active) atMidnight) = Some a' /\
    status a' = active.
Proof.
  eexists. eexists.
  split; [vm_compute; reflexivity|].
  split; [reflexivity|].
  split; [vm_compute; reflexivity|reflexivity].
Qed.

End AuctionFacts.

(** ** Auction engine in binary64: the expiry sweep and bidding *)

Module Auction64Facts.
Import AuctionService64 Auction64Spec.

Lemma statusEqb_eq_64 (a b : AuctionStatus) : statusEqb a b = true <-> a = b.
Proof. destruct a, b; simpl; split; intro H; congruence. Qed.

Lemma statusEqb_neq_64 (a b : AuctionStatus) : statusEqb a b = false <-> a <> b.
Proof. destruct a, b; simpl; split; intro H; congruence. Qed.

Lemma expired_iff_64 (now : Z) (a : Auction) :
  expired now a = true <-> status a = active /\ Js.dateLe (endsAt a) now = true.
Proof.
  unfold expired. rewrite andb_true_iff, statusEqb_eq_64. tauto.
Qed.

Lemma In_bidsOf_64 (aid : Z) (bs : list Bid) (b : Bid) :
  In b (bidsOf aid bs) <-> In b bs /\ auctionId b = aid.
Proof.
  unfold bidsOf. rewrite filter_In, Z.eqb_eq. tauto.
Qed.

Lemma bidsOf_app_64 (aid : Z) (bs bs' : list Bid) :
  bidsOf aid (bs ++ bs') = bidsOf aid bs ++ bidsOf aid bs'.
Proof. apply filter_app. Qed.

Lemma topBid_none_64 (aid : Z) (bs : list Bid) :
  topBid aid bs = None <-> bidsOf aid bs = [].
Proof.
  unfold topBid. split; intro H.
  - destruct (Js.sort amountDesc (bidsOf aid bs)) eqn:E; [|discriminate].
    apply JsFacts.sort_nil_inv in E. exact E.
  - rewrite H. reflexivity.
Qed.

(** [settle] touches the status and the winner only. *)
Lemma settle_sameListing_64 (now : Z) (bs : list Bid) (a : Auction) :
  sameListing a (settle now bs a).
Proof.
  unfold settle, sameListing.
  destruct (expired now a); [|tauto].
  destruct (bidCount a >? 0); [|simpl; tauto].
  destruct (topBid (id a) bs); simpl; tauto.
Qed.

Lemma settle_terminal_64 (now : Z) (bs : list Bid) (a : Auction) :
  status a <> active -> settle now bs a = a.
Proof.
  intro H. unfold settle.
  destruct (expired now a) eqn:E; [|reflexivity].
  apply expired_iff_64 in E. tauto.
Qed.

(** The sweep visits the auctions one by one; where it stops early the
    rest is left as it was. *)
Lemma sweep_nth_64 (now : Z) (bs : list Bid) (l : list Auction) (i : nat) (a : Auction) :
  nth_error l i = Some a ->
  nth_error (fst (sweep now bs l)) i = Some (settle now bs a) \/
  (snd (sweep now bs l) = false /\ nth_error (fst (sweep now bs l)) i = Some a).
Proof.
  revert i. induction l as [|x l IH]; intros [|i] H; simpl in H; try discriminate.
  - injection H as ->. left. simpl. unfold settle.
    destruct (expired now a); [|destruct (sweep now bs l); reflexivity].
    destruct (bidCount a >? 0); [|destruct (sweep now bs l); reflexivity].
    destruct (topBid (id a) bs); [destruct (sweep now bs l)|]; reflexivity.
  - specialize (IH i H). simpl.
    destruct (expired now x).
    + destruct (bidCount x >? 0).
      * destruct (topBid (id x) bs).
        -- destruct (sweep now bs l); simpl in *. exact IH.
        -- right. simpl. auto.
      * destruct (sweep now bs l); simpl in *. exact IH.
    + destruct (sweep now bs l); simpl in *. exact IH.
Qed.

Lemma sweep_length_64 (now : Z) (bs : list Bid) (l : list Auction) :
  List.length (fst (sweep now bs l)) = List.length l.
Proof.
  induction l as [|x l IH]; simpl; [reflexivity|].
  destruct (expired now x).
  - destruct (bidCount x >? 0).
    + destruct (topBid (id x) bs); [|reflexivity].
      destruct (sweep now bs l); simpl in *. congruence.
    + destruct (sweep now bs l); simpl in *. congruence.
  - destruct (sweep now bs l); simpl in *. congruence.
Qed.

(** When the ledger covers the auctions the sweep runs to its end and
    settles every auction. *)
Lemma sweep_complete_64 (now : Z) (bs : list Bid) (l : list Auction) :
  (forall a, In a l -> bidCount a > 0 -> bidsOf (id a) bs <> []) ->
  sweep now bs l = (map (settle now bs) l, true).
Proof.
  induction l as [|x l IH]; intro Hc; simpl; [reflexivity|].
  rewrite IH by (intros a Ha; apply Hc; right; exact Ha).
  unfold settle.
  destruct (expired now x); [|reflexivity].
  destruct (bidCount x >? 0) eqn:Hb; [|reflexivity].
  destruct (topBid (id x) bs) eqn:Ht; [reflexivity|].
  exfalso. apply topBid_none_64 in Ht.
  apply (Hc x (or_introl eq_refl)); [|exact Ht].
  apply Z.gtb_lt in Hb. lia.
Qed.

(** A sweep that ran to its end settled every auction. *)
Lemma sweep_ok_64 (now : Z) (bs : list Bid) (l l' : list Auction) :
  sweep now bs l = (l', true) -> l' = map (settle now bs) l.
Proof.
  revert l'. induction l as [|x l IH]; intros l' H; simpl in *.
  - injection H as <-. reflexivity.
  - unfold settle.
    destruct (expired now x).
    + destruct (bidCount x >? 0).
      * destruct (topBid (id x) bs); [|discriminate].
        destruct (sweep now bs l) as [r ok]. injection H as <- ->.
        rewrite (IH r eq_refl). reflexivity.
      * destruct (sweep now bs l) as [r ok]. injection H as <- ->.
        rewrite (IH r eq_refl). reflexivity.
    + destruct (sweep now bs l) as [r ok]. injection H as <- ->.
      rewrite (IH r eq_refl). reflexivity.
Qed.

Lemma checkAndEndAuctions_ok_64 (now : Z) (s s1 : State) :
  checkAndEndAuctions now s = (s1, true) ->
  s1 = setAuctions (map (settle now (bids s)) (auctions s)) s.
Proof.
  unfold checkAndEndAuctions.
  destruct (sweep now (bids s) (auctions s)) as [l ok] eqn:E.
  intro H. injection H as <- ->.
  rewrite (sweep_ok_64 _ _ _ _ E). reflexivity.
Qed.

Lemma checkAndEndAuctions_complete_64 (now : Z) (s : State) :
  ledgerCovers s ->
  checkAndEndAuctions now s =
    (setAuctions (map (settle now (bids s)) (auctions s)) s, true).
Proof.
  intro H. unfold checkAndEndAuctions.
  rewrite (sweep_complete_64 now (bids s) (auctions s) H). reflexivity.
Qed.

Lemma find_map_settle_64 (now : Z) (bs : list Bid) (aid : Z) (l : list Auction) :
  find (fun a => id a =? aid) (map (settle now bs) l) =
  option_map (settle now bs) (find (fun a => id a =? aid) l).
Proof.
  induction l as [|x l IH]; simpl; [reflexivity|].
  destruct (settle_sameListing_64 now bs x) as [Hid _]. rewrite Hid.
  destruct (id x =? aid); [reflexivity|exact IH].
Qed.

(** The state every sweeping read leaves behind. *)
Lemma run_sweeping_64 (s : State) (c : Call) (now : Z) :
  ledgerCovers s -> sweepTime c = Some now ->
  run c s = setAuctions (map (settle now (bids s)) (auctions s)) s.
Proof.
  intros Hc Ht.
  destruct c; simpl in Ht; try discriminate; injection Ht as ->; simpl;
    unfold getActiveAuctions, getAllAuctions, getAuctionById, getAuctionsBySeller,
      getAuctionsByBidder, searchAuctions, getActiveAuctionCount, afterSweep;
    rewrite (checkAndEndAuctions_complete_64 now s Hc); try reflexivity.
  destruct (findAuction aid _); reflexivity.
Qed.

Lemma run_plain_read_64 (s : State) (c : Call) :
  isRead c = true -> sweepTime c = None -> run c s = s.
Proof.
  destruct c; simpl; intros H1 H2; try discriminate; reflexivity.
Qed.

(** ** Auction engine: the shape of a step *)

Lemma afterSweep_read_64 {T : Type} (now : Z) (s : State) (k : State -> State * Result T) :
  (forall s1, fst (k s1) = s1) ->
  fst (afterSweep now s k) = fst (checkAndEndAuctions now s).
Proof.
  intro Hk. unfold afterSweep.
  destruct (checkAndEndAuctions now s) as [s1 ok]. destruct ok; simpl; auto.
Qed.

Lemma run_sweeping_any_64 (s : State) (c : Call) (now : Z) :
  sweepTime c = Some now -> run c s = fst (checkAndEndAuctions now s).
Proof.
  intro Ht.
  destruct c; simpl in Ht; try discriminate; injection Ht as ->; simpl;
    try (apply afterSweep_read_64; intro s1; reflexivity).
  - apply afterSweep_read_64. intro s1. destruct (findAuction aid s1); reflexivity.
  - unfold getActiveAuctionCount.
    destruct (checkAndEndAuctions now s) as [s1 ok]. destruct ok; reflexivity.
Qed.

Lemma placeBid_state_64 (now now' now'' aid bidder : Z) (name : string) (amt : Number.t)
    (s : State) :
  let s1 := fst (checkAndEndAuctions now s) in
  let bid := storedBid now'' aid bidder name amt s1 in
  fst (placeBid now now' now'' aid bidder name amt s) = s1 \/
  exists a,
    findAuction aid s1 = Some a /\ status a = active /\
    Number.ltb amt (minBid a) = false /\
    fst (placeBid now now' now'' aid bidder name amt s) =
      mkState (Js.updateFirst (fun x => id x =? aid) (recordBid bid) (auctions s1))
              (bids s1 ++ [bid]) (nextAuctionId s1) (nextBidId s1 + 1).
Proof.
  cbv zeta. unfold placeBid, afterSweep, storedBid, minBid.
  destruct (checkAndEndAuctions now s) as [s1 ok]. simpl fst.
  destruct ok; [|left; reflexivity].
  destruct (findAuction aid s1) as [a|] eqn:Hf; [|left; reflexivity].
  destruct (statusEqb (status a) active) eqn:Hs; simpl; [|left; reflexivity].
  destruct (Js.dateLe (endsAt a) now'); [left; reflexivity|].
  destruct (sellerId a =? bidder); [left; reflexivity|].
  destruct (Number.ltb amt (Number.round2 (Number.add (currentPrice a) Number.one)))
    eqn:Hl; [left; reflexivity|].
  right. exists a. simpl.
  repeat split; auto.
  apply statusEqb_eq_64, Hs.
Qed.

Lemma sweep_keeps_settled_64 (now : Z) (s : State) (i : nat) (a : Auction) :
  nth_error (auctions s) i = Some a ->
  nth_error (auctions (fst (checkAndEndAuctions now s))) i = Some (settle now (bids s) a) \/
  nth_error (auctions (fst (checkAndEndAuctions now s))) i = Some a.
Proof.
  intro H. unfold checkAndEndAuctions.
  pose proof (sweep_nth_64 now (bids s) (auctions s) i a H) as Hn.
  destruct (sweep now (bids s) (auctions s)) as [l ok]. simpl in *.
  destruct Hn as [Hn|[_ Hn]]; auto.
Qed.

Lemma sameListing_refl_64 (a : Auction) : sameListing a a.
Proof. unfold sameListing. tauto. Qed.

Lemma Forall2_sameListing_refl_64 (l : list Auction) : Forall2 sameListing l l.
Proof. induction l; constructor; auto using sameListing_refl_64. Qed.

Lemma Forall2_sameListing_ids_64 (l l' : list Auction) :
  Forall2 sameListing l l' -> map id l' = map id l.
Proof.
  induction 1 as [|x y l l' HR HF IH]; simpl; [reflexivity|].
  destruct HR as [-> _]. rewrite IH. reflexivity.
Qed.

(** The sweep relists the auctions: whether or not it runs to its end,
    each auction keeps everything but its status and winner. *)
Lemma sweep_relists_64 (now : Z) (bs : list Bid) (l : list Auction) :
  Forall2 sameListing l (fst (sweep now bs l)).
Proof.
  induction l as [|x l IH]; simpl; [constructor|].
  destruct (expired now x).
  - destruct (bidCount x >? 0).
    + destruct (topBid (id x) bs).
      * destruct (sweep now bs l). simpl in *. constructor; [|exact IH].
        unfold sameListing. simpl. tauto.
      * simpl. constructor; [|apply Forall2_sameListing_refl_64].
        unfold sameListing. simpl. tauto.
    + destruct (sweep now bs l). simpl in *. constructor; [|exact IH].
      unfold sameListing. simpl. tauto.
  - destruct (sweep now bs l). simpl in *. constructor; [apply sameListing_refl_64|exact IH].
Qed.

Lemma setStatus_relists_64 (p : Auction -> bool) (st : AuctionStatus) (l : list Auction) :
  Forall2 sameListing l (Js.updateFirst p (setStatus st) l).
Proof.
  induction l as [|x l IH]; simpl; [constructor|].
  destruct (p x).
  - constructor; [|apply Forall2_sameListing_refl_64]. unfold sameListing. simpl. tauto.
  - constructor; [apply sameListing_refl_64|exact IH].
Qed.

(** With unique ids the assignment through [find] is a map. *)
Lemma updateFirst_unique_64 (aid : Z) (f : Auction -> Auction) (l : list Auction) :
  NoDup (map id l) ->
  Js.updateFirst (fun a => id a =? aid) f l =
  map (fun a => if id a =? aid then f a else a) l.
Proof.
  induction l as [|x l IH]; simpl; intro Hn; [reflexivity|].
  inversion Hn as [|? ? Hx Hn']; subst.
  destruct (id x =? aid) eqn:E.
  - f_equal. apply Z.eqb_eq in E. subst aid.
    clear IH Hn Hn'. induction l as [|y l IH]; simpl; [reflexivity|].
    simpl in Hx.
    destruct (id y =? id x) eqn:E'.
    + apply Z.eqb_eq in E'. exfalso. apply Hx. left. exact E'.
    + f_equal. apply IH. intro Hin. apply Hx. right. exact Hin.
  - f_equal. apply IH, Hn'.
Qed.

Lemma bidsOf_snoc_same_64 (aid : Z) (bs : list Bid) (b : Bid) :
  auctionId b = aid -> bidsOf aid (bs ++ [b]) = bidsOf aid bs ++ [b].
Proof.
  intro H. rewrite bidsOf_app_64. unfold bidsOf at 2. simpl.
  rewrite H, Z.eqb_refl. reflexivity.
Qed.

Lemma bidsOf_snoc_other_64 (aid : Z) (bs : list Bid) (b : Bid) :
  auctionId b <> aid -> bidsOf aid (bs ++ [b]) = bidsOf aid bs.
Proof.
  intro H. rewrite bidsOf_app_64. unfold bidsOf at 2. simpl.
  apply Z.eqb_neq in H. rewrite H. apply app_nil_r.
Qed.

Lemma findAuction_some_64 (aid : Z) (s : State) (a : Auction) :
  findAuction aid s = Some a -> In a (auctions s) /\ id a = aid.
Proof.
  unfold findAuction. intro H. apply find_some in H.
  rewrite Z.eqb_eq in H. exact H.
Qed.

(** On doubles other than NaN the comparator [(a, b) => b.amount -
    a.amount] puts [a] first exactly when [b.amount <= a.amount]. *)
Lemma amountDesc_leb (a b : Bid) :
  Number.isDouble (amount a) = true -> Number.isDouble (amount b) = true ->
  amount a <> Number.NaN -> amount b <> Number.NaN ->
  amountDesc a b = Number.leb (amount b) (amount a).
Proof.
  intros Da Db Na Nb. unfold amountDesc.
  rewrite NumberFacts.sub_sign by assumption.
  apply NumberFacts.negb_ltb; assumption.
Qed.

Lemma numericAmounts_ordered (l : list Bid) : numericAmounts l -> ordersByAmount l.
Proof.
  intro H. split.
  - intros b Hb. apply H, Hb.
  - intros b b' Hb Hb'. destruct (H b Hb), (H b' Hb'). apply amountDesc_leb; assumption.
Qed.

(** The first element of an array sorted with [(a, b) => b.amount -
    a.amount] carries the largest amount, when the comparator orders
    the amounts. *)
Lemma sort_amountDesc_head_64 (l : list Bid) (h : Bid) (t : list Bid) :
  ordersByAmount l ->
  Js.sort amountDesc l = h :: t ->
  forall b, In b l -> Number.leb (amount b) (amount h) = true.
Proof.
  revert h t. induction l as [|x l IH]; intros h t [Hnum Hord] Hs b Hb; [destruct Hb|].
  assert (Hl : ordersByAmount l).
  { split; [intros y Hy; apply Hnum; right; exact Hy|].
    intros y y' Hy Hy'. apply Hord; right; assumption. }
  unfold Js.sort in Hs. simpl in Hs. fold (Js.sort amountDesc l) in Hs.
  destruct (Js.sort amountDesc l) as [|h' t'] eqn:E.
  - apply JsFacts.sort_nil_inv in E. subst l. simpl in Hs.
    injection Hs as <- <-. destruct Hb as [<-|[]].
    apply NumberFacts.leb_refl, Hnum. left. reflexivity.
  - assert (Hh' : In h' l).
    { apply (JsFacts.In_sort amountDesc). rewrite E. left. reflexivity. }
    simpl in Hs. destruct (amountDesc x h') eqn:Hc.
    + injection Hs as <- <-.
      rewrite (Hord x h') in Hc by (simpl; auto).
      destruct Hb as [<-|Hb].
      * apply NumberFacts.leb_refl, Hnum. left. reflexivity.
      * apply (NumberFacts.leb_trans _ (amount h')); [|exact Hc].
        exact (IH h' t' Hl eq_refl b Hb).
    + injection Hs as <- <-.
      rewrite (Hord x h') in Hc by (simpl; auto).
      destruct Hb as [<-|Hb]; [|exact (IH h' t' Hl eq_refl b Hb)].
      destruct (NumberFacts.leb_total (amount x) (amount h')) as [H|H]; auto.
      * apply Hnum. left. reflexivity.
      * apply Hnum. right. exact Hh'.
      * congruence.
Qed.

Lemma topBid_first_64 (aid : Z) (bs : list Bid) (top : Bid) :
  topBid aid bs = Some top -> In top bs /\ auctionId top = aid.
Proof.
  unfold topBid. intro H.
  destruct (Js.sort amountDesc (bidsOf aid bs)) as [|h t] eqn:E; [discriminate|].
  injection H as ->. apply In_bidsOf_64.
  apply (JsFacts.In_sort amountDesc). rewrite E. left. reflexivity.
Qed.

Lemma topBid_spec_64 (aid : Z) (bs : list Bid) (top : Bid) :
  ordersByAmount (bidsOf aid bs) ->
  topBid aid bs = Some top -> isTopBid aid bs top.
Proof.
  intros Hord H. destruct (topBid_first_64 aid bs top H) as [Hin Hid].
  unfold topBid in H.
  destruct (Js.sort amountDesc (bidsOf aid bs)) as [|h t] eqn:E; [discriminate|].
  injection H as ->.
  repeat split; auto.
  intros b' Hb' Hid'. apply (sort_amountDesc_head_64 _ _ _ Hord E).
  apply In_bidsOf_64. auto.
Qed.

(** What [settle] does to an expired auction. *)
Lemma settle_expired_64 (now : Z) (bs : list Bid) (a : Auction) :
  status a = active -> Js.dateLe (endsAt a) now = true ->
  bidsOf (id a) bs <> [] \/ bidCount a <= 0 ->
  (bidCount a > 0 ->
     status (settle now bs a) = sold /\
     exists top, topBid (id a) bs = Some top /\
       winnerId (settle now bs a) = Some (bidderId top) /\
       winnerName (settle now bs a) = Some (bidderName top)) /\
  (bidCount a <= 0 ->
     status (settle now bs a) = ended /\
     winnerId (settle now bs a) = winnerId a /\
     winnerName (settle now bs a) = winnerName a).
Proof.
  intros Hs Hd Hcov. unfold settle.
  assert (He : expired now a = true) by (apply expired_iff_64; auto).
  rewrite He. split; intro Hb.
  - assert (Hg : (bidCount a >? 0) = true) by (apply Z.gtb_lt; lia).
    rewrite Hg.
    destruct (topBid (id a) bs) as [top|] eqn:Ht.
    + split; [reflexivity|]. exists top. split; [reflexivity|].
      split; reflexivity.
    + apply topBid_none_64 in Ht. destruct Hcov as [Hcov|Hcov]; [tauto|lia].
  - assert (Hg : (bidCount a >? 0) = false)
      by (rewrite Z.gtb_ltb; apply Z.ltb_ge; lia).
    rewrite Hg. simpl. auto.
Qed.

(** C3, amended.  An active auction whose deadline has passed is
    transitioned by the reads that start with the expiry sweep
    (getActiveAuctions, getAllAuctions, getAuctionById,
    getAuctionsBySeller, getAuctionsByBidder, searchAuctions,
    getActiveAuctionCount): with at least one bid it becomes sold and its
    winner is the bidder of a highest bid of its ledger, with no bid it
    becomes ended and its winner fields are left alone; the read then
    proceeds on the transitioned state.  The amounts of the auction's
    bids are taken to be numbers, none of them NaN.  The other reads
    (getBidsByAuction, getCategories, getUserHighestBid,
    isHighestBidder, getAuctionCount, getTotalBidCount) run no sweep and
    leave the state as it is. *)
Theorem expiry_on_sweeping_reads (s : State) (now : Z) (i : nat) (a : Auction) :
  ledgerCovers s ->
  nth_error (auctions s) i = Some a ->
  status a = active ->
  Js.dateLe (endsAt a) now = true ->
  numericAmounts (bidsOf (id a) (bids s)) ->
  exists a',
    sameListing a a' /\
    (bidCount a > 0 ->
       status a' = sold /\
       exists top, isTopBid (id a) (bids s) top /\
         winnerId a' = Some (bidderId top) /\ winnerName a' = Some (bidderName top)) /\
    (bidCount a = 0 ->
       status a' = ended /\ winnerId a' = winnerId a /\ winnerName a' = winnerName a) /\
    (forall c, sweepTime c = Some now -> nth_error (auctions (run c s)) i = Some a') /\
    (findAuction (id a) s = Some a ->
       snd (getAuctionById now (id a) s) = Normal (ofValue a')) /\
    (forall c, isRead c = true -> sweepTime c = None -> run c s = s).
Proof.
  intros Hc Hi Hs Hd Hnum.
  pose proof (numericAmounts_ordered _ Hnum) as Hord.
  exists (settle now (bids s) a).
  assert (Hcov : bidsOf (id a) (bids s) <> [] \/ bidCount a <= 0).
  { destruct (Z_gt_le_dec (bidCount a) 0) as [Hg|Hl]; [left|right; exact Hl].
    apply Hc; [eapply nth_error_In; exact Hi|exact Hg]. }
  destruct (settle_expired_64 now (bids s) a Hs Hd Hcov) as [Hsold Hended].
  split; [apply settle_sameListing_64|].
  split.
  { intro Hb. destruct (Hsold Hb) as (Hst & top & Ht & Hw & Hn).
    split; [exact Hst|]. exists top. split; [|auto].
    apply topBid_spec_64; assumption. }
  split; [intro H0; apply Hended; lia|].
  split; [|split].
  - intros c Ht. rewrite (run_sweeping_64 s c now Hc Ht). simpl.
    rewrite nth_error_map, Hi. reflexivity.
  - intro Hf. unfold getAuctionById, afterSweep.
    rewrite (checkAndEndAuctions_complete_64 now s Hc).
    unfold findAuction in *. simpl. rewrite find_map_settle_64, Hf. reflexivity.
  - intros c. apply run_plain_read_64.
Qed.

(** C1, amended.  On the state [s1] left by the expiry sweep,
    [placeBid] fails with NotFoundError when no auction has the id, with
    ConflictError when the auction is not active or its deadline has
    passed, with ForbiddenError when the bidder is the seller, and with
    ValidationError when the amount is below the least bid
    [round2(currentPrice + 1)]; a failure leaves [s1] as it is.  An
    amount that is at least the least bid is accepted: a bid whose
    amount is [round2(amount)] is appended, the current price becomes
    that rounded amount, the bid count grows by one, the other auctions
    are left alone and the bid is returned.  An amount of at most the
    current price is refused whenever the current price is below the
    least bid, the seller is refused at any amount, and the least bid
    itself, from another user, is accepted on an active, unexpired
    auction.  The comparisons are those of doubles, so nothing is said
    here of an amount that is NaN. *)
Theorem placeBid_contract (now now' now'' aid bidder : Z) (name : string)
    (amt : Number.t) (s s1 : State) :
  checkAndEndAuctions now s = (s1, true) ->
  let r := placeBid now now' now'' aid bidder name amt s in
  (findAuction aid s1 = None -> failsWith r s1 NotFoundError) /\
  (forall a, findAuction aid s1 = Some a ->
     let open := status a = active /\ Js.dateLe (endsAt a) now' = false in
     let accepted :=
       exists bid s2,
         r = (s2, Normal (ofValue bid)) /\
         auctionId bid = aid /\ bidderId bid = bidder /\
         amount bid = Number.round2 amt /\
         bids s2 = bids s1 ++ [bid] /\
         findAuction aid s2 = Some (recordBid bid a) /\
         currentPrice (recordBid bid a) = Number.round2 amt /\
         bidCount (recordBid bid a) = bidCount a + 1 /\
         status (recordBid bid a) = status a /\
         (forall i x, nth_error (auctions s1) i = Some x -> id x <> aid ->
                      nth_error (auctions s2) i = Some x) in
     (status a <> active -> failsWith r s1 ConflictError) /\
     (Js.dateLe (endsAt a) now' = true -> failsWith r s1 ConflictError) /\
     (open -> sellerId a = bidder -> failsWith r s1 ForbiddenError) /\
     (open -> sellerId a <> bidder -> Number.ltb amt (minBid a) = true ->
        failsWith r s1 ValidationError) /\
     (open -> sellerId a <> bidder -> Number.leb (minBid a) amt = true -> accepted) /\
     (Number.leb amt (currentPrice a) = true ->
      Number.ltb (currentPrice a) (minBid a) = true ->
        exists cls, failsWith r s1 cls) /\
     (sellerId a = bidder -> exists cls, failsWith r s1 cls) /\
     (open -> sellerId a <> bidder -> minBid a <> Number.NaN -> amt = minBid a ->
        accepted)).
Proof.
  intros Hsw r. subst r. unfold placeBid, afterSweep. rewrite Hsw.
  split.
  - intros ->. exists AuctionNotFound. split; reflexivity.
  - intros a Hf. rewrite Hf. cbv zeta. fold (minBid a).
    assert (Hinactive : status a <> active ->
              statusEqb (status a) active = false) by (apply statusEqb_neq_64).
    assert (Hactive : status a = active ->
              statusEqb (status a) active = true) by (apply statusEqb_eq_64).
    assert (Hok : status a = active /\ Js.dateLe (endsAt a) now' = false ->
              sellerId a <> bidder ->
              Number.leb (minBid a) amt = true ->
              exists bid s2,
                (if negb (statusEqb (status a) active)
                 then (s1, Normal (throwError NoLongerActive))
                 else if Js.dateLe (endsAt a) now'
                 then (s1, Normal (throwError HasEnded))
                 else if sellerId a =? bidder
                 then (s1, Normal (throwError OwnAuction))
                 else if Number.ltb amt (minBid a)
                 then (s1, Normal (throwError (BidTooLow (minBid a))))
                 else
                   (mkState
                      (Js.updateFirst (fun x => id x =? aid)
                         (recordBid (mkBid (nextBidId s1) aid bidder name
                                       (Number.round2 amt) (Some now'')))
                         (auctions s1))
                      (bids s1 ++ [mkBid (nextBidId s1) aid bidder name
                                     (Number.round2 amt) (Some now'')])
                      (nextAuctionId s1) (nextBidId s1 + 1),
                    Normal (ofValue (mkBid (nextBidId s1) aid bidder name
                                       (Number.round2 amt) (Some now'')))))
                = (s2, Normal (ofValue bid)) /\
                auctionId bid = aid /\ bidderId bid = bidder /\
                amount bid = Number.round2 amt /\
                bids s2 = bids s1 ++ [bid] /\
                findAuction aid s2 = Some (recordBid bid a) /\
                currentPrice (recordBid bid a) = Number.round2 amt /\
                bidCount (recordBid bid a) = bidCount a + 1 /\
                status (recordBid bid a) = status a /\
                (forall i x, nth_error (auctions s1) i = Some x -> id x <> aid ->
                             nth_error (auctions s2) i = Some x)).
    { intros [Hs Hd] Hseller Hamt.
      rewrite (Hactive Hs), Hd. cbn [negb].
      rewrite (proj2 (Z.eqb_neq _ _) Hseller).
      rewrite (NumberFacts.leb_not_ltb _ _ Hamt).
      eexists. eexists. split; [reflexivity|].
      cbn [auctionId bidderId amount bids recordBid currentPrice bidCount status].
      repeat split; auto.
      - unfold findAuction in *. cbn [auctions].
        apply JsFacts.find_updateFirst; [reflexivity|exact Hf].
      - intros i x Hx Hne. cbn [auctions].
        apply JsFacts.updateFirst_nth_other; [exact Hx|].
        apply Z.eqb_neq, Hne. }
    cbv zeta.
    split; [|split; [|split; [|split; [|split; [|split; [|split]]]]]].
    + intro Hs. rewrite (Hinactive Hs). simpl.
      exists NoLongerActive. split; reflexivity.
    + intro Hd. destruct (statusEqb (status a) active); simpl.
      * rewrite Hd. exists HasEnded. split; reflexivity.
      * exists NoLongerActive. split; reflexivity.
    + intros [Hs Hd] Hseller. rewrite (Hactive Hs), Hd. simpl.
      rewrite (proj2 (Z.eqb_eq _ _) Hseller).
      exists OwnAuction. split; reflexivity.
    + intros [Hs Hd] Hseller Hlow. rewrite (Hactive Hs), Hd. simpl.
      rewrite (proj2 (Z.eqb_neq _ _) Hseller), Hlow.
      exists (BidTooLow (minBid a)). split; reflexivity.
    + exact Hok.
    + intros Hle Hlt.
      pose proof (NumberFacts.leb_ltb_trans _ _ _ Hle Hlt) as Hlow.
      destruct (statusEqb (status a) active); simpl;
        [|exists ConflictError, NoLongerActive; split; reflexivity].
      destruct (Js.dateLe (endsAt a) now');
        [exists ConflictError, HasEnded; split; reflexivity|].
      destruct (sellerId a =? bidder);
        [exists ForbiddenError, OwnAuction; split; reflexivity|].
      rewrite Hlow. exists ValidationError, (BidTooLow (minBid a)). split; reflexivity.
    + intro Hseller.
      destruct (statusEqb (status a) active); simpl;
        [|exists ConflictError, NoLongerActive; split; reflexivity].
      destruct (Js.dateLe (endsAt a) now');
        [exists ConflictError, HasEnded; split; reflexivity|].
      rewrite (proj2 (Z.eqb_eq _ _) Hseller).
      exists ForbiddenError, OwnAuction. split; reflexivity.
    + intros Hopen Hseller Hnum ->. apply Hok; auto.
      apply NumberFacts.leb_refl, Hnum.
Qed.

(** ** Auction engine in binary64: the ledger *)

Lemma wellFormed_relisted_64 (s : State) (l' : list Auction) :
  wellFormed s -> Forall2 sameListing (auctions s) l' ->
  wellFormed (setAuctions l' s).
Proof.
  intros [Hu Hi Hb Hbu Hbi Hp Hn] HF. constructor; simpl; auto.
  - rewrite (Forall2_sameListing_ids_64 _ _ HF). exact Hu.
  - intros a' Ha'. destruct (AuctionFacts.Forall2_In_r _ _ _ _ HF Ha') as (a & Ha & HR).
    destruct HR as [-> _]. apply Hi, Ha.
  - intros a' Ha'. destruct (AuctionFacts.Forall2_In_r _ _ _ _ HF Ha') as (a & Ha & HR).
    destruct HR as (Hid & _ & Hsp & Hcp & _).
    unfold lastAmount. rewrite Hid, Hsp, Hcp. apply Hp, Ha.
  - intros a' Ha'. destruct (AuctionFacts.Forall2_In_r _ _ _ _ HF Ha') as (a & Ha & HR).
    destruct HR as (Hid & _ & _ & _ & Hbc & _).
    unfold ledgerCount. rewrite Hid, Hbc. apply Hn, Ha.
Qed.

Lemma wellFormed_sweep_64 (now : Z) (s : State) :
  wellFormed s -> wellFormed (fst (checkAndEndAuctions now s)).
Proof.
  intro H. unfold checkAndEndAuctions.
  pose proof (sweep_relists_64 now (bids s) (auctions s)) as HF.
  destruct (sweep now (bids s) (auctions s)) as [l ok]. simpl in *.
  apply wellFormed_relisted_64; assumption.
Qed.

Lemma bidsOf_unallocated_64 (s : State) :
  wellFormed s -> bidsOf (nextAuctionId s) (bids s) = [].
Proof.
  intro H.
  destruct (bidsOf (nextAuctionId s) (bids s)) as [|b l] eqn:E; [reflexivity|].
  assert (Hin : In b (bidsOf (nextAuctionId s) (bids s)))
    by (rewrite E; left; reflexivity).
  apply In_bidsOf_64 in Hin. destruct Hin as [Hin Hid].
  pose proof (wf_bids s H b Hin). lia.
Qed.

Lemma wellFormed_createAuction_64 (now : Z) (data : NewAuction) (s : State) :
  wellFormed s -> wellFormed (fst (createAuction now data s)).
Proof.
  intros H. pose proof (bidsOf_unallocated_64 s H) as Hnone.
  destruct H as [Hu Hi Hb Hbu Hbi Hp Hn]. constructor; simpl; auto.
  - rewrite map_app. simpl. apply NoDup_app; [exact Hu| |].
    + constructor; [intros []|constructor].
    + intros x Hin [<-|[]].
      apply in_map_iff in Hin. destruct Hin as (a & Ha & Hin).
      specialize (Hi a Hin). lia.
  - intros a Ha. apply in_app_or in Ha. destruct Ha as [Ha|[<-|[]]].
    + specialize (Hi a Ha). lia.
    + simpl. lia.
  - intros b Hb'. specialize (Hb b Hb'). lia.
  - intros a Ha. apply in_app_or in Ha. destruct Ha as [Ha|[<-|[]]].
    + apply Hp, Ha.
    + unfold lastAmount. cbn [id startingPrice currentPrice]. rewrite Hnone. reflexivity.
  - intros a Ha. apply in_app_or in Ha. destruct Ha as [Ha|[<-|[]]].
    + apply Hn, Ha.
    + unfold ledgerCount. cbn [id bidCount]. rewrite Hnone. reflexivity.
Qed.

(** An accepted bid keeps the invariant. *)
Lemma wellFormed_accept_64 (s1 : State) (a : Auction) (bid : Bid) :
  wellFormed s1 ->
  findAuction (auctionId bid) s1 = Some a ->
  bidId bid = nextBidId s1 ->
  wellFormed
    (mkState
       (Js.updateFirst (fun x => id x =? auctionId bid) (recordBid bid) (auctions s1))
       (bids s1 ++ [bid]) (nextAuctionId s1) (nextBidId s1 + 1)).
Proof.
  intros [Hu Hi Hb Hbu Hbi Hp Hn] Hf Hbid.
  destruct (findAuction_some_64 _ _ _ Hf) as [Ha Haid].
  rewrite (updateFirst_unique_64 _ _ _ Hu).
  set (g := fun x => if id x =? auctionId bid then recordBid bid x else x).
  assert (Hgid : forall x, id (g x) = id x)
    by (intro x; unfold g; destruct (id x =? auctionId bid); reflexivity).
  constructor; simpl.
  - rewrite map_map. rewrite (map_ext _ id Hgid). exact Hu.
  - intros x Hx. apply in_map_iff in Hx. destruct Hx as (y & <- & Hy).
    rewrite Hgid. apply Hi, Hy.
  - intros b Hb'. apply in_app_or in Hb'. destruct Hb' as [Hb'|[<-|[]]].
    + apply Hb, Hb'.
    + rewrite <- Haid. apply Hi, Ha.
  - rewrite map_app. simpl. apply NoDup_app; [exact Hbu| |].
    + constructor; [intros []|constructor].
    + intros k Hk [<-|[]]. apply in_map_iff in Hk.
      destruct Hk as (b & Hbk & Hin). specialize (Hbi b Hin). lia.
  - intros b Hb'. apply in_app_or in Hb'. destruct Hb' as [Hb'|[<-|[]]].
    + specialize (Hbi b Hb'). lia.
    + lia.
  - intros x Hx. apply in_map_iff in Hx. destruct Hx as (y & <- & Hy).
    unfold g. destruct (id y =? auctionId bid) eqn:E.
    + apply Z.eqb_eq in E. unfold lastAmount.
      cbn [recordBid id startingPrice currentPrice].
      rewrite (bidsOf_snoc_same_64 (id y) (bids s1) bid) by congruence.
      rewrite map_app. cbn [map]. rewrite last_last. reflexivity.
    + apply Z.eqb_neq in E. unfold lastAmount.
      rewrite (bidsOf_snoc_other_64 (id y) (bids s1) bid) by congruence.
      apply Hp, Hy.
  - intros x Hx. apply in_map_iff in Hx. destruct Hx as (y & <- & Hy).
    unfold g. destruct (id y =? auctionId bid) eqn:E.
    + apply Z.eqb_eq in E. unfold ledgerCount.
      cbn [recordBid id bidCount].
      rewrite (bidsOf_snoc_same_64 (id y) (bids s1) bid) by congruence.
      rewrite length_app. cbn [List.length].
      rewrite (Hn y Hy). unfold ledgerCount. lia.
    + apply Z.eqb_neq in E. unfold ledgerCount.
      rewrite (bidsOf_snoc_other_64 (id y) (bids s1) bid) by congruence.
      apply Hn, Hy.
Qed.

Lemma wellFormed_run_64 (c : Call) (s : State) : wellFormed s -> wellFormed (run c s).
Proof.
  intro H.
  destruct (sweepTime c) as [now|] eqn:Hsw.
  { rewrite (run_sweeping_any_64 s c now Hsw). apply wellFormed_sweep_64, H. }
  destruct c; simpl in Hsw; try discriminate; simpl; try exact H.
  - apply wellFormed_createAuction_64, H.
  - pose proof (wellFormed_sweep_64 now s H) as H1.
    destruct (placeBid_state_64 now now' now'' aid bidder name amt s)
      as [->|(x & Hf & Hx & Hamt & ->)]; [exact H1|].
    apply (wellFormed_accept_64 _ x
             (storedBid now'' aid bidder name amt (fst (checkAndEndAuctions now s))));
      auto.
  - unfold cancelAuction.
    destruct (findAuction aid s) as [x|]; [|exact H].
    destruct (sellerId x =? seller); simpl; [|exact H].
    destruct (statusEqb (status x) active); simpl; [|exact H].
    apply wellFormed_relisted_64; [exact H|apply setStatus_relists_64].
  - unfold updateAuctionStatus.
    destruct (findAuction aid s) as [x|]; [|exact H].
    apply wellFormed_relisted_64; [exact H|apply setStatus_relists_64].
Qed.

Lemma wellFormed_initial_64 (loaded hour : Z) : wellFormed (initialState loaded hour).
Proof.
  assert (Hids : map id (SEED_AUCTIONS loaded hour) = [1; 2; 3; 4; 5; 6])
    by reflexivity.
  assert (Hbids : map bidId (SEED_BIDS loaded hour)
                  = [1; 2; 3; 4; 5; 6; 7; 8; 9; 10; 11; 12; 13; 14; 15; 16; 17])
    by reflexivity.
  constructor; unfold initialState; cbn [auctions bids nextAuctionId nextBidId].
  - rewrite Hids. repeat constructor; simpl; intuition lia.
  - intros a Ha. apply (in_map id) in Ha. rewrite Hids in Ha.
    simpl in Ha. intuition lia.
  - intros b Hb. apply (in_map auctionId) in Hb.
    change (map auctionId (SEED_BIDS loaded hour))
      with [1; 1; 1; 1; 2; 2; 2; 3; 3; 3; 4; 4; 5; 5; 5; 5; 5] in Hb.
    simpl in Hb. intuition lia.
  - rewrite Hbids. repeat constructor; simpl; intuition lia.
  - intros b Hb. apply (in_map bidId) in Hb. rewrite Hbids in Hb.
    simpl in Hb. intuition lia.
  - intros a Ha. simpl in Ha.
    repeat (destruct Ha as [<-|Ha]; [reflexivity|]). destruct Ha.
  - intros a Ha. simpl in Ha.
    repeat (destruct Ha as [<-|Ha]; [reflexivity|]). destruct Ha.
Qed.

Lemma reachable_wellFormed_64 (loaded hour : Z) (s : State) :
  reachable loaded hour s -> wellFormed s.
Proof.
  induction 1 as [|c s Hr IH]; [apply wellFormed_initial_64|apply wellFormed_run_64, IH].
Qed.

Lemma wellFormed_ledgerCovers_64 (s : State) : wellFormed s -> ledgerCovers s.
Proof.
  intros H a Ha Hb Hnil.
  pose proof (wf_count s H a Ha) as Hn.
  unfold ledgerCount in Hn. rewrite Hnil in Hn. simpl in Hn. lia.
Qed.

Lemma numericAmountsb_true (l : list Bid) :
  numericAmountsb l = true -> numericAmounts l.
Proof.
  unfold numericAmountsb, numericAmounts. rewrite forallb_forall. intros H b Hb.
  specialize (H b Hb). apply andb_true_iff in H. destruct H as [Hd Hn].
  split; [exact Hd|]. intro E. rewrite E in Hn. discriminate.
Qed.

(** Whatever is called, with whatever amounts, NaN included: in every
    state the service can reach, each auction's current price is the
    amount of the last bid placed on it, or its starting price when
    nobody has bid, and its bid count is the number of its bids in the
    ledger; auction ids and bid ids are unique and below the next ids. *)
Theorem price_is_last_bid (loaded hour : Z) (s : State) :
  reachable loaded hour s ->
  (forall a, In a (auctions s) ->
     currentPrice a = lastAmount a (bids s) /\ bidCount a = ledgerCount a (bids s)) /\
  NoDup (map id (auctions s)) /\
  NoDup (map bidId (bids s)) /\
  (forall a, In a (auctions s) -> id a < nextAuctionId s) /\
  (forall b, In b (bids s) -> bidId b < nextBidId s /\ auctionId b < nextAuctionId s).
Proof.
  intro Hr. destruct (reachable_wellFormed_64 loaded hour s Hr)
    as [Hu Hi Hb Hbu Hbi Hp Hn].
  repeat split; auto.
Qed.

Lemma price_is_last_bid_witness :
  reachable 0 0 afterLowBid /\
  exists a, findAuction 1 afterLowBid = Some a /\
    bidCount a = 6 /\ currentPrice a = Number.ofZ 1 /\
    lastAmount a (bids afterLowBid) = Number.ofZ 1.
Proof.
  assert (Hr : reachable 0 0 afterLowBid)
    by (apply reach_call, reach_call, reach_init).
  split; [exact Hr|].
  destruct (price_is_last_bid 0 0 afterLowBid Hr) as (Hp & _).
  destruct (findAuction 1 afterLowBid) as [a|] eqn:Hf; [|vm_compute in Hf; discriminate].
  exists a. split; [reflexivity|].
  destruct (Hp a (proj1 (findAuction_some_64 _ _ _ Hf))) as [Hprice Hcount].
  vm_compute in Hf. injection Hf as <-.
  split; [reflexivity|]. split; [reflexivity|]. rewrite <- Hprice. reflexivity.
Defined.

(** C4 fails on the code.  [placeBid] refuses an amount only when
    [amount < minBid], which is false for NaN: on the seed state the bid
    of NaN on auction 1 is accepted and makes the price NaN, and then any
    amount is accepted, here 1.  The price of auction 1 has gone from 78
    to 1, below its starting price of 45 and below four of its bids. *)
Theorem nan_bid_breaks_ledger_invariant :
  reachable 0 0 afterLowBid /\
  exists a0 a1 a2,
    findAuction 1 atMidnight = Some a0 /\ currentPrice a0 = Number.ofZ 78 /\
    findAuction 1 afterNaNBid = Some a1 /\ currentPrice a1 = Number.NaN /\
    findAuction 1 afterLowBid = Some a2 /\ currentPrice a2 = Number.ofZ 1 /\
    startingPrice a2 = Number.ofZ 45 /\
    map amount (bidsOf 1 (bids afterLowBid))
      = [Number.ofZ 50; Number.ofZ 58; Number.ofZ 65; Number.ofZ 78; Number.NaN;
         Number.ofZ 1] /\
    Number.ltb (currentPrice a2) (startingPrice a2) = true /\
    Number.ltb (currentPrice a2) (currentPrice a0) = true /\
    Number.mathMax (startingPrice a2 :: map amount (bidsOf 1 (bids afterLowBid)))
      = Number.NaN /\
    bidCount a2 = 6.
Proof.
  split; [apply reach_call, reach_call, reach_init|].
  eexists. eexists. eexists.
  split; [vm_compute; reflexivity|]. split; [reflexivity|].
  split; [vm_compute; reflexivity|]. split; [reflexivity|].
  split; [vm_compute; reflexivity|]. split; [reflexivity|].
  split; [reflexivity|]. split; [vm_compute; reflexivity|].
  split; [vm_compute; reflexivity|]. split; [vm_compute; reflexivity|].
  split; [vm_compute; reflexivity|reflexivity].
Qed.


(** ** Auction engine in binary64: the properties at work on the seed data *)

Lemma placeBid_contract_witness :
  checkAndEndAuctions 0 atMidnight = (sweptAtMidnight, true) /\
  exists bid s2,
    placeBid 0 0 0 1 101 "Mark J." (Number.ofZ 79) atMidnight
      = (s2, Normal (ofValue bid)) /\
    amount bid = Number.ofZ 79 /\
    bids s2 = bids sweptAtMidnight ++ [bid].
Proof.
  set (s := atMidnight). set (s1 := sweptAtMidnight).
  assert (H : checkAndEndAuctions 0 s = (s1, true)) by (vm_compute; reflexivity).
  split; [exact H|].
  destruct (placeBid_contract 0 0 0 1 101 "Mark J." (Number.ofZ 79) s s1 H) as [_ Hs].
  destruct (findAuction 1 s1) as [a|] eqn:Hf; [|vm_compute in Hf; discriminate].
  destruct (Hs a eq_refl) as (_ & _ & _ & _ & Hacc & _).
  vm_compute in Hf. injection Hf as <-.
  destruct Hacc as (bid & s2 & Hr & _ & _ & Ha & Hb & _).
  - split; reflexivity.
  - simpl. lia.
  - vm_compute. reflexivity.
  - exists bid, s2. split; [exact Hr|]. split; [|exact Hb].
    rewrite Ha. vm_compute. reflexivity.
Defined.

(** C1 as stated fails where it says the current price becomes the
    amount: a bid of 100.006 on auction 1 is accepted and stored, and the
    price becomes 100.01, above the amount that was bid. *)
Lemma placeBid_rounds_amount :
  exists bid s2 a,
    placeBid 0 0 0 1 101 "Mark J." (Number.dec 100006 1000) atMidnight
      = (s2, Normal (ofValue bid)) /\
    findAuction 1 s2 = Some a /\
    currentPrice a = Number.dec 10001 100 /\
    amount bid = Number.dec 10001 100 /\
    currentPrice a <> Number.dec 100006 1000 /\
    Number.ltb (Number.dec 100006 1000) (currentPrice a) = true.
Proof.
  eexists. eexists. eexists.
  split; [vm_compute; reflexivity|].
  split; [vm_compute; reflexivity|].
  split; [vm_compute; reflexivity|].
  split; [vm_compute; reflexivity|].
  split; [vm_compute; discriminate|vm_compute; reflexivity].
Qed.

(** Where adding 1 changes nothing the least bid is the current price
    itself: once the price is 10^17, a second bid of 10^17 is
    accepted. *)
Lemma equal_bid_accepted_at_1e17 :
  exists a bid s2,
    findAuction 1 afterHugeBid = Some a /\
    currentPrice a = e17 /\
    minBid a = e17 /\
    placeBid 0 0 0 1 102 "Bidder" e17 afterHugeBid = (s2, Normal (ofValue bid)) /\
    amount bid = currentPrice a.
Proof.
  eexists. eexists. eexists.
  split; [vm_compute; reflexivity|].
  split; [vm_compute; reflexivity|].
  split; [vm_compute; reflexivity|].
  split; [vm_compute; reflexivity|].
  vm_compute; reflexivity.
Qed.

Lemma expiry_on_sweeping_reads_witness :
  exists a,
    ledgerCovers atMidnight /\
    nth_error (auctions atMidnight) 1 = Some a /\
    status a = active /\
    Js.dateLe (endsAt a) 18000000 = true /\
    numericAmounts (bidsOf (id a) (bids atMidnight)) /\
    exists a',
      nth_error (auctions (run (GetAllAuctions 18000000) atMidnight)) 1 = Some a' /\
      status a' = sold /\ winnerId a' = Some 100.
Proof.
  set (s := atMidnight). eexists.
  assert (Hc : ledgerCovers s)
    by (apply wellFormed_ledgerCovers_64, wellFormed_initial_64).
  split; [exact Hc|].
  split; [reflexivity|].
  split; [reflexivity|].
  split; [reflexivity|].
  assert (Hord : numericAmounts (bidsOf 2 (bids s)))
    by (apply numericAmountsb_true; vm_compute; reflexivity).
  split; [exact Hord|].
  destruct (expiry_on_sweeping_reads s 18000000 1 _ Hc eq_refl eq_refl eq_refl Hord)
    as (a' & _ & Hsold & _ & Hreads & _).
  exists a'. split; [apply Hreads; reflexivity|].
  assert (Hn : nth_error (auctions (run (GetAllAuctions 18000000) s)) 1 = Some a')
    by (apply Hreads; reflexivity).
  vm_compute in Hn. injection Hn as <-. split; reflexivity.
Defined.

(** C3 as stated fails where it says every read runs the expiry check:
    at 18000000 auction 2 is due, and reading its bids leaves it
    active. *)
Lemma getBidsByAuction_skips_expiry :
  exists a,
    findAuction 2 atMidnight = Some a /\
    expired 18000000 a = true /\
    bidCount a > 0 /\
    isRead (GetBidsByAuction 2) = true /\
    findAuction 2 (run (GetBidsByAuction 2) atMidnight) = Some a /\
    status a = active.
Proof.
  eexists.
  split; [vm_compute; reflexivity|].
  repeat split; vm_compute; reflexivity.
Qed.

(** With an amount that is NaN the first bid after the sort need not be
    a highest one: on auction 7, with a bid of NaN by user 101 and then
    one of 500 by user 102, every difference is NaN, the sort leaves
    the two bids as they are and the sweep makes user 101 the winner. *)
Lemma nan_bid_wins_sweep :
  exists a',
    map (fun b => (bidderId b, amount b)) (bidsOf 7 (bids afterNaNThen500))
      = [(101, Number.NaN); (102, Number.ofZ 500)] /\
    snd (getAuctionById 2000 7 afterNaNThen500) = Normal (ofValue a') /\
    status a' = sold /\ winnerId a' = Some 101.
Proof.
  eexists.
  split; [vm_compute; reflexivity|].
  split; [vm_compute; reflexivity|].
  split; reflexivity.
Qed.



End Auction64Facts.

(** ** Sums *)

Module SumFacts.
Import OrderSpec.
Local Open Scope Q_scope.

Lemma fold_left_sumQ {A : Type} (f : A -> Q) (l : list A) (acc : Q) :
  fold_left (fun s i => s + f i) l acc == acc + sumQ (map f l).
Proof.
  revert acc. induction l as [|x l IH]; intro acc; simpl.
  - lra.
  - rewrite IH. lra.
Qed.

Lemma lineTotal_map {A : Type} (p : A -> Q) (q : A -> Z) (l : list A) :
  lineTotal (map (fun i => (p i, q i)) l) = sumQ (map (fun i => p i * inject_Z (q i)) l).
Proof.
  induction l as [|x l IH]; simpl; [reflexivity|]. rewrite IH. reflexivity.
Qed.

Lemma itemsSum_lineTotal (its : list OrderService.OrderItem) :
  OrderService.itemsSum its == lineTotal (orderLines its).
Proof.
  unfold OrderService.itemsSum, orderLines.
  rewrite lineTotal_map, (fold_left_sumQ
    (fun i => OrderService.price_at_purchase i * inject_Z (OrderService.quantity i))).
  lra.
Qed.

Lemma itemsTotal_lineTotal (its : list OrdersRoute.Item) :
  OrdersRoute.itemsTotal its == lineTotal (requestLines its).
Proof.
  unfold OrdersRoute.itemsTotal, requestLines.
  rewrite lineTotal_map, (fold_left_sumQ
    (fun i => OrdersRoute.price i * inject_Z (OrdersRoute.quantity i))).
  lra.
Qed.

Lemma Qle_bool_comp (x y x' y' : Q) :
  x == x' -> y == y' -> Qle_bool x y = Qle_bool x' y'.
Proof.
  intros Hx Hy.
  destruct (Qle_bool x y) eqn:E, (Qle_bool x' y') eqn:E'; auto.
  - apply Qle_bool_iff in E. rewrite Hx, Hy in E. apply Qle_bool_iff in E. congruence.
  - apply Qle_bool_iff in E'. rewrite <- Hx, <- Hy in E'. apply Qle_bool_iff in E'. congruence.
Qed.

(** What a [DECIMAL(10, 2)] column stores depends on the number, not on
    the way it is written. *)
Lemma decimal_10_2_comp (x y : Q) : x == y -> Pg.decimal_10_2 x = Pg.decimal_10_2 y.
Proof.
  intro H. unfold Pg.decimal_10_2.
  rewrite (Qle_bool_comp 0 x 0 y (Qeq_refl 0) H).
  rewrite (Qfloor_comp (x * 100 + (1 # 2)) (y * 100 + (1 # 2))) by (rewrite H; reflexivity).
  rewrite (Qfloor_comp (- x * 100 + (1 # 2)) (- y * 100 + (1 # 2))) by (rewrite H; reflexivity).
  reflexivity.
Qed.

End SumFacts.

(** ** Backend order routes *)

Module BackendFacts.
Import Pg OrderSpec.

Lemma int4_some (n m : Z) : int4 n = Some m -> m = n.
Proof.
  unfold int4. destruct ((-2147483648 <=? n) && (n <=? 2147483647)); congruence.
Qed.

Lemma insertOrder_snapshot (now uid : Z) (tot : Q) (addr : string) (db : Db) :
  snapshot (fst (insertOrder now uid tot addr db)) = snapshot db.
Proof.
  unfold insertOrder.
  destruct (decimal_10_2 tot); [|reflexivity].
  destruct (hasUser uid (tables db)); reflexivity.
Qed.

Lemma insertOrderItem_snapshot (oid pid qty : Z) (price : Q) (db : Db) :
  snapshot (fst (insertOrderItem oid pid qty price db)) = snapshot db.
Proof.
  unfold insertOrderItem.
  destruct (int4 qty); [|reflexivity].
  destruct (decimal_10_2 price); [|reflexivity].
  destruct (hasProduct pid (tables db)); reflexivity.
Qed.

Lemma updateStock_snapshot (qty pid : Z) (db : Db) :
  snapshot (fst (updateStock qty pid db)) = snapshot db.
Proof.
  unfold updateStock.
  destruct (int4 qty); [|reflexivity].
  destruct (decreaseStock qty pid (products (tables db))); reflexivity.
Qed.

(** The statements of the loop leave the transaction's snapshot alone,
    whether they succeed or raise. *)
Lemma insertItems_snapshot (oid : Z) (its : list OrdersRoute.Item) (db : Db) :
  snapshot (fst (OrdersRoute.insertItems oid its db)) = snapshot db.
Proof.
  revert db. induction its as [|i its IH]; intro db; simpl; [reflexivity|].
  unfold bind.
  pose proof (insertOrderItem_snapshot oid (OrdersRoute.productId i)
                (OrdersRoute.quantity i) (OrdersRoute.price i) db) as H1.
  destruct (insertOrderItem oid (OrdersRoute.productId i) (OrdersRoute.quantity i)
              (OrdersRoute.price i) db) as [db1 [[]|]]; simpl in *; [|exact H1].
  pose proof (updateStock_snapshot (OrdersRoute.quantity i) (OrdersRoute.productId i) db1) as H2.
  destruct (updateStock (OrdersRoute.quantity i) (OrdersRoute.productId i) db1)
    as [db2 [[]|]]; simpl in *; [|congruence].
  rewrite IH. congruence.
Qed.

(** A transaction that raises ends with the snapshot taken at [BEGIN]
    still in place. *)
Lemma createOrderTx_raises (now user : Z) (its : list OrdersRoute.Item) (addr : string)
    (db db' : Db) :
  OrdersRoute.createOrderTx now user its addr db = (db', None) ->
  snapshot db' = Some (tables db).
Proof.
  unfold OrdersRoute.createOrderTx, bind, begin. simpl.
  set (db0 := mkDb (tables db) (orders_id_seq db) (order_items_id_seq db) (Some (tables db))).
  pose proof (insertOrder_snapshot now user (OrdersRoute.itemsTotal its) addr db0) as H1.
  destruct (insertOrder now user (OrdersRoute.itemsTotal its) addr db0)
    as [db1 [order|]]; simpl in *.
  - pose proof (insertItems_snapshot (orderId order) its db1) as H2.
    destruct (OrdersRoute.insertItems (orderId order) its db1) as [db2 [[]|]]; simpl in *.
    + discriminate.
    + intro H. injection H as <-. congruence.
  - intro H. injection H as <-. exact H1.
Qed.

Lemma insertOrder_ok (now uid : Z) (tot : Q) (addr : string) (db db1 : Db) (row : OrderRow) :
  insertOrder now uid tot addr db = (db1, Some row) ->
  decimal_10_2 tot = Some (total row) /\
  orderId row = orders_id_seq db /\ orderUserId row = Some uid /\
  orderStatus row = "pending"%string /\ shipping_address row = addr /\
  created_at row = now /\
  hasUser uid (tables db) = true /\
  users (tables db1) = users (tables db) /\
  products (tables db1) = products (tables db) /\
  orders (tables db1) = orders (tables db) ++ [row] /\
  order_items (tables db1) = order_items (tables db).
Proof.
  unfold insertOrder.
  destruct (decimal_10_2 tot) as [stored|]; [|discriminate].
  destruct (hasUser uid (tables db)) eqn:Hu; [|discriminate].
  intro H. injection H as <- <-. simpl. repeat split; reflexivity.
Qed.

Lemma decreaseStock_ok (qty pid : Z) (ps ps' : list ProductRow) :
  decreaseStock qty pid ps = Some ps' ->
  Forall2 (fun p p' => stockLowered (if productId p =? pid then qty else 0) p p') ps ps'.
Proof.
  revert ps'. induction ps as [|p ps IH]; intros ps' H; simpl in H.
  - injection H as <-. constructor.
  - destruct (productId p =? pid) eqn:E.
    + destruct (int4 (stock p - qty)) as [n|] eqn:En; [|discriminate].
      destruct (decreaseStock qty pid ps) as [rest|]; [|discriminate].
      injection H as <-. constructor; [|apply IH; reflexivity].
      apply int4_some in En. subst n. rewrite E.
      unfold stockLowered. simpl. tauto.
    + destruct (decreaseStock qty pid ps) as [rest|]; [|discriminate].
      injection H as <-. constructor; [|apply IH; reflexivity].
      rewrite E. unfold stockLowered. repeat split; try reflexivity. lia.
Qed.

Lemma Forall2_stockLowered_trans (n m : Z -> Z) (l l1 l2 : list ProductRow) :
  Forall2 (fun p p' => stockLowered (n (productId p)) p p') l l1 ->
  Forall2 (fun p p' => stockLowered (m (productId p)) p p') l1 l2 ->
  Forall2 (fun p p' => stockLowered (n (productId p) + m (productId p)) p p') l l2.
Proof.
  intro H. revert l2. induction H as [|p p1 l l1 HR HF IH]; intros l2 H2.
  - inversion H2. constructor.
  - inversion H2 as [|? p2 ? l2' HR2 HF2]; subst. constructor; [|apply IH, HF2].
    destruct HR as (Hid & Hn & Hp & Hi & Hc & Hs).
    destruct HR2 as (Hid2 & Hn2 & Hp2 & Hi2 & Hc2 & Hs2).
    rewrite Hid in Hs2.
    unfold stockLowered. repeat split; try congruence. lia.
Qed.

Lemma Forall2_stockLowered_zero (l : list ProductRow) :
  Forall2 (fun p p' => stockLowered 0 p p') l l.
Proof.
  induction l; constructor; auto.
  unfold stockLowered. repeat split; try reflexivity. lia.
Qed.

(** A loop that ran to its end stored one row per item, lowered each
    product's stock by the quantity ordered of it and touched nothing
    else. *)
Lemma insertItems_ok (oid : Z) (its : list OrdersRoute.Item) (db db' : Db) :
  OrdersRoute.insertItems oid its db = (db', Some tt) ->
  users (tables db') = users (tables db) /\
  orders (tables db') = orders (tables db) /\
  Forall2 (fun p p' => stockLowered (orderedQty (productId p) (requestQuantities its)) p p')
    (products (tables db)) (products (tables db')) /\
  exists rows,
    order_items (tables db') = order_items (tables db) ++ rows /\
    Forall2 (storedItem oid) its rows.
Proof.
  revert db. induction its as [|i its IH]; intros db H; simpl in H.
  - injection H as <-. repeat split; auto.
    + apply Forall2_stockLowered_zero.
    + exists []. rewrite app_nil_r. split; [reflexivity|constructor].
  - unfold bind in H.
    destruct (insertOrderItem oid (OrdersRoute.productId i) (OrdersRoute.quantity i)
                (OrdersRoute.price i) db) as [db1 [[]|]] eqn:E1; [|discriminate].
    destruct (updateStock (OrdersRoute.quantity i) (OrdersRoute.productId i) db1)
      as [db2 [[]|]] eqn:E2; [|discriminate].
    destruct (IH db2 H) as (Hu & Ho & Hp & rows & Hi & Hrows).
    unfold insertOrderItem in E1.
    destruct (int4 (OrdersRoute.quantity i)) as [q|] eqn:Eq; [|discriminate].
    destruct (decimal_10_2 (OrdersRoute.price i)) as [pr|] eqn:Ep; [|discriminate].
    destruct (hasProduct (OrdersRoute.productId i) (tables db)); [|discriminate].
    injection E1 as <-.
    unfold updateStock in E2. simpl in E2. rewrite Eq in E2.
    destruct (decreaseStock (OrdersRoute.quantity i) (OrdersRoute.productId i)
                (products (tables db))) as [ps|] eqn:Ed; [|discriminate].
    injection E2 as <-. simpl in *.
    apply int4_some in Eq. subst q.
    repeat split; auto.
    + apply decreaseStock_ok in Ed.
      assert (Ed' : Forall2 (fun p p' =>
                 stockLowered ((fun pid => if OrdersRoute.productId i =? pid
                                           then OrdersRoute.quantity i else 0)
                                 (productId p)) p p')
                      (products (tables db)) ps).
      { eapply Forall2_impl; [|exact Ed]. intros p p'. simpl.
        rewrite (Z.eqb_sym (OrdersRoute.productId i) (productId p)). auto. }
      pose proof (Forall2_stockLowered_trans _
                    (fun pid => orderedQty pid (requestQuantities its))
                    _ _ _ Ed' Hp) as Ht.
      eapply Forall2_impl; [|exact Ht]. intros p p' HH. exact HH.
    + eexists. rewrite Hi, <- app_assoc. split; [reflexivity|].
      constructor; [|exact Hrows].
      unfold storedItem. simpl. auto.
Qed.

(** What a 201 response stands for. *)
Lemma createOrder_created (now user : Z) (body : OrdersRoute.CreateBody)
    (db db' : Db) (code : Z) (row : OrderRow) :
  OrdersRoute.createOrder now user body db = (db', OrdersRoute.Json code row) ->
  code = 201 /\
  exists its addr rows,
    OrdersRoute.items body = Some its /\
    OrdersRoute.shippingAddress body = Some addr /\
    decimal_10_2 (lineTotal (requestLines its)) = Some (total row) /\
    orderUserId row = Some user /\
    orderStatus row = "pending"%string /\
    shipping_address row = addr /\
    created_at row = now /\
    users (tables db') = users (tables db) /\
    orders (tables db') = orders (tables db) ++ [row] /\
    order_items (tables db') = order_items (tables db) ++ rows /\
    Forall2 (storedItem (orderId row)) its rows /\
    Forall2 (fun p p' =>
               stockLowered (orderedQty (productId p) (requestQuantities its)) p p')
      (products (tables db)) (products (tables db')) /\
    snapshot db' = None.
Proof.
  unfold OrdersRoute.createOrder.
  destruct (OrdersRoute.items body) as [[|i its]|] eqn:Hitems; try discriminate.
  destruct (OrdersRoute.shippingAddress body) as [addr|] eqn:Haddr; [|discriminate].
  destruct (String.eqb addr EmptyString); [discriminate|].
  destruct (OrdersRoute.createOrderTx now user (i :: its) addr db) as [db1 [order|]] eqn:Htx;
    [|discriminate].
  intro H. injection H as <- <- <-. split; [reflexivity|].
  unfold OrdersRoute.createOrderTx, bind, begin in Htx. cbv beta iota in Htx.
  set (db0 := mkDb (tables db) (orders_id_seq db) (order_items_id_seq db)
                (Some (tables db))) in Htx.
  destruct (insertOrder now user (OrdersRoute.itemsTotal (i :: its)) addr db0)
    as [db2 [order'|]] eqn:Hins; [|discriminate].
  destruct (OrdersRoute.insertItems (orderId order') (i :: its) db2)
    as [db3 [[]|]] eqn:Hloop; [|discriminate].
  unfold commit, ret in Htx. injection Htx as <- <-.
  destruct (insertOrder_ok _ _ _ _ _ _ _ Hins)
    as (Htot & _ & Huid & Hst & Hsa & Hca & _ & Hu & Hp & Ho & Hi).
  destruct (insertItems_ok _ _ _ _ Hloop) as (Hu' & Ho' & Hp' & rows & Hi' & Hrows).
  exists (i :: its), addr, rows.
  rewrite <- (SumFacts.decimal_10_2_comp _ _ (SumFacts.itemsTotal_lineTotal (i :: its))).
  cbn [tables snapshot].
  rewrite Hu', Ho', Hi', Hu, Ho, Hi. rewrite Hp in Hp'.
  repeat split; auto.
Qed.

(** What an error response stands for. *)
Lemma createOrder_rejected (now user : Z) (body : OrdersRoute.CreateBody)
    (db db' : Db) (code : Z) (msg : string) :
  OrdersRoute.createOrder now user body db = (db', OrdersRoute.ErrorJson code msg) ->
  tables db' = tables db /\
  ((code = 400 /\ db' = db) \/ (code = 500 /\ snapshot db' = None)).
Proof.
  unfold OrdersRoute.createOrder.
  destruct (OrdersRoute.items body) as [[|i its]|];
    try (intro H; injection H as <- <- <-; auto).
  destruct (OrdersRoute.shippingAddress body) as [addr|];
    [|intro H; injection H as <- <- <-; auto].
  destruct (String.eqb addr EmptyString);
    [intro H; injection H as <- <- <-; auto|].
  destruct (OrdersRoute.createOrderTx now user (i :: its) addr db) as [db1 [order|]] eqn:Htx;
    [discriminate|].
  intro H. injection H as <- <- <-.
  apply createOrderTx_raises in Htx.
  unfold rollback. rewrite Htx. simpl. auto.
Qed.

(** C6, amended.  [POST /api/orders] answers 400 (ValidationError) when
    the items are missing or empty or the shipping address is missing,
    and then leaves the database as it is.  When it answers 201 it has
    stored, in one transaction, an order row for the caller, one order
    item row per item, and for each product a stock lowered by the
    quantity ordered of it; the total of the order row is, for an
    ordinary cart (prices in whole cents), the sum of price times
    quantity over the items as the caller supplied them, with no catalog
    lookup and no subtotal, tax or fees.  Any other answer (400 or 500)
    leaves all four tables as they were. *)
Theorem createOrder_all_or_nothing (now user : Z) (body : OrdersRoute.CreateBody) (db : Db) :
  let r := OrdersRoute.createOrder now user body db in
  ((OrdersRoute.items body = None \/ OrdersRoute.items body = Some [] \/
    OrdersRoute.falsy (OrdersRoute.shippingAddress body) = true) ->
     fst r = db /\ OrdersRoute.classify (snd r) = Some ValidationError) /\
  (forall code row, snd r = OrdersRoute.Json code row ->
     code = 201 /\
     exists its addr rows,
       OrdersRoute.items body = Some its /\
       OrdersRoute.shippingAddress body = Some addr /\
       (plainCart its ->
          decimal_10_2 (lineTotal (requestLines its)) = Some (total row)) /\
       orderUserId row = Some user /\
       orderStatus row = "pending"%string /\
       users (tables (fst r)) = users (tables db) /\
       orders (tables (fst r)) = orders (tables db) ++ [row] /\
       order_items (tables (fst r)) = order_items (tables db) ++ rows /\
       Forall2 (storedItem (orderId row)) its rows /\
       Forall2 (fun p p' =>
                  stockLowered (orderedQty (productId p) (requestQuantities its)) p p')
         (products (tables db)) (products (tables (fst r))) /\
       snapshot (fst r) = None) /\
  (forall code msg, snd r = OrdersRoute.ErrorJson code msg ->
     tables (fst r) = tables db /\ (code = 400 \/ code = 500)).
Proof.
  intro r. subst r.
  destruct (OrdersRoute.createOrder now user body db) as [db' resp] eqn:E. simpl.
  split; [|split].
  - intro Hbad. revert E. unfold OrdersRoute.createOrder.
    destruct Hbad as [->|[->|Hf]];
      try (intro H; injection H as <- <-; split; reflexivity).
    destruct (OrdersRoute.items body) as [[|i its]|];
      try (intro H; injection H as <- <-; split; reflexivity).
    unfold OrdersRoute.falsy in Hf.
    destruct (OrdersRoute.shippingAddress body) as [addr|];
      [|intro H; injection H as <- <-; split; reflexivity].
    rewrite Hf. intro H; injection H as <- <-; split; reflexivity.
  - intros code row ->.
    destruct (createOrder_created _ _ _ _ _ _ _ E)
      as (Hc & its & addr & rows & H1 & H2 & H3 & H4 & Hp & _ & _ & H5 & H6 & H7 & H8 & H9 & H10).
    split; [exact Hc|]. exists its, addr, rows.
    split; [exact H1|]. split; [exact H2|]. split; [intros _; exact H3|].
    repeat split; assumption.
  - intros code msg ->.
    destruct (createOrder_rejected _ _ _ _ _ _ _ E) as [Ht [[Hc _]|[Hc _]]]; auto.
Qed.

Lemma isValidStatus_iff (st : string) :
  OrdersRoute.isValidStatus st = true <-> In st OrdersRoute.validStatuses.
Proof.
  unfold OrdersRoute.isValidStatus. rewrite existsb_exists. split.
  - intros (x & Hx & He). apply String.eqb_eq in He. subst. exact Hx.
  - intro H. exists st. split; [exact H|apply String.eqb_refl].
Qed.

Lemma find_filter_hd {A : Type} (p : A -> bool) (l : list A) :
  hd_error (filter p l) = find p l.
Proof.
  induction l as [|x l IH]; simpl; [reflexivity|].
  destruct (p x); [reflexivity|exact IH].
Qed.

Lemma map_status_absent (st : string) (oid : Z) (l : list OrderRow) :
  (forall o, In o l -> orderId o <> oid) ->
  map (fun o => if orderId o =? oid then withOrderStatus st o else o) l = l /\
  filter (fun o => orderId o =? oid) l = [].
Proof.
  induction l as [|x l IH]; intro H; simpl; [auto|].
  assert (Hx : (orderId x =? oid) = false)
    by (apply Z.eqb_neq, H; left; reflexivity).
  rewrite Hx. destruct IH as [-> ->]; auto.
  intros o Ho. apply H. right. exact Ho.
Qed.

(** C7, amended.  [PUT /api/orders/:id/status] answers 400
    (ValidationError) for a status outside pending, processing, shipped,
    delivered, cancelled, whatever the id, and leaves the database as it
    is.  For a valid status and an id that the integer id column can
    hold it answers 404 (NotFoundError) when no order has the id, again
    leaving the database as it is, and otherwise answers with the
    updated row, whatever the status was before: the order has the new
    status, its other columns and all other rows are as before.  For a
    valid status and any other id (no integer, or one out of the
    column's range) the query is refused and the answer is 500.  The
    storefront's [updateOrderStatus] answers an error with status 404
    for an unknown id and otherwise puts, at the position of the first
    order with the id, that order with the new status and its other
    fields unchanged, leaving every other position as it is. *)
Theorem updateStatus_contract :
  (forall (id : OrdersRoute.RouteId) (st : string) (db : Db),
     let r := OrdersRoute.updateStatusRoute id st db in
     (~ In st OrdersRoute.validStatuses ->
        fst r = db /\ OrdersRoute.classify (snd r) = Some ValidationError) /\
     (In st OrdersRoute.validStatuses -> OrdersRoute.boundId id = None ->
        fst r = db /\ snd r = OrdersRoute.ErrorJson 500 "Server error.") /\
     (forall oid, In st OrdersRoute.validStatuses -> OrdersRoute.boundId id = Some oid ->
        ((forall o, In o (orders (tables db)) -> orderId o <> oid) ->
           fst r = db /\ OrdersRoute.classify (snd r) = Some NotFoundError) /\
        (forall o, find (fun x => orderId x =? oid) (orders (tables db)) = Some o ->
           snd r = OrdersRoute.Json 200 (withOrderStatus st o) /\
           orderStatus (withOrderStatus st o) = st /\
           sameOrderRow o (withOrderStatus st o) /\
           users (tables (fst r)) = users (tables db) /\
           products (tables (fst r)) = products (tables db) /\
           order_items (tables (fst r)) = order_items (tables db) /\
           List.length (orders (tables (fst r))) = List.length (orders (tables db)) /\
           (forall i x, nth_error (orders (tables db)) i = Some x ->
              exists x', nth_error (orders (tables (fst r))) i = Some x' /\
                         sameOrderRow x x' /\
                         orderStatus x' = if orderId x =? oid then st else orderStatus x)))) /\
  (forall (oid : Z) (st : OrderService.OrderStatus) (s : OrderService.State),
     let r := OrderService.updateOrderStatus oid st s in
     (find (fun x => OrderService.id x =? oid) (OrderService.orders s) = None ->
        r = (s, throwError OrderService.OrderNotFound404) /\
        OrderService.classify OrderService.OrderNotFound404 = NotFoundError) /\
     (forall o, find (fun x => OrderService.id x =? oid) (OrderService.orders s) = Some o ->
        snd r = ofValue (OrderService.withStatus st o) /\
        OrderService.status (OrderService.withStatus st o) = st /\
        sameOrder o (OrderService.withStatus st o) /\
        exists index,
          Js.findIndex (fun x => OrderService.id x =? oid) (OrderService.orders s)
            = Some index /\
          nth_error (OrderService.orders s) index = Some o /\
          nth_error (OrderService.orders (fst r)) index
            = Some (OrderService.withStatus st o) /\
          List.length (OrderService.orders (fst r)) = List.length (OrderService.orders s) /\
          (forall i, i <> index ->
             nth_error (OrderService.orders (fst r)) i
               = nth_error (OrderService.orders s) i))).
Proof.
  split.
  - intros id st db r. subst r. unfold OrdersRoute.updateStatusRoute.
    split; [|split].
    + intro Hbad.
      assert (Hv : OrdersRoute.isValidStatus st = false).
      { destruct (OrdersRoute.isValidStatus st) eqn:E; [|reflexivity].
        apply isValidStatus_iff in E. tauto. }
      rewrite Hv. simpl. auto.
    + intros Hok Hb. apply isValidStatus_iff in Hok. rewrite Hok, Hb. simpl. auto.
    + intros oid Hok Hb. apply isValidStatus_iff in Hok. rewrite Hok, Hb. simpl.
      split.
      * intro Habs.
        destruct (map_status_absent st oid _ Habs) as [Hm Hf].
        unfold Pg.updateOrderStatus. rewrite Hm, Hf. simpl.
        split; [|reflexivity].
        destruct db as [[u p o i] s1 s2 sn]. reflexivity.
      * intros o Hf.
        unfold Pg.updateOrderStatus.
        rewrite <- find_filter_hd in Hf.
        destruct (filter (fun x => orderId x =? oid) (orders (tables db))) as [|o' rest];
          [discriminate|].
        injection Hf as ->. simpl.
        repeat split; auto.
        -- apply length_map.
        -- intros i x Hx. rewrite nth_error_map, Hx. simpl.
           eexists. split; [reflexivity|].
           destruct (orderId x =? oid); simpl; repeat split; reflexivity.
  - intros oid st s r. subst r. unfold OrderService.updateOrderStatus.
    pose proof (JsFacts.findIndex_find (fun x => OrderService.id x =? oid)
                  (OrderService.orders s)) as Hfi.
    destruct (Js.findIndex (fun x => OrderService.id x =? oid) (OrderService.orders s))
      as [index|].
    + destruct Hfi as (x0 & Hn & Hf0). rewrite Hn. split.
      * intro Hnone. congruence.
      * intros o Hf. rewrite Hf0 in Hf. injection Hf as <-. simpl.
        split; [reflexivity|]. split; [reflexivity|].
        split; [repeat split; reflexivity|].
        exists index. split; [reflexivity|]. split; [exact Hn|].
        split; [apply (JsFacts.setAt_nth_same _ _ x0), Hn|].
        split; [apply JsFacts.setAt_length|].
        intros i Hne. apply JsFacts.setAt_nth_other. auto.
    + split.
      * intros _. auto.
      * intros o Hf. congruence.
Qed.

Lemma createOrder_all_or_nothing_witness :
  snd (OrdersRoute.createOrder 0 2 withUnknownProduct seedDb)
    = OrdersRoute.ErrorJson 500 "Server error creating order." /\
  tables (fst (OrdersRoute.createOrder 0 2 withUnknownProduct seedDb)) = tables seedDb /\
  OrdersRoute.falsy (OrdersRoute.shippingAddress withoutAddress) = true /\
  fst (OrdersRoute.createOrder 0 2 withoutAddress seedDb) = seedDb /\
  (exists row its,
     snd (OrdersRoute.createOrder 0 2 oneHeadphones seedDb) = OrdersRoute.Json 201 row /\
     OrdersRoute.items oneHeadphones = Some its /\
     plainCart its /\
     decimal_10_2 (lineTotal (requestLines its)) = Some (total row) /\
     (total row == 79.99)%Q).
Proof.
  set (body := withUnknownProduct).
  set (r := OrdersRoute.createOrder 0 2 body seedDb).
  assert (H : snd r = OrdersRoute.ErrorJson 500 "Server error creating order.")
    by (vm_compute; reflexivity).
  split; [exact H|].
  destruct (createOrder_all_or_nothing 0 2 body seedDb) as (_ & _ & Herr).
  split; [apply (Herr _ _ H)|].
  split; [reflexivity|].
  destruct (createOrder_all_or_nothing 0 2 withoutAddress seedDb)
    as (Hval & _ & _).
  split; [apply Hval; right; right; reflexivity|].
  destruct (createOrder_all_or_nothing 0 2 oneHeadphones seedDb) as (_ & Hok & _).
  eexists.
  assert (Hr : snd (OrdersRoute.createOrder 0 2 oneHeadphones seedDb)
          = OrdersRoute.Json 201 _) by (vm_compute; reflexivity).
  destruct (Hok _ _ Hr) as (_ & its & addr & rows & Hi & _ & Ht & _).
  exists its. split; [exact Hr|]. split; [exact Hi|].
  simpl in Hi. injection Hi as <-.
  assert (Hplain : plainCart [OrdersRoute.mkItem 1 1 79.99]).
  { split; [simpl; lia|].
    constructor; [|constructor].
    split; [exists 7999%Z; vm_compute; reflexivity|].
    split; [unfold Qle; simpl; lia|simpl; lia]. }
  split; [exact Hplain|]. split; [exact (Ht Hplain)|].
  vm_compute. reflexivity.
Defined.

(** C6 as stated fails where it says the order's subtotal, tax, fees
    and total are computed: the stored total of one item at 79.99 is
    79.99, not 79.99 + 6.60 + 4.99 = 91.58. *)
Lemma createOrder_total_is_item_sum :
  exists db' row,
    OrdersRoute.createOrder 0 2 oneHeadphones seedDb
      = (db', OrdersRoute.Json 201 row) /\
    (total row == 79.99)%Q /\
    (Num.round2 (79.99 + Num.round2 (79.99 * OrderService.TAX_RATE) + OrderService.FLAT_FEE)
       == 91.58)%Q /\
    ~ (total row == 91.58)%Q.
Proof.
  eexists. eexists.
  split; [vm_compute; reflexivity|].
  split; [vm_compute; reflexivity|].
  split; [vm_compute; reflexivity|].
  intro H. vm_compute in H. discriminate.
Qed.

Lemma updateStatus_contract_witness :
  (~ In "bogus"%string OrdersRoute.validStatuses /\
   fst (OrdersRoute.updateStatusRoute (OrdersRoute.IdInteger 1) "bogus" dbWithOneOrder)
     = dbWithOneOrder) /\
  (In "shipped"%string OrdersRoute.validStatuses /\
   OrdersRoute.boundId (OrdersRoute.IdInteger 1) = Some 1 /\
   exists o, find (fun x => orderId x =? 1) (orders (tables dbWithOneOrder)) = Some o /\
             orderStatus o = "pending"%string /\
             snd (OrdersRoute.updateStatusRoute (OrdersRoute.IdInteger 1) "shipped"
                    dbWithOneOrder)
               = OrdersRoute.Json 200 (withOrderStatus "shipped" o)) /\
  (OrdersRoute.boundId (OrdersRoute.IdInteger 5) = Some 5 /\
   OrdersRoute.classify
     (snd (OrdersRoute.updateStatusRoute (OrdersRoute.IdInteger 5) "shipped"
             dbWithOneOrder)) = Some NotFoundError) /\
  (OrdersRoute.boundId (OrdersRoute.IdOther "abc") = None /\
   snd (OrdersRoute.updateStatusRoute (OrdersRoute.IdOther "abc") "shipped" dbWithOneOrder)
     = OrdersRoute.ErrorJson 500 "Server error.") /\
  (exists o, find (fun x => OrderService.id x =? 4)
               (OrderService.orders OrderService.initialState) = Some o /\
             OrderService.status o = OrderService.delivered /\
             snd (OrderService.updateOrderStatus 4 OrderService.pending
                    OrderService.initialState)
               = ofValue (OrderService.withStatus OrderService.pending o) /\
             nth_error
               (OrderService.orders
                  (fst (OrderService.updateOrderStatus 4 OrderService.pending
                          OrderService.initialState))) 3
               = Some (OrderService.withStatus OrderService.pending o)).
Proof.
  set (db := dbWithOneOrder).
  destruct updateStatus_contract as [Hback Hfront].
  assert (Hbogus : ~ In "bogus"%string OrdersRoute.validStatuses).
  { intro H. apply isValidStatus_iff in H. vm_compute in H. discriminate. }
  assert (Hshipped : In "shipped"%string OrdersRoute.validStatuses).
  { apply isValidStatus_iff. reflexivity. }
  split; [|split; [|split; [|split]]].
  - split; [exact Hbogus|].
    destruct (Hback (OrdersRoute.IdInteger 1) "bogus"%string db) as (Hval & _ & _).
    apply Hval, Hbogus.
  - split; [exact Hshipped|]. split; [reflexivity|]. eexists.
    split; [vm_compute; reflexivity|]. split; [reflexivity|].
    destruct (Hback (OrdersRoute.IdInteger 1) "shipped"%string db) as (_ & _ & Hok).
    destruct (Hok 1 Hshipped eq_refl) as (_ & Hfound).
    destruct (Hfound _ eq_refl) as (Hr & _). exact Hr.
  - split; [reflexivity|].
    destruct (Hback (OrdersRoute.IdInteger 5) "shipped"%string db) as (_ & _ & Hok).
    destruct (Hok 5 Hshipped eq_refl) as (Habs & _).
    apply Habs. intros o Ho. simpl in Ho. destruct Ho as [<-|[]]. discriminate.
  - split; [reflexivity|].
    destruct (Hback (OrdersRoute.IdOther "abc") "shipped"%string db) as (_ & Herr & _).
    apply Herr; [exact Hshipped|reflexivity].
  - eexists. split; [vm_compute; reflexivity|]. split; [reflexivity|].
    destruct (Hfront 4 OrderService.pending OrderService.initialState) as (_ & Hok).
    destruct (Hok _ eq_refl) as (Hr & _ & _ & index & Hi & _ & Hnth & _).
    split; [exact Hr|].
    vm_compute in Hi. injection Hi as <-. exact Hnth.
Defined.

(** C7 as stated fails where it says that an id no order has gives
    NotFoundError: the id column is an [INTEGER], so for the id
    2147483648, which no order has and the column cannot hold, and for
    an id that is no number, the query is refused and the handler's
    [catch] answers 500. *)
Lemma updateStatus_id_out_of_range :
  In "shipped"%string OrdersRoute.validStatuses /\
  (forall o, In o (orders (tables dbWithOneOrder)) -> orderId o <> 2147483648) /\
  OrdersRoute.updateStatusRoute (OrdersRoute.IdInteger 2147483648) "shipped" dbWithOneOrder
    = (dbWithOneOrder, OrdersRoute.ErrorJson 500 "Server error.") /\
  OrdersRoute.updateStatusRoute (OrdersRoute.IdOther "abc") "shipped" dbWithOneOrder
    = (dbWithOneOrder, OrdersRoute.ErrorJson 500 "Server error.") /\
  OrdersRoute.classify (OrdersRoute.ErrorJson 500 "Server error.") = Some InternalError /\
  OrdersRoute.classify (OrdersRoute.ErrorJson 500 "Server error.") <> Some NotFoundError.
Proof.
  split; [simpl; tauto|].
  split; [intros o Ho; simpl in Ho; destruct Ho as [<-|[]]; discriminate|].
  split; [reflexivity|]. split; [reflexivity|]. split; [reflexivity|discriminate].
Qed.

End BackendFacts.

(** ** Storefront orders *)

Module OrderFacts.
Import OrderService OrderSpec.
Local Open Scope Q_scope.

Lemma filter_partition_length {A : Type} (p : A -> bool) (l : list A) :
  (List.length (filter p l) + List.length (filter (fun x => negb (p x)) l))%nat
  = List.length l.
Proof.
  induction l as [|x l IH]; simpl; [reflexivity|].
  destruct (p x); simpl; lia.
Qed.

(** The totals [buildOrder] computes. *)
Lemma buildOrder_totals (oid : Z) (num : string) (uid : Z) (st : OrderStatus)
    (created : Js.Time) (addr mail fn ln : string) (its : list OrderItem) :
  let o := buildOrder oid num uid st created addr mail fn ln its in
  subtotal o == Num.round2 (lineTotal (orderLines its)) /\
  tax o == Num.round2 (subtotal o * 0.0825) /\
  fees o == 4.99 /\
  total o == Num.round2 (subtotal o + tax o + fees o).
Proof.
  simpl. split; [|split; [|split]]; try reflexivity.
  apply NumFacts.round2_proper, SumFacts.itemsSum_lineTotal.
Qed.

(** C2, amended.  An order built by [buildOrder], as the five seed
    orders are, has subtotal = round2 of the sum of unit price times
    quantity, tax = round2(subtotal * 0.0825), fees = 4.99 and total =
    round2(subtotal + tax + fees); for the seed orders the subtotal is
    that sum itself.  Items (79.99, 1) and (29.99, 2) give 139.97, 11.55,
    4.99 and 156.51.  An order created through [POST /api/orders] has no
    subtotal, tax or fees: for an ordinary cart (prices in whole cents)
    its total is the sum of price times quantity as the [DECIMAL(10, 2)]
    column stores it. *)
Theorem order_totals :
  (forall oid num uid st created addr mail fn ln its,
     let o := buildOrder oid num uid st created addr mail fn ln its in
     subtotal o == Num.round2 (lineTotal (orderLines its)) /\
     tax o == Num.round2 (subtotal o * 0.0825) /\
     fees o == 4.99 /\
     total o == Num.round2 (subtotal o + tax o + fees o)) /\
  (forall o, In o SEED_ORDERS ->
     exists its, items o = Some its /\
       subtotal o == lineTotal (orderLines its) /\
       tax o == Num.round2 (subtotal o * 0.0825) /\
       fees o == 4.99 /\
       total o == Num.round2 (subtotal o + tax o + fees o)) /\
  (forall oid num uid st created addr mail fn ln its,
     orderLines its = [(79.99, 1%Z); (29.99, 2%Z)] ->
     let o := buildOrder oid num uid st created addr mail fn ln its in
     subtotal o == 139.97 /\ tax o == 11.55 /\ fees o == 4.99 /\ total o == 156.51) /\
  (forall now user body db code row,
     snd (OrdersRoute.createOrder now user body db) = OrdersRoute.Json code row ->
     exists its, OrdersRoute.items body = Some its /\
       (plainCart its ->
          Pg.decimal_10_2 (lineTotal (requestLines its)) = Some (Pg.total row))).
Proof.
  split; [|split; [|split]].
  - intros. apply buildOrder_totals.
  - intros o Ho.
    assert (Hall : forallb (fun x =>
              match items x with
              | Some its =>
                  Qeq_bool (subtotal x) (lineTotal (orderLines its))
                  && Qeq_bool (tax x) (Num.round2 (subtotal x * 0.0825))
                  && Qeq_bool (fees x) 4.99
                  && Qeq_bool (total x) (Num.round2 (subtotal x + tax x + fees x))
              | None => false
              end) SEED_ORDERS = true) by (vm_compute; reflexivity).
    rewrite forallb_forall in Hall. specialize (Hall o Ho).
    destruct (items o) as [its|]; [|discriminate].
    rewrite !andb_true_iff in Hall. destruct Hall as [[[H1 H2] H3] H4].
    exists its. rewrite <- !Qeq_bool_iff. auto.
  - intros oid num uid st created addr mail fn ln its Hlines o.
    destruct (buildOrder_totals oid num uid st created addr mail fn ln its)
      as (Hs & Ht & Hf & Htot).
    fold o in Hs, Ht, Hf, Htot. rewrite Hlines in Hs.
    assert (Hs' : subtotal o == 139.97) by (rewrite Hs; vm_compute; reflexivity).
    assert (Ht' : tax o == 11.55).
    { rewrite Ht. rewrite (NumFacts.round2_proper _ (139.97 * 0.0825)).
      - vm_compute. reflexivity.
      - rewrite Hs'. reflexivity. }
    split; [exact Hs'|]. split; [exact Ht'|]. split; [exact Hf|].
    rewrite Htot. rewrite (NumFacts.round2_proper _ (139.97 + 11.55 + 4.99)).
    + vm_compute. reflexivity.
    + rewrite Hs', Ht', Hf. reflexivity.
  - intros now user body db code row H.
    destruct (OrdersRoute.createOrder now user body db) as [db' resp] eqn:E.
    simpl in H. subst resp.
    destruct (BackendFacts.createOrder_created _ _ _ _ _ _ _ E)
      as (_ & its & _ & _ & H1 & _ & H3 & _).
    exists its. split; [exact H1|intros _; exact H3].
Qed.

Lemma order_totals_witness :
  (exists o its, In o SEED_ORDERS /\ items o = Some its /\
     subtotal o == lineTotal (orderLines its) /\ total o == 156.51) /\
  (exists row its,
     snd (OrdersRoute.createOrder 0 2 headphonesAndPots Pg.seedDb)
       = OrdersRoute.Json 201 row /\
     OrdersRoute.items headphonesAndPots = Some its /\
     plainCart its /\
     Pg.decimal_10_2 (lineTotal [(79.99, 1%Z); (29.99, 2%Z)]) = Some (Pg.total row)).
Proof.
  destruct order_totals as (_ & Hseed & _ & Hback).
  split.
  - assert (Hin : In (nth 0 SEED_ORDERS (buildOrder 0 "" 0 pending None "" "" "" "" []))
                    SEED_ORDERS) by (left; reflexivity).
    destruct (Hseed _ Hin) as (its & Hi & Hs & _).
    eexists. exists its. split; [exact Hin|]. split; [exact Hi|]. split; [exact Hs|].
    vm_compute. reflexivity.
  - eexists.
    assert (Hr : snd (OrdersRoute.createOrder 0 2 headphonesAndPots Pg.seedDb)
            = OrdersRoute.Json 201 _) by (vm_compute; reflexivity).
    destruct (Hback _ _ _ _ _ _ Hr) as (its & Hi & Ht).
    exists its. split; [exact Hr|]. split; [exact Hi|].
    simpl in Hi. injection Hi as <-.
    assert (Hplain : plainCart
              [OrdersRoute.mkItem 1 1 79.99; OrdersRoute.mkItem 10 2 29.99]).
    { split; [simpl; lia|].
      constructor; [|constructor; [|constructor]].
      - split; [exists 7999%Z; vm_compute; reflexivity|].
        split; [unfold Qle; simpl; lia|simpl; lia].
      - split; [exists 2999%Z; vm_compute; reflexivity|].
        split; [unfold Qle; simpl; lia|simpl; lia]. }
    split; [exact Hplain|]. exact (Ht Hplain).
Defined.

(** C2 as stated fails for the orders the backend creates: for the
    items (79.99, 1) and (29.99, 2) the stored total is 139.97, not
    156.51. *)
Lemma backend_order_total_without_tax :
  exists db' row,
    OrdersRoute.createOrder 0 2 headphonesAndPots Pg.seedDb
      = (db', OrdersRoute.Json 201 row) /\
    Pg.total row == 139.97 /\
    ~ Pg.total row == 156.51.
Proof.
  eexists. eexists.
  split; [vm_compute; reflexivity|].
  split; [vm_compute; reflexivity|].
  intro H. vm_compute in H. discriminate.
Qed.

(** C9, amended.  [getTotalRevenue] is the rounded sum of the totals of
    the orders that are not cancelled; [getOrderCount] is the number of
    all orders, the cancelled ones included. *)
Theorem revenue_and_count (s : State) :
  getTotalRevenue s == Num.round2 (sumQ (map total (nonCancelled (orders s)))) /\
  getOrderCount s = Z.of_nat (List.length (orders s)) /\
  getOrderCount s =
    (Z.of_nat (List.length (nonCancelled (orders s)))
     + Z.of_nat (List.length (cancelledOrders (orders s))))%Z.
Proof.
  split; [|split].
  - unfold getTotalRevenue. apply NumFacts.round2_proper.
    fold (nonCancelled (orders s)).
    rewrite (SumFacts.fold_left_sumQ total). lra.
  - reflexivity.
  - unfold getOrderCount, nonCancelled, cancelledOrders.
    rewrite <- (filter_partition_length
                  (fun o => statusEqb (status o) cancelled) (orders s)).
    lia.
Qed.

(** C9 as stated fails for [getOrderCount]: of the five seed orders one
    is cancelled, and the count is 5, not 4. *)
Lemma getOrderCount_counts_cancelled :
  getOrderCount initialState = 5%Z /\
  Z.of_nat (List.length (nonCancelled (orders initialState))) = 4%Z /\
  getTotalRevenue initialState == 755.97.
Proof.
  split; [reflexivity|]. split; [reflexivity|]. vm_compute. reflexivity.
Qed.

End OrderFacts.

(** ** Review ratings *)

Module ReviewFacts.
Import ReviewService ReviewSpec OrderSpec.
Local Open Scope Q_scope.






End ReviewFacts.

(** ** Sorting *)

Module SortFacts.
Import Js.

Section Sort.
Context {A : Type} (before : A -> A -> bool).

Lemma insertSorted_perm (x : A) (l : list A) :
  Permutation (insertSorted before x l) (x :: l).
Proof.
  induction l as [|y l IH]; simpl; [apply Permutation_refl|].
  destruct (before x y); [apply Permutation_refl|].
  apply perm_trans with (y :: x :: l); [apply perm_skip, IH|apply perm_swap].
Qed.

Lemma sort_perm (l : list A) : Permutation (sort before l) l.
Proof.
  induction l as [|x l IH]; [apply Permutation_refl|].
  unfold sort in *. simpl.
  apply perm_trans with (x :: fold_right (insertSorted before) [] l);
    [apply insertSorted_perm|apply perm_skip, IH].
Qed.

Lemma sort_length (l : list A) : List.length (sort before l) = List.length l.
Proof. apply Permutation_length, sort_perm. Qed.

Variable P : A -> Prop.
Hypothesis total : forall x y, P x -> P y -> before x y = true \/ before y x = true.
Hypothesis trans : forall x y z, P x -> P y -> P z ->
  before x y = true -> before y z = true -> before x z = true.

Lemma insertSorted_sorted (x : A) (l : list A) :
  P x -> Forall P l ->
  StronglySorted (fun a b => before a b = true) l ->
  StronglySorted (fun a b => before a b = true) (insertSorted before x l).
Proof.
  intros Hx HP Hs. induction l as [|y l IH]; simpl.
  - constructor; constructor.
  - inversion HP as [|? ? Hy HP']; subst.
    inversion Hs as [|? ? Hs' Hall]; subst.
    destruct (before x y) eqn:E.
    + constructor; [exact Hs|].
      constructor; [exact E|].
      rewrite Forall_forall in *. intros z Hz.
      apply (trans x y z); auto.
    + constructor; [apply IH; assumption|].
      rewrite Forall_forall in *. intros z Hz.
      apply (Permutation_in _ (insertSorted_perm x l)) in Hz.
      destruct Hz as [<-|Hz]; [|apply Hall, Hz].
      destruct (total x y Hx Hy) as [H|H]; [congruence|exact H].
Qed.

(** On elements the comparator orders totally, [sort] sorts. *)
Lemma sort_sorted (l : list A) :
  Forall P l -> StronglySorted (fun a b => before a b = true) (sort before l).
Proof.
  induction l as [|x l IH]; intro HP; [constructor|].
  inversion HP as [|? ? Hx HP']; subst.
  unfold sort in *. simpl. apply insertSorted_sorted; auto.
  rewrite Forall_forall in *. intros y Hy.
  apply HP'. apply (Permutation_in _ (sort_perm l)). exact Hy.
Qed.

End Sort.

Lemma In_sort_filter {A : Type} (before : A -> A -> bool) (p : A -> bool)
    (l : list A) (x : A) :
  In x (sort before (filter p l)) <-> In x l /\ p x = true.
Proof. rewrite JsFacts.In_sort. apply filter_In. Qed.

(** In a sorted list every element of a front part comes before every
    element of the rest. *)
Lemma sorted_firstn {A : Type} (R : A -> A -> Prop) (n : nat) (l : list A) :
  StronglySorted R l ->
  forall x y, In x (firstn n l) -> In y (skipn n l) -> R x y.
Proof.
  intro Hs. revert n. induction Hs as [|a l Hs IH Hall]; intros n x y Hx Hy.
  - destruct n; destruct Hx.
  - destruct n as [|n]; [destruct Hx|].
    simpl in Hx, Hy. destruct Hx as [<-|Hx].
    + rewrite Forall_forall in Hall. apply Hall.
      rewrite <- (firstn_skipn n l). apply in_or_app. right. exact Hy.
    + apply (IH n); assumption.
Qed.

Lemma In_unique {A : Type} (eqb : A -> A -> bool) (l : list A) (x : A) :
  (forall a b, eqb a b = true <-> a = b) ->
  In x (unique eqb l) <-> In x l.
Proof.
  intro Heq. induction l as [|y l IH]; simpl; [tauto|].
  rewrite filter_In, IH. split.
  - intros [H|[H _]]; auto.
  - intros [H|H]; auto.
    destruct (eqb y x) eqn:E.
    + left. apply Heq, E.
    + right. split; [exact H|reflexivity].
Qed.

End SortFacts.

(** ** Auction engine: listings, cancellation and the ledger *)

Module AuctionMore.
Import AuctionService AuctionSpec LedgerSpec AuctionFacts.

Lemma find_app_none {A : Type} (p : A -> bool) (l l' : list A) :
  find p l = None -> find p (l ++ l') = find p l'.
Proof.
  induction l as [|x l IH]; simpl; [reflexivity|].
  destruct (p x); [discriminate|exact IH].
Qed.

Lemma find_app_some {A : Type} (p : A -> bool) (l l' : list A) (x : A) :
  find p l = Some x -> find p (l ++ l') = Some x.
Proof.
  induction l as [|y l IH]; simpl; [discriminate|].
  destruct (p y); [auto|exact IH].
Qed.

(** [cancelAuction] checks, in this order, that the auction exists
    (NotFoundError), that the requester is its seller (ForbiddenError,
    whatever the status) and that it is active (ConflictError); a
    refusal changes nothing.  Otherwise the auction, and only it,
    becomes cancelled, the ledger stays as it is, and cancelling it a
    second time is refused with ConflictError. *)
Theorem cancelAuction_contract (aid requester : Z) (s : State) :
  (findAuction aid s = None ->
     failsWith (cancelAuction aid requester s) s NotFoundError) /\
  (forall a, findAuction aid s = Some a ->
     (sellerId a <> requester ->
        failsWith (cancelAuction aid requester s) s ForbiddenError) /\
     (sellerId a = requester -> status a <> active ->
        failsWith (cancelAuction aid requester s) s ConflictError) /\
     (sellerId a = requester -> status a = active ->
        exists s',
          cancelAuction aid requester s = (s', Normal (ofValue (setStatus cancelled a))) /\
          findAuction aid s' = Some (setStatus cancelled a) /\
          bids s' = bids s /\
          (forall i x, nth_error (auctions s) i = Some x -> id x <> aid ->
                       nth_error (auctions s') i = Some x) /\
          failsWith (cancelAuction aid requester s') s' ConflictError)).
Proof.
  unfold failsWith, cancelAuction. split.
  - intros ->. exists AuctionNotFound. split; reflexivity.
  - intros a Hf. rewrite Hf. split; [|split].
    + intro Hne. apply Z.eqb_neq in Hne. rewrite Hne. simpl.
      exists NotYourAuction. split; reflexivity.
    + intros Heq Hst. apply Z.eqb_eq in Heq. rewrite Heq. simpl.
      apply statusEqb_neq in Hst. rewrite Hst. simpl.
      exists OnlyActiveCancellable. split; reflexivity.
    + intros Heq Hst. apply Z.eqb_eq in Heq. rewrite Heq. simpl.
      apply statusEqb_eq in Hst. rewrite Hst. simpl.
      eexists. split; [reflexivity|].
      assert (Hf' : findAuction aid
                (setAuctions (Js.updateFirst (fun x => id x =? aid) (setStatus cancelled)
                                (auctions s)) s) = Some (setStatus cancelled a)).
      { unfold findAuction in *. simpl.
        apply JsFacts.find_updateFirst; [reflexivity|exact Hf]. }
      split; [exact Hf'|]. split; [reflexivity|]. split.
      * intros i x Hi Hx. simpl. apply JsFacts.updateFirst_nth_other; [exact Hi|].
        apply Z.eqb_neq, Hx.
      * rewrite Hf'. simpl. rewrite Heq. simpl.
        exists OnlyActiveCancellable. split; reflexivity.
Qed.

Lemma cancelAuction_contract_witness :
  exists a,
    findAuction 1 atMidnight = Some a /\
    sellerId a <> 998 /\
    failsWith (cancelAuction 1 998 atMidnight) atMidnight ForbiddenError /\
    sellerId a = 100 /\ status a = active /\
    (exists s', cancelAuction 1 100 atMidnight
                = (s', Normal (ofValue (setStatus cancelled a)))) /\
    findAuction 9 atMidnight = None /\
    failsWith (cancelAuction 9 100 atMidnight) atMidnight NotFoundError.
Proof.
  eexists. split; [vm_compute; reflexivity|].
  assert (Hne : 100 <> 998) by lia.
  destruct (cancelAuction_contract 1 998 atMidnight) as [_ H1].
  destruct (cancelAuction_contract 1 100 atMidnight) as [_ H2].
  destruct (cancelAuction_contract 9 100 atMidnight) as [H3 _].
  split; [exact Hne|].
  split; [apply (H1 _ eq_refl), Hne|].
  split; [reflexivity|]. split; [reflexivity|].
  split.
  - destruct (H2 _ eq_refl) as (_ & _ & Hok).
    destruct (Hok eq_refl eq_refl) as (s' & Hr & _). exists s'. exact Hr.
  - split; [reflexivity|]. apply H3. reflexivity.
Defined.

Lemma sweep_keeps_ledger (now : Z) (s : State) :
  bids (fst (checkAndEndAuctions now s)) = bids s /\
  nextBidId (fst (checkAndEndAuctions now s)) = nextBidId s /\
  nextAuctionId (fst (checkAndEndAuctions now s)) = nextAuctionId s.
Proof.
  unfold checkAndEndAuctions.
  destruct (sweep now (bids s) (auctions s)); simpl. auto.
Qed.

(** The ledger is append-only: whatever the call, the bids that were
    there stay where they are, unchanged; at most one bid is added, at
    the end, under the id that was next, and the next id moves on by the
    number of bids added. *)
Theorem ledger_append_only (c : Call) (s : State) :
  exists extra,
    bids (run c s) = bids s ++ extra /\
    nextBidId (run c s) = nextBidId s + Z.of_nat (List.length extra) /\
    (extra = [] \/ exists b, extra = [b] /\ bidId b = nextBidId s).
Proof.
  assert (Hsame : forall s', bids s' = bids s -> nextBidId s' = nextBidId s ->
            exists extra,
              bids s' = bids s ++ extra /\
              nextBidId s' = nextBidId s + Z.of_nat (List.length extra) /\
              (extra = [] \/ exists b, extra = [b] /\ bidId b = nextBidId s)).
  { intros s' Hb Hn. exists []. rewrite app_nil_r. simpl. split; [exact Hb|].
    split; [lia|left; reflexivity]. }
  destruct (sweepTime c) as [now|] eqn:Hsw.
  { rewrite (run_sweeping_any s c now Hsw).
    destruct (sweep_keeps_ledger now s) as (H1 & H2 & _). apply Hsame; assumption. }
  destruct c; simpl in Hsw; try discriminate; simpl; try (apply Hsame; reflexivity).
  - destruct (sweep_keeps_ledger now s) as (H1 & H2 & _).
    destruct (placeBid_state now now' now'' aid bidder name amt s)
      as [->|(x & _ & _ & _ & ->)]; [apply Hsame; assumption|].
    simpl. rewrite H1, H2.
    eexists. split; [reflexivity|]. simpl. split; [lia|].
    right. eexists. split; [reflexivity|]. simpl. exact H2.
  - unfold cancelAuction.
    destruct (findAuction aid s) as [x|]; [|apply Hsame; reflexivity].
    destruct (sellerId x =? seller); simpl; [|apply Hsame; reflexivity].
    destruct (statusEqb (status x) active); simpl; apply Hsame; reflexivity.
  - unfold updateAuctionStatus.
    destruct (findAuction aid s) as [x|]; apply Hsame; reflexivity.
Qed.

(** In a well-formed state no bid on an auction exceeds its price. *)
Lemma bid_below_price (s : State) (a : Auction) (b : Bid) :
  wellFormed s -> In a (auctions s) -> In b (bids s) -> auctionId b = id a ->
  (amount b <= currentPrice a)%Q.
Proof.
  intros Hw Ha Hb Hid.
  destruct (wf_ledger s Hw a Ha) as [Hp _]. rewrite Hp. unfold ledgerPrice.
  destruct (fold_left_Qmax_spec (map amount (bidsOf (id a) (bids s))) (startingPrice a))
    as (_ & Hall & _).
  apply Hall. apply in_map. apply In_bidsOf. auto.
Qed.

(** When an active auction with bids runs out, the user the page showed
    as the highest bidder is the one the next read makes the winner, and
    nobody else. *)
Theorem highest_bidder_wins (s : State) (now aid user : Z) (a : Auction) :
  ledgerCovers s ->
  findAuction aid s = Some a ->
  status a = active ->
  Js.dateLe (endsAt a) now = true ->
  bidCount a > 0 ->
  exists a',
    snd (getAuctionById now aid s) = Normal (ofValue a') /\
    status a' = sold /\
    (isHighestBidder aid user s = true <-> winnerId a' = Some user).
Proof.
  intros Hc Hf Hs Hd Hb.
  destruct (findAuction_some _ _ _ Hf) as [Hin Hid].
  exists (settle now (bids s) a).
  split.
  - unfold getAuctionById, afterSweep.
    rewrite (checkAndEndAuctions_complete now s Hc).
    unfold findAuction in *. simpl. rewrite find_map_settle, Hf. reflexivity.
  - unfold settle, isHighestBidder. rewrite Hf.
    assert (He : expired now a = true) by (apply expired_iff; auto).
    assert (Hg : (bidCount a >? 0) = true) by (apply Z.gtb_lt; lia).
    assert (Hz : (bidCount a =? 0) = false) by (apply Z.eqb_neq; lia).
    rewrite He, Hg, Hz, Hid.
    destruct (topBid aid (bids s)) as [top|] eqn:Ht.
    + simpl. split; [reflexivity|]. rewrite Z.eqb_eq. split; congruence.
    + exfalso. apply topBid_none in Ht. apply (Hc a Hin Hb). rewrite Hid. exact Ht.
Qed.

Lemma highest_bidder_wins_witness :
  exists a,
    ledgerCovers atMidnight /\
    findAuction 2 atMidnight = Some a /\
    status a = active /\
    Js.dateLe (endsAt a) 18000000 = true /\
    bidCount a > 0 /\
    isHighestBidder 2 100 atMidnight = true /\
    exists a', snd (getAuctionById 18000000 2 atMidnight) = Normal (ofValue a') /\
               winnerId a' = Some 100.
Proof.
  eexists.
  assert (Hc : ledgerCovers atMidnight)
    by (apply wellFormed_ledgerCovers, wellFormed_initial).
  assert (Hb : 3 > 0) by lia.
  split; [exact Hc|].
  split; [vm_compute; reflexivity|].
  split; [reflexivity|]. split; [reflexivity|]. split; [exact Hb|].
  assert (Hh : isHighestBidder 2 100 atMidnight = true) by (vm_compute; reflexivity).
  split; [exact Hh|].
  destruct (highest_bidder_wins atMidnight 18000000 2 100 _ Hc eq_refl eq_refl eq_refl Hb)
    as (a' & Hr & _ & Hiff).
  exists a'. split; [exact Hr|]. apply Hiff, Hh.
Defined.

(** [getUserHighestBid] is 0 for a user without a bid on the auction;
    otherwise it is the amount of one of the user's bids on it and no
    bid of the user on it is higher.  In a well-formed state it never
    exceeds the auction's current price. *)
Theorem getUserHighestBid_spec (aid user : Z) (s : State) :
  (bidsOfUser aid user (bids s) = [] -> getUserHighestBid aid user s = 0%Q) /\
  (bidsOfUser aid user (bids s) <> [] ->
     (exists b, In b (bidsOfUser aid user (bids s)) /\
                (getUserHighestBid aid user s == amount b)%Q) /\
     (forall b, In b (bidsOfUser aid user (bids s)) ->
                (amount b <= getUserHighestBid aid user s)%Q)) /\
  (wellFormed s -> forall a, findAuction aid s = Some a ->
     bidsOfUser aid user (bids s) <> [] ->
     (getUserHighestBid aid user s <= currentPrice a)%Q).
Proof.
  unfold getUserHighestBid, bidsOfUser.
  set (mine := filter (fun b => (auctionId b =? aid) && (bidderId b =? user)) (bids s)).
  assert (Hmax : mine <> [] ->
            (exists b, In b mine /\
               (match map amount mine with [] => 0 | x :: l => Js.mathMax x l end
                == amount b)%Q) /\
            (forall b, In b mine ->
               (amount b <= match map amount mine with [] => 0 | x :: l => Js.mathMax x l end)%Q)).
  { destruct mine as [|b0 l]; [tauto|]. intros _. simpl. unfold Js.mathMax.
    destruct (fold_left_Qmax_spec (map amount l) (amount b0)) as (H1 & H2 & H3).
    split.
    - destruct H3 as [H3|(x & Hx & H3)].
      + exists b0. split; [left; reflexivity|exact H3].
      + apply in_map_iff in Hx. destruct Hx as (b & <- & Hb).
        exists b. split; [right; exact Hb|exact H3].
    - intros b [<-|Hb]; [exact H1|]. apply H2, in_map, Hb. }
  split; [|split].
  - intros ->. reflexivity.
  - exact Hmax.
  - intros Hw a Hf Hne. destruct (Hmax Hne) as [(b & Hb & Heq) _].
    rewrite Heq. destruct (findAuction_some _ _ _ Hf) as [Ha Hid].
    unfold mine in Hb. apply filter_In in Hb. destruct Hb as [Hb Hc].
    apply andb_true_iff in Hc. destruct Hc as [Hc _]. apply Z.eqb_eq in Hc.
    apply (bid_below_price s a b Hw Ha Hb). congruence.
Qed.

Lemma getUserHighestBid_spec_witness :
  bidsOfUser 1 998 (bids atMidnight) <> [] /\
  wellFormed atMidnight /\
  (getUserHighestBid 1 998 atMidnight == 78)%Q /\
  bidsOfUser 1 100 (bids atMidnight) = [] /\
  getUserHighestBid 1 100 atMidnight = 0%Q /\
  exists a, findAuction 1 atMidnight = Some a /\
            (getUserHighestBid 1 998 atMidnight <= currentPrice a)%Q.
Proof.
  assert (Hne : bidsOfUser 1 998 (bids atMidnight) <> []) by (vm_compute; discriminate).
  assert (Hw : wellFormed atMidnight) by (apply wellFormed_initial).
  destruct (getUserHighestBid_spec 1 998 atMidnight) as (_ & _ & Hle).
  destruct (getUserHighestBid_spec 1 100 atMidnight) as (Hzero & _ & _).
  split; [exact Hne|]. split; [exact Hw|].
  split; [vm_compute; reflexivity|].
  split; [reflexivity|]. split; [apply Hzero; reflexivity|].
  eexists. split; [vm_compute; reflexivity|].
  apply (Hle Hw _ eq_refl Hne).
Defined.

Lemma StronglySorted_weaken {A : Type} (R R' : A -> A -> Prop) (l : list A) :
  (forall x y, In x l -> In y l -> R x y -> R' x y) ->
  StronglySorted R l -> StronglySorted R' l.
Proof.
  intros Himp Hs. induction Hs as [|a l Hs IH Hall]; constructor.
  - apply IH. intros x y Hx Hy. apply Himp; right; assumption.
  - rewrite Forall_forall in *. intros y Hy.
    apply Himp; [left; reflexivity|right; exact Hy|apply Hall, Hy].
Qed.

(** After the sweep an auction is active exactly when it was active and
    not yet due. *)
Lemma In_open_after_sweep (now : Z) (bs : list Bid) (l : list Auction) (a : Auction) :
  In a (filter (fun x => statusEqb (status x) active) (map (settle now bs) l)) <->
  In a l /\ status a = active /\ Js.dateLe (endsAt a) now = false.
Proof.
  rewrite filter_In, in_map_iff, statusEqb_eq. split.
  - intros [(a0 & Hs & Hin) Hact].
    assert (He : expired now a0 = false).
    { destruct (expired now a0) eqn:E; [|reflexivity]. exfalso.
      unfold settle in Hs. rewrite E in Hs.
      destruct (bidCount a0 >? 0); [destruct (topBid (id a0) bs)|];
        subst a; discriminate. }
    unfold settle in Hs. rewrite He in Hs. subst a0.
    split; [exact Hin|]. split; [exact Hact|].
    unfold expired in He. apply statusEqb_eq in Hact. rewrite Hact in He. exact He.
  - intros (Hin & Hact & Hd). split; [|exact Hact].
    exists a. split; [|exact Hin].
    unfold settle, expired. rewrite Hd, andb_false_r. reflexivity.
Qed.

(** The storefront list holds exactly the auctions that are active and
    not yet due at the time of the read, so it never shows an auction
    whose deadline has passed; [getActiveAuctionCount] counts the same
    auctions; and when every end date is a valid date the list runs from
    the auction that ends first to the one that ends last. *)
Theorem getActiveAuctions_lists_open (now : Z) (s : State) :
  ledgerCovers s ->
  exists l,
    snd (getActiveAuctions now s) = Normal (ofValue l) /\
    (forall a, In a l <->
       In a (auctions s) /\ status a = active /\ Js.dateLe (endsAt a) now = false) /\
    snd (getActiveAuctionCount now s) = Normal (Z.of_nat (List.length l)) /\
    ((forall a, In a (auctions s) -> endsAt a <> None) -> StronglySorted endsNoLater l).
Proof.
  intro Hc. unfold getActiveAuctions, getActiveAuctionCount, afterSweep.
  rewrite (checkAndEndAuctions_complete now s Hc). simpl.
  eexists. split; [reflexivity|].
  assert (Hin : forall a,
            In a (Js.sort (fun a b => Js.timeAsc (endsAt a) (endsAt b))
                    (filter (fun x => statusEqb (status x) active)
                       (map (settle now (bids s)) (auctions s)))) <->
            In a (auctions s) /\ status a = active /\ Js.dateLe (endsAt a) now = false).
  { intro a. rewrite JsFacts.In_sort. apply In_open_after_sweep. }
  split; [exact Hin|]. split.
  - rewrite SortFacts.sort_length. reflexivity.
  - intro Hvalid.
    apply (StronglySorted_weaken (fun a b => Js.timeAsc (endsAt a) (endsAt b) = true)).
    + intros x y _ _. unfold Js.timeAsc, endsNoLater.
      destruct (endsAt x), (endsAt y); auto. rewrite Z.leb_le. lia.
    + apply (SortFacts.sort_sorted _ (fun a => endsAt a <> None)).
      * intros x y Hx Hy. unfold Js.timeAsc.
        destruct (endsAt x) as [tx|], (endsAt y) as [ty|]; try tauto.
        rewrite !Z.leb_le. lia.
      * intros x y z Hx Hy Hz. unfold Js.timeAsc.
        destruct (endsAt x) as [tx|], (endsAt y) as [ty|], (endsAt z) as [tz|]; try tauto.
        rewrite !Z.leb_le. lia.
      * rewrite Forall_forall. intros a Ha.
        apply In_open_after_sweep in Ha. apply Hvalid. tauto.
Qed.

Lemma getActiveAuctions_lists_open_witness :
  ledgerCovers atMidnight /\
  (forall a, In a (auctions atMidnight) -> endsAt a <> None) /\
  exists l,
    snd (getActiveAuctions 18000000 atMidnight) = Normal (ofValue l) /\
    map id l = [3; 1; 4] /\
    StronglySorted endsNoLater l.
Proof.
  assert (Hc : ledgerCovers atMidnight)
    by (apply wellFormed_ledgerCovers, wellFormed_initial).
  assert (Hv : forall a, In a (auctions atMidnight) -> endsAt a <> None).
  { intros a Ha. simpl in Ha.
    repeat (destruct Ha as [<-|Ha]; [discriminate|]). destruct Ha. }
  split; [exact Hc|]. split; [exact Hv|].
  destruct (getActiveAuctions_lists_open 18000000 atMidnight Hc)
    as (l & Hr & _ & _ & Hs).
  exists l. split; [exact Hr|]. split; [|apply Hs, Hv].
  assert (Hl : snd (getActiveAuctions 18000000 atMidnight) = Normal (ofValue l)) by exact Hr.
  vm_compute in Hl. injection Hl as <-. reflexivity.
Defined.

(** "My listings" holds exactly the seller's auctions and "my bids"
    exactly the auctions on which the user has a bid in the ledger, each
    as the expiry sweep leaves it. *)
Theorem my_auctions_views (now uid : Z) (s : State) :
  ledgerCovers s ->
  (exists l,
     snd (getAuctionsBySeller now uid s) = Normal (ofValue l) /\
     forall a', In a' l <->
       exists a, In a (auctions s) /\ a' = settle now (bids s) a /\ sellerId a = uid) /\
  (exists l,
     snd (getAuctionsByBidder now uid s) = Normal (ofValue l) /\
     forall a', In a' l <->
       exists a, In a (auctions s) /\ a' = settle now (bids s) a /\
                 exists b, In b (bids s) /\ bidderId b = uid /\ auctionId b = id a).
Proof.
  intro Hc. unfold getAuctionsBySeller, getAuctionsByBidder, afterSweep.
  rewrite (checkAndEndAuctions_complete now s Hc). simpl.
  split; eexists; (split; [reflexivity|]); intro a';
    rewrite SortFacts.In_sort_filter, in_map_iff.
  - split.
    + intros [(a & <- & Hin) Hs]. exists a. repeat split; auto.
      destruct (settle_sameListing now (bids s) a) as (_ & Hsel & _).
      apply Z.eqb_eq in Hs. congruence.
    + intros (a & Hin & -> & Hs). split; [exists a; auto|].
      destruct (settle_sameListing now (bids s) a) as (_ & Hsel & _).
      apply Z.eqb_eq. congruence.
  - assert (Hmem : forall a,
              Js.includesZ
                (Js.unique Z.eqb
                   (map auctionId (filter (fun b => bidderId b =? uid) (bids s))))
                (id (settle now (bids s) a)) = true <->
              exists b, In b (bids s) /\ bidderId b = uid /\ auctionId b = id a).
    { intro a. destruct (settle_sameListing now (bids s) a) as (Hid & _). rewrite Hid.
      unfold Js.includesZ. rewrite existsb_exists. split.
      - intros (k & Hk & He). apply Z.eqb_eq in He. subst k.
        apply (proj1 (SortFacts.In_unique Z.eqb _ _ Z.eqb_eq)) in Hk.
        apply in_map_iff in Hk. destruct Hk as (b & Hb & Hin).
        apply filter_In in Hin. destruct Hin as [Hin Hu]. apply Z.eqb_eq in Hu.
        exists b. auto.
      - intros (b & Hin & Hu & Hb). exists (id a). split; [|apply Z.eqb_refl].
        apply (proj2 (SortFacts.In_unique Z.eqb _ _ Z.eqb_eq)).
        apply in_map_iff. exists b. split; [exact Hb|].
        apply filter_In. split; [exact Hin|apply Z.eqb_eq, Hu]. }
    split.
    + intros [(a & <- & Hin) Hs]. exists a. repeat split; auto. apply Hmem, Hs.
    + intros (a & Hin & -> & Hb). split; [exists a; auto|]. apply Hmem, Hb.
Qed.

Lemma my_auctions_views_witness :
  ledgerCovers atMidnight /\
  (exists l, snd (getAuctionsBySeller 0 998 atMidnight) = Normal (ofValue l) /\
             map id l = [2; 5]) /\
  (exists l, snd (getAuctionsByBidder 0 102 atMidnight) = Normal (ofValue l) /\
             map id l = [1; 3; 5]).
Proof.
  assert (Hc : ledgerCovers atMidnight)
    by (apply wellFormed_ledgerCovers, wellFormed_initial).
  split; [exact Hc|].
  destruct (my_auctions_views 0 998 atMidnight Hc) as [(l & Hr & _) _].
  destruct (my_auctions_views 0 102 atMidnight Hc) as [_ (l' & Hr' & _)].
  split.
  - exists l. split; [exact Hr|].
    assert (Hl : snd (getAuctionsBySeller 0 998 atMidnight) = Normal (ofValue l)) by exact Hr.
    vm_compute in Hl. injection Hl as <-. reflexivity.
  - exists l'. split; [exact Hr'|].
    assert (Hl : snd (getAuctionsByBidder 0 102 atMidnight) = Normal (ofValue l')) by exact Hr'.
    vm_compute in Hl. injection Hl as <-. reflexivity.
Defined.

End AuctionMore.

(** ** Auction engine in binary64: listings and the bid form *)

Module Auction64More.
Import AuctionService64 Auction64Spec Auction64Facts.

Lemma findAuction_fresh_64 (s : State) (aid : Z) :
  wellFormed s -> nextAuctionId s <= aid -> findAuction aid s = None.
Proof.
  intros Hw Hge. unfold findAuction.
  destruct (find (fun a => id a =? aid) (auctions s)) as [a|] eqn:E; [|reflexivity].
  apply find_some in E. destruct E as [Hin Hid]. apply Z.eqb_eq in Hid.
  pose proof (wf_ids s Hw a Hin). lia.
Qed.

(** A new listing can be looked up under the id it was given, which no
    listing had before; it is active, has no bids and no winner, and its
    starting price and current price are both [round2] of the price
    asked.  The listings that were there are found as before, the ledger
    is untouched, and the state keeps the ledger invariant. *)
Theorem createAuction_lookup (now : Z) (data : NewAuction) (s : State) :
  wellFormed s ->
  exists a,
    snd (createAuction now data s) = Normal (ofValue a) /\
    id a = nextAuctionId s /\
    findAuction (id a) s = None /\
    findAuction (id a) (fst (createAuction now data s)) = Some a /\
    status a = active /\ bidCount a = 0 /\ winnerId a = None /\
    currentPrice a = startingPrice a /\
    startingPrice a = Number.round2 (newStartingPrice data) /\
    sellerId a = newSellerId data /\ endsAt a = newEndsAt data /\
    (forall aid, aid <> id a ->
       findAuction aid (fst (createAuction now data s)) = findAuction aid s) /\
    bids (fst (createAuction now data s)) = bids s /\
    bidsOf (id a) (bids s) = [] /\
    wellFormed (fst (createAuction now data s)).
Proof.
  intro Hw. eexists. split; [reflexivity|]. cbn [id].
  assert (Hnone : findAuction (nextAuctionId s) s = None)
    by (apply findAuction_fresh_64; [exact Hw|lia]).
  split; [reflexivity|]. split; [exact Hnone|].
  split.
  { unfold findAuction in *. simpl. rewrite (AuctionMore.find_app_none _ _ _ Hnone).
    simpl. rewrite Z.eqb_refl. reflexivity. }
  repeat (split; [reflexivity|]).
  split.
  { intros aid Hne. unfold findAuction. simpl.
    destruct (find (fun a => id a =? aid) (auctions s)) as [x|] eqn:E.
    - apply AuctionMore.find_app_some, E.
    - rewrite (AuctionMore.find_app_none _ _ _ E). simpl.
      assert (Hf : (nextAuctionId s =? aid) = false) by (apply Z.eqb_neq; congruence).
      rewrite Hf. reflexivity. }
  split; [reflexivity|].
  split; [apply bidsOf_unallocated_64, Hw|].
  apply wellFormed_createAuction_64, Hw.
Qed.

Lemma createAuction_lookup_witness :
  wellFormed atMidnight /\
  exists a,
    snd (createAuction 0 lamp atMidnight) = Normal (ofValue a) /\
    id a = 7 /\ startingPrice a = Number.dec 1235 100 /\
    findAuction 7 (fst (createAuction 0 lamp atMidnight)) = Some a.
Proof.
  assert (Hw : wellFormed atMidnight) by (apply wellFormed_initial_64).
  split; [exact Hw|].
  destruct (createAuction_lookup 0 lamp atMidnight Hw)
    as (a & Hr & Hid & _ & Hf & _ & _ & _ & _ & Hp & _).
  exists a. split; [exact Hr|]. split; [exact Hid|].
  split; [rewrite Hp; vm_compute; reflexivity|].
  rewrite Hid in Hf. exact Hf.
Defined.

(** When the page lets a user bid on the auction as the service holds
    it after its expiry check, and the deadline has not passed when the
    service tests it, the form's call passes every check of the service
    but the one of the amount: an amount below [round2(currentPrice + 1)]
    is refused with ValidationError, an amount that is at least that is
    stored as a bid of that user at [round2(amount)], and no other
    refusal occurs.  The timer does not show the auction as ended.
    Whenever [canBid] is false the page makes no call. *)
Theorem form_bid_gates (t now now' now'' uid : Z) (name : string) (amt : Number.t)
    (s s1 : State) (a : Auction) :
  checkAndEndAuctions now s = (s1, true) ->
  findAuction (id a) s1 = Some a ->
  AuctionDetail.canBid t (Some uid) (Some a) = true ->
  Js.dateLe (endsAt a) now' = false ->
  (exists r,
     AuctionDetail.placeBid t now now' now'' (Some (uid, name)) (Some a) amt s = Some r /\
     (Number.ltb amt (minBid a) = true -> failsWith r s1 ValidationError) /\
     (Number.leb (minBid a) amt = true ->
        exists bid s2,
          r = (s2, Normal (ofValue bid)) /\
          bidderId bid = uid /\ auctionId bid = id a /\
          amount bid = Number.round2 amt /\
          bids s2 = bids s1 ++ [bid] /\
          findAuction (id a) s2 = Some (recordBid bid a)) /\
     (forall s' e, r = (s', Normal (throwError e)) -> classify e = ValidationError) /\
     snd r <> TypeError) /\
  AuctionDetail.getTimerClass t (Some a) <> "timer-ended"%string /\
  (forall user auction,
     AuctionDetail.canBid t (option_map fst user) auction = false ->
     AuctionDetail.placeBid t now now' now'' user auction amt s = None).
Proof.
  intros Hsw Hf Hcan Hd.
  pose proof Hcan as Hcan'. unfold AuctionDetail.canBid in Hcan'.
  rewrite !andb_true_iff in Hcan'. destruct Hcan' as [[Hst Hseller] Hgt].
  apply negb_true_iff in Hseller. rewrite Z.eqb_sym in Hseller.
  split; [|split].
  - unfold AuctionDetail.placeBid. rewrite Hcan. eexists. split; [reflexivity|].
    unfold placeBid, afterSweep. rewrite Hsw, Hf, Hst, Hd. cbn [negb].
    rewrite Hseller. fold (minBid a).
    split; [|split; [|split]].
    + intro Hlow. rewrite Hlow. exists (BidTooLow (minBid a)). split; reflexivity.
    + intro Hok. rewrite (NumberFacts.leb_not_ltb _ _ Hok).
      eexists. eexists. split; [reflexivity|]. simpl.
      repeat split; try reflexivity.
      unfold findAuction in *. simpl.
      apply JsFacts.find_updateFirst; [reflexivity|exact Hf].
    + intros s' e. destruct (Number.ltb amt (minBid a)); intro H.
      * injection H as _ <-. reflexivity.
      * discriminate.
    + destruct (Number.ltb amt (minBid a)); discriminate.
  - unfold AuctionDetail.getTimerClass, AuctionDetail.dateGt in *.
    destruct (endsAt a) as [e|]; [|discriminate].
    apply Z.gtb_lt in Hgt.
    assert (Hz : (e - t <=? 0) = false) by (apply Z.leb_gt; lia).
    rewrite Hz.
    destruct (e - t <? 15 * 60 * 1000); [discriminate|].
    destruct (e - t <? 60 * 60 * 1000); discriminate.
  - intros user auction Hno. unfold AuctionDetail.placeBid.
    destruct auction as [x|]; [|reflexivity].
    destruct user as [[u n]|]; [|reflexivity].
    cbn [option_map fst] in Hno. rewrite Hno. reflexivity.
Qed.

Lemma form_bid_gates_witness :
  exists a,
    checkAndEndAuctions 0 atMidnight = (sweptAtMidnight, true) /\
    findAuction 1 sweptAtMidnight = Some a /\
    id a = 1 /\
    AuctionDetail.canBid 0 (Some 101) (Some a) = true /\
    Js.dateLe (endsAt a) 0 = false /\
    minBid a = Number.ofZ 79 /\
    AuctionDetail.minimumBid (Some a) = Number.ofZ 79 /\
    (exists bid s2,
       AuctionDetail.placeBid 0 0 0 0 (Some (101, "Mark J."%string)) (Some a)
         (Number.ofZ 79) atMidnight = Some (s2, Normal (ofValue bid)) /\
       amount bid = Number.ofZ 79) /\
    AuctionDetail.placeBid 0 0 0 0 (Some (100, "Jane S."%string)) (Some a)
      (Number.ofZ 79) atMidnight = None.
Proof.
  assert (Hsw : checkAndEndAuctions 0 atMidnight = (sweptAtMidnight, true))
    by (vm_compute; reflexivity).
  destruct (findAuction 1 sweptAtMidnight) as [a|] eqn:Hf;
    [|vm_compute in Hf; discriminate].
  pose proof Hf as Hf'. vm_compute in Hf'. injection Hf' as Ha. subst a.
  eexists.
  split; [exact Hsw|].
  split; [reflexivity|].
  split; [reflexivity|]. split; [reflexivity|]. split; [reflexivity|].
  split; [vm_compute; reflexivity|]. split; [vm_compute; reflexivity|].
  match type of Hf with
  | _ = Some ?x =>
      destruct (form_bid_gates 0 0 0 0 101 "Mark J." (Number.ofZ 79) atMidnight
                  sweptAtMidnight x Hsw Hf)
        as ((r & Hr & _ & Hacc & _) & _ & Hnone);
        [reflexivity|reflexivity|]
  end.
  split.
  - destruct Hacc as (bid & s2 & -> & _ & _ & Hamt & _); [vm_compute; reflexivity|].
    exists bid, s2. split; [exact Hr|]. rewrite Hamt. vm_compute. reflexivity.
  - apply (Hnone (Some (100, "Jane S."%string))). reflexivity.
Defined.

End Auction64More.

(** ** Storefront orders: views, status updates and revenue *)

Module OrderMore.
Import OrderService OrderSpec StoreSpec.
Local Open Scope Q_scope.

Lemma byNewest_total (x y : Order) :
  created_at x <> None -> created_at y <> None ->
  byNewest x y = true \/ byNewest y x = true.
Proof.
  unfold byNewest, Js.timeDesc, Js.timeAsc.
  destruct (created_at x), (created_at y); try tauto.
  intros _ _. rewrite !Z.leb_le. lia.
Qed.

Lemma byNewest_trans (x y z : Order) :
  created_at x <> None -> created_at y <> None -> created_at z <> None ->
  byNewest x y = true -> byNewest y z = true -> byNewest x z = true.
Proof.
  unfold byNewest, Js.timeDesc, Js.timeAsc.
  destruct (created_at x), (created_at y), (created_at z); try tauto.
  intros _ _ _. rewrite !Z.leb_le. lia.
Qed.

Lemma byNewest_noOlder (x y : Order) : byNewest x y = true -> noOlder x y.
Proof.
  unfold byNewest, Js.timeDesc, Js.timeAsc, noOlder.
  destruct (created_at x), (created_at y); auto. rewrite Z.leb_le. lia.
Qed.

Lemma sorted_newest (l : list Order) :
  (forall o, In o l -> created_at o <> None) ->
  StronglySorted noOlder (Js.sort byNewest l).
Proof.
  intro Hv.
  apply (AuctionMore.StronglySorted_weaken (fun a b => byNewest a b = true)).
  - intros x y _ _. apply byNewest_noOlder.
  - apply (SortFacts.sort_sorted _ (fun o => created_at o <> None)).
    + apply byNewest_total.
    + apply byNewest_trans.
    + rewrite Forall_forall. exact Hv.
Qed.

(** When every order carries a valid date: the administrator's list is
    a rearrangement of all orders, a user's history holds exactly that
    user's orders, and both run from the newest order to the oldest;
    [getRecentOrders(n)] returns [n] orders, or all of them when there
    are fewer, and none of the orders it leaves out is newer than one it
    returns. *)
Theorem order_views (s : State) (uid : Z) (n : nat) :
  (forall o, In o (orders s) -> created_at o <> None) ->
  (exists l, getAllOrders s = ofValue l /\
     Permutation l (orders s) /\ StronglySorted noOlder l) /\
  (exists l, getOrdersByUserId uid s = ofValue l /\
     (forall o, In o l <-> In o (orders s) /\ user_id o = uid) /\
     StronglySorted noOlder l) /\
  (exists l rest, getRecentOrders n s = ofValue l /\
     Permutation (l ++ rest) (orders s) /\
     List.length l = Nat.min n (List.length (orders s)) /\
     forall o o', In o l -> In o' rest -> noOlder o o').
Proof.
  intro Hv. split; [|split].
  - eexists. split; [reflexivity|]. split; [apply SortFacts.sort_perm|].
    apply sorted_newest, Hv.
  - eexists. split; [reflexivity|]. split.
    + intro o. rewrite SortFacts.In_sort_filter, Z.eqb_eq. tauto.
    + apply sorted_newest. intros o Ho. apply filter_In in Ho. apply Hv. tauto.
  - unfold getRecentOrders.
    exists (firstn n (Js.sort byNewest (orders s))),
           (skipn n (Js.sort byNewest (orders s))).
    split; [reflexivity|]. split; [|split].
    + rewrite firstn_skipn. apply SortFacts.sort_perm.
    + rewrite length_firstn, SortFacts.sort_length. reflexivity.
    + apply SortFacts.sorted_firstn. apply sorted_newest, Hv.
Qed.

Lemma order_views_witness :
  (forall o, In o (orders initialState) -> created_at o <> None) /\
  (exists l, getOrdersByUserId 998 initialState = ofValue l /\ map id l = [5; 1]%Z) /\
  (exists l rest, getRecentOrders 3 initialState = ofValue l /\
     map id l = [5; 4; 3]%Z /\ map id rest = [2; 1]%Z /\
     forall o o', In o l -> In o' rest -> noOlder o o').
Proof.
  assert (Hv : forall o, In o (orders initialState) -> created_at o <> None).
  { intros o Ho. simpl in Ho.
    repeat (destruct Ho as [<-|Ho]; [discriminate|]). destruct Ho. }
  split; [exact Hv|].
  destruct (order_views initialState 998 3 Hv) as (_ & (l & Hr & _) & (l' & rest & Hr' & Hp & _ & Hn)).
  split.
  - exists l. split; [exact Hr|].
    assert (Hl : getOrdersByUserId 998 initialState = ofValue l) by exact Hr.
    vm_compute in Hl. injection Hl as <-. reflexivity.
  - exists (firstn 3 (Js.sort byNewest (orders initialState))),
           (skipn 3 (Js.sort byNewest (orders initialState))).
    split; [reflexivity|]. split; [vm_compute; reflexivity|].
    split; [vm_compute; reflexivity|].
    destruct (order_views initialState 998 3 Hv) as (_ & _ & _).
    apply SortFacts.sorted_firstn, sorted_newest, Hv.
Defined.

Section SetAt.
Context {A : Type}.

(** Replacing the element [findIndex] points at by one that passes the
    same test makes [find] answer with the new element. *)
Lemma find_setAt_found (p : A -> bool) (l : list A) (i : nat) (y : A) :
  Js.findIndex p l = Some i -> p y = true -> find p (Js.setAt i y l) = Some y.
Proof.
  revert i. induction l as [|x l IH]; intros i H Hy; simpl in H; [discriminate|].
  destruct (p x) eqn:E.
  - injection H as <-. simpl. rewrite Hy. reflexivity.
  - destruct (Js.findIndex p l) as [j|]; [|discriminate].
    injection H as <-. simpl. rewrite E. apply IH; auto.
Qed.

Lemma find_setAt_other (q : A -> bool) (l : list A) (i : nat) (x y : A) :
  nth_error l i = Some x -> q x = false -> q y = false ->
  find q (Js.setAt i y l) = find q l.
Proof.
  revert i. induction l as [|z l IH]; intros [|i] H Hx Hy; simpl in *; try discriminate.
  - injection H as ->. rewrite Hx, Hy. reflexivity.
  - destruct (q z); [reflexivity|]. apply (IH i); auto.
Qed.
End SetAt.

(** What an order adds to the revenue. *)
Lemma revenue_setAt (l : list Order) (i : nat) (x y : Order) :
  nth_error l i = Some x ->
  sumQ (map total (nonCancelled (Js.setAt i y l)))
  == sumQ (map total (nonCancelled l))
     - (if statusEqb (status x) cancelled then 0 else total x)
     + (if statusEqb (status y) cancelled then 0 else total y).
Proof.
  revert i. induction l as [|z l IH]; intros [|i] H; simpl in *; try discriminate.
  - injection H as ->. unfold nonCancelled. simpl.
    destruct (statusEqb (status x) cancelled), (statusEqb (status y) cancelled);
      simpl; lra.
  - specialize (IH i H). unfold nonCancelled in *. simpl.
    destruct (statusEqb (status z) cancelled); simpl; lra.
Qed.

(** After a status update the order is looked up with its new status,
    the other orders are looked up as before and the number of orders is
    the same.  Cancelling an order that was not cancelled takes its total
    out of the revenue; a change between two other statuses leaves the
    revenue as it was. *)
Theorem updateOrderStatus_effects (oid : Z) (st : OrderStatus) (s : State) (o : Order) :
  find (fun x => id x =? oid) (orders s) = Some o ->
  getOrderById oid (fst (updateOrderStatus oid st s)) = ofValue (withStatus st o) /\
  (forall other, other <> oid ->
     getOrderById other (fst (updateOrderStatus oid st s)) = getOrderById other s) /\
  getOrderCount (fst (updateOrderStatus oid st s)) = getOrderCount s /\
  (status o <> cancelled -> st = cancelled ->
     getTotalRevenue (fst (updateOrderStatus oid st s))
     == Num.round2 (sumQ (map total (nonCancelled (orders s))) - total o)) /\
  (status o <> cancelled -> st <> cancelled ->
     getTotalRevenue (fst (updateOrderStatus oid st s)) == getTotalRevenue s).
Proof.
  intro Hf. unfold updateOrderStatus.
  pose proof (JsFacts.findIndex_find (fun x => id x =? oid) (orders s)) as Hfi.
  destruct (Js.findIndex (fun x => id x =? oid) (orders s)) as [index|] eqn:Ei;
    [|congruence].
  destruct Hfi as (x & Hn & Hf'). rewrite Hf in Hf'. injection Hf' as <-.
  rewrite Hn. simpl.
  destruct (find_some _ _ Hf) as [_ Hid].
  assert (Hrev : forall st',
            getTotalRevenue (mkState (Js.setAt index (withStatus st' o) (orders s))
                               (nextId s) (nextOrderNum s))
            == Num.round2 (sumQ (map total (nonCancelled (orders s)))
                           - (if statusEqb (status o) cancelled then 0 else total o)
                           + (if statusEqb st' cancelled then 0 else total o))).
  { intro st'. unfold getTotalRevenue. simpl. apply NumFacts.round2_proper.
    fold (nonCancelled (Js.setAt index (withStatus st' o) (orders s))).
    rewrite (SumFacts.fold_left_sumQ total), (revenue_setAt _ _ o _ Hn). simpl. lra. }
  assert (Hnc : status o <> cancelled -> statusEqb (status o) cancelled = false)
    by (destruct (status o); simpl; congruence).
  split; [|split; [|split; [|split]]].
  - unfold getOrderById. simpl.
    rewrite (find_setAt_found _ _ _ _ Ei); [reflexivity|exact Hid].
  - intros other Hne. unfold getOrderById. simpl.
    rewrite (find_setAt_other _ _ _ o _ Hn); [reflexivity| |];
      simpl; apply Z.eqb_neq; apply Z.eqb_eq in Hid; congruence.
  - unfold getOrderCount. simpl. rewrite JsFacts.setAt_length. reflexivity.
  - intros Ho ->. rewrite Hrev, (Hnc Ho). simpl.
    apply NumFacts.round2_proper. lra.
  - intros Ho Hst. rewrite Hrev, (Hnc Ho).
    assert (Hs : statusEqb st cancelled = false) by (destruct st; simpl; congruence).
    rewrite Hs. unfold getTotalRevenue. apply NumFacts.round2_proper.
    fold (nonCancelled (orders s)).
    rewrite (SumFacts.fold_left_sumQ total). lra.
Qed.

Lemma updateOrderStatus_effects_witness :
  exists o,
    find (fun x => id x =? 1)%Z (orders initialState) = Some o /\
    status o <> cancelled /\
    getOrderById 1 (fst (updateOrderStatus 1 cancelled initialState))
      = ofValue (withStatus cancelled o) /\
    getTotalRevenue initialState == 755.97 /\
    getTotalRevenue (fst (updateOrderStatus 1 cancelled initialState)) == 599.46.
Proof.
  eexists. split; [vm_compute; reflexivity|].
  assert (Hne : pending <> cancelled) by discriminate.
  split; [exact Hne|].
  destruct (updateOrderStatus_effects 1 cancelled initialState _ eq_refl)
    as (Hl & _ & _ & Hrev & _).
  split; [exact Hl|]. split; [vm_compute; reflexivity|].
  rewrite (Hrev Hne eq_refl). vm_compute. reflexivity.
Defined.

Lemma includes_empty (hay : string) : Js.includes EmptyString hay = true.
Proof. destruct hay; reflexivity. Qed.

Lemma filter_all {A : Type} (p : A -> bool) (l : list A) :
  (forall x, p x = true) -> filter p l = l.
Proof.
  intro H. induction l as [|x l IH]; simpl; [reflexivity|].
  rewrite H, IH. reflexivity.
Qed.

(** A search never invents a record: what [searchOrders] returns are
    orders of the store and what [searchAuctions] returns are auctions of
    the swept state.  With an empty search term every record matches:
    [searchOrders] answers like [getAllOrders] and [searchAuctions] with
    all auctions, in the order of the store. *)
Theorem search_results (term : string) (s : State) (now : Z) (a : AuctionService.State) :
  (forall l o, searchOrders term s = ofValue l -> In o l -> In o (orders s)) /\
  searchOrders EmptyString s = getAllOrders s /\
  (forall l x, snd (AuctionService.searchAuctions now term a) = Normal (ofValue l) ->
     In x l ->
     In x (AuctionService.auctions (fst (AuctionService.checkAndEndAuctions now a)))) /\
  (AuctionSpec.ledgerCovers a ->
     snd (AuctionService.searchAuctions now EmptyString a)
     = Normal (ofValue (map (AuctionSpec.settle now (AuctionService.bids a))
                          (AuctionService.auctions a)))).
Proof.
  split; [|split; [|split]].
  - intros l o H Hin. unfold searchOrders in H. injection H as <-.
    apply SortFacts.In_sort_filter in Hin. tauto.
  - unfold searchOrders, getAllOrders. simpl.
    rewrite filter_all; [reflexivity|]. intro o. rewrite includes_empty. reflexivity.
  - intros l x. unfold AuctionService.searchAuctions, AuctionService.afterSweep.
    destruct (AuctionService.checkAndEndAuctions now a) as [s1 ok].
    destruct ok; simpl; [|discriminate].
    intro H. injection H as <-. intro Hin. apply filter_In in Hin. tauto.
  - intro Hc. unfold AuctionService.searchAuctions, AuctionService.afterSweep.
    rewrite (AuctionFacts.checkAndEndAuctions_complete now a Hc). simpl.
    rewrite filter_all; [reflexivity|]. intro x. rewrite includes_empty. reflexivity.
Qed.

Lemma search_results_witness :
  AuctionSpec.ledgerCovers AuctionSpec.atMidnight /\
  (exists l, snd (AuctionService.searchAuctions 0 "" AuctionSpec.atMidnight)
             = Normal (ofValue l) /\ List.length l = 6%nat) /\
  (exists l, searchOrders "SMITH" initialState = ofValue l /\ map id l = [2]%Z /\
             forall o, In o l -> In o (orders initialState)).
Proof.
  assert (Hc : AuctionSpec.ledgerCovers AuctionSpec.atMidnight)
    by (apply AuctionFacts.wellFormed_ledgerCovers, AuctionFacts.wellFormed_initial).
  split; [exact Hc|].
  destruct (search_results "SMITH" initialState 0 AuctionSpec.atMidnight)
    as (Hsub & _ & _ & Hall).
  split.
  - eexists. split; [apply Hall, Hc|]. rewrite length_map. reflexivity.
  - eexists. split; [reflexivity|]. split; [vm_compute; reflexivity|].
    intros o. apply Hsub. reflexivity.
Defined.

End OrderMore.

(** ** Backend order routes: reading orders back *)

Module BackendMore.
Import Pg OrderSpec StoreSpec.

Lemma ownedBy_iff (uid : Z) (o : OrderRow) :
  OrdersRoute.ownedBy uid o = true <-> orderUserId o = Some uid.
Proof.
  unfold OrdersRoute.ownedBy. destruct (orderUserId o) as [u|].
  - rewrite Z.eqb_eq. split; congruence.
  - split; discriminate.
Qed.

Lemma role_eqb (u : OrdersRoute.ReqUser) :
  (OrdersRoute.reqRole u = "admin"%string -> String.eqb (OrdersRoute.reqRole u) "admin" = true) /\
  (OrdersRoute.reqRole u <> "admin"%string -> String.eqb (OrdersRoute.reqRole u) "admin" = false).
Proof.
  split; intro H.
  - apply String.eqb_eq, H.
  - apply String.eqb_neq, H.
Qed.

(** [GET /api/orders/:id] answers 500 for an id that is no integer the
    id column can hold; for any other id it answers 404 when no order
    has the id and 403 when the caller is neither an administrator nor
    the order's owner.  An administrator or the owner gets the order,
    and with it exactly the order item rows that belong to it, in
    whatever order the query returns them, each with the product row of
    its product id when the catalog still has one. *)
Theorem getOrder_access (rowOrder : list OrdersRoute.ItemDetail -> list OrdersRoute.ItemDetail)
    (user : OrdersRoute.ReqUser) (id : OrdersRoute.RouteId) (db : Db) :
  (forall l, Permutation (rowOrder l) l) ->
  (OrdersRoute.boundId id = None ->
     OrdersRoute.getOrderRoute rowOrder user id db
       = OrdersRoute.DetailError 500 "Server error.") /\
  (forall oid, OrdersRoute.boundId id = Some oid ->
     ((forall o, In o (orders (tables db)) -> orderId o <> oid) ->
        OrdersRoute.getOrderRoute rowOrder user id db
          = OrdersRoute.DetailError 404 "Order not found.") /\
     (forall o, find (fun x => orderId x =? oid) (orders (tables db)) = Some o ->
        (OrdersRoute.reqRole user <> "admin"%string ->
         orderUserId o <> Some (OrdersRoute.reqId user) ->
           OrdersRoute.getOrderRoute rowOrder user id db
             = OrdersRoute.DetailError 403 "Access denied.") /\
        (OrdersRoute.reqRole user = "admin"%string \/
         orderUserId o = Some (OrdersRoute.reqId user) ->
           exists its,
             OrdersRoute.getOrderRoute rowOrder user id db
               = OrdersRoute.DetailJson o (OrdersRoute.customerOf o (tables db)) its /\
             Permutation (map OrdersRoute.detailItem its)
               (filter (fun oi => order_id oi =? oid) (order_items (tables db))) /\
             forall d, In d its ->
               order_id (OrdersRoute.detailItem d) = oid /\
               match OrdersRoute.detailProduct d with
               | Some p => In p (products (tables db)) /\
                           productId p = product_id (OrdersRoute.detailItem d)
               | None => forall p, In p (products (tables db)) ->
                                   productId p <> product_id (OrdersRoute.detailItem d)
               end))).
Proof.
  intro Hperm. unfold OrdersRoute.getOrderRoute. split.
  - intros ->. reflexivity.
  - intros oid ->. split.
    + intro Habs.
      destruct (BackendFacts.map_status_absent "" oid _ Habs) as [_ ->]. reflexivity.
    + intros o Hf. rewrite <- BackendFacts.find_filter_hd in Hf.
      destruct (filter (fun x => orderId x =? oid) (orders (tables db))) as [|o' rest];
        [discriminate|].
      injection Hf as ->. destruct (role_eqb user) as [Hadm Hnot]. split.
      * intros Hr Ho. rewrite (Hnot Hr). simpl. unfold OrdersRoute.notOwner.
        destruct (OrdersRoute.ownedBy (OrdersRoute.reqId user) o) eqn:E; [|reflexivity].
        apply ownedBy_iff in E. contradiction.
      * intro Hok.
        assert (Hpass : negb (String.eqb (OrdersRoute.reqRole user) "admin")
                        && OrdersRoute.notOwner user o = false).
        { destruct Hok as [Hr|Ho].
          - rewrite (Hadm Hr). reflexivity.
          - unfold OrdersRoute.notOwner.
            apply ownedBy_iff in Ho. rewrite Ho. apply andb_false_r. }
        rewrite Hpass. eexists. split; [reflexivity|]. split.
        -- etransitivity; [apply Permutation_map, Hperm|].
           rewrite map_map. simpl. rewrite map_id. reflexivity.
        -- intros d Hd. apply (Permutation_in _ (Hperm _)) in Hd.
           apply in_map_iff in Hd. destruct Hd as (oi & <- & Hoi). simpl.
           apply filter_In in Hoi. destruct Hoi as [_ Hoi]. apply Z.eqb_eq in Hoi.
           split; [exact Hoi|].
           destruct (find (fun p => productId p =? product_id oi) (products (tables db)))
             as [p|] eqn:Ep.
           ++ apply find_some in Ep. rewrite Z.eqb_eq in Ep. exact Ep.
           ++ intros p Hp Heq. apply (find_none _ _ Ep) in Hp.
              apply Z.eqb_neq in Hp. contradiction.
Qed.

Lemma getOrder_access_witness :
  (forall l : list OrdersRoute.ItemDetail, Permutation (rev l) l) /\
  OrdersRoute.boundId (OrdersRoute.IdInteger 1) = Some 1 /\
  OrdersRoute.boundId (OrdersRoute.IdInteger 5) = Some 5 /\
  OrdersRoute.boundId (OrdersRoute.IdInteger 2147483648) = None /\
  exists o,
    find (fun x => orderId x =? 1) (orders (tables dbWithOneOrder)) = Some o /\
    orderUserId o = Some (OrdersRoute.reqId shopper) /\
    (exists its, OrdersRoute.getOrderRoute (@rev _) shopper (OrdersRoute.IdInteger 1)
                   dbWithOneOrder
                 = OrdersRoute.DetailJson o
                     (OrdersRoute.customerOf o (tables dbWithOneOrder)) its /\
                 List.length its = 1%nat) /\
    OrdersRoute.reqRole (OrdersRoute.mkReqUser 7 "user") <> "admin"%string /\
    orderUserId o <> Some 7 /\
    OrdersRoute.getOrderRoute (@rev _) (OrdersRoute.mkReqUser 7 "user")
      (OrdersRoute.IdInteger 1) dbWithOneOrder
      = OrdersRoute.DetailError 403 "Access denied." /\
    OrdersRoute.getOrderRoute (@rev _) shopper (OrdersRoute.IdInteger 5) dbWithOneOrder
      = OrdersRoute.DetailError 404 "Order not found." /\
    OrdersRoute.getOrderRoute (@rev _) shopper (OrdersRoute.IdInteger 2147483648)
      dbWithOneOrder
      = OrdersRoute.DetailError 500 "Server error.".
Proof.
  assert (Hperm : forall l : list OrdersRoute.ItemDetail, Permutation (rev l) l)
    by (intro l; symmetry; apply Permutation_rev).
  split; [exact Hperm|].
  split; [reflexivity|]. split; [reflexivity|]. split; [reflexivity|].
  eexists. split; [vm_compute; reflexivity|].
  assert (Hown : Some 2 = Some (OrdersRoute.reqId shopper)) by reflexivity.
  assert (Hrole : OrdersRoute.reqRole (OrdersRoute.mkReqUser 7 "user") <> "admin"%string)
    by discriminate.
  assert (Hother : Some 2 <> Some 7) by discriminate.
  destruct (getOrder_access (@rev _) shopper (OrdersRoute.IdInteger 1) dbWithOneOrder Hperm)
    as [_ H1].
  destruct (getOrder_access (@rev _) (OrdersRoute.mkReqUser 7 "user")
              (OrdersRoute.IdInteger 1) dbWithOneOrder Hperm) as [_ H2].
  destruct (getOrder_access (@rev _) shopper (OrdersRoute.IdInteger 5) dbWithOneOrder Hperm)
    as [_ H3].
  destruct (getOrder_access (@rev _) shopper (OrdersRoute.IdInteger 2147483648)
              dbWithOneOrder Hperm) as [H4 _].
  split; [exact Hown|]. split.
  - destruct (H1 1 eq_refl) as [_ Hfound].
    destruct (Hfound _ eq_refl) as [_ Hok].
    destruct (Hok (or_intror Hown)) as (its & Hr & Hm & _).
    exists its. split; [exact Hr|].
    rewrite <- (length_map OrdersRoute.detailItem), (Permutation_length Hm). reflexivity.
  - split; [exact Hrole|]. split; [exact Hother|]. split; [|split].
    + destruct (H2 1 eq_refl) as [_ Hfound].
      destruct (Hfound _ eq_refl) as [Hdeny _]. apply Hdeny; assumption.
    + destruct (H3 5 eq_refl) as [Habs _].
      apply Habs. intros o Ho. simpl in Ho. destruct Ho as [<-|[]]. discriminate.
    + apply H4. reflexivity.
Defined.

Lemma newestFirst_sorted (l : list OrderRow) :
  StronglySorted (fun a b => created_at b <= created_at a)
    (Js.sort OrdersRoute.newestFirst l).
Proof.
  apply (AuctionMore.StronglySorted_weaken (fun a b => OrdersRoute.newestFirst a b = true)).
  - intros x y _ _. unfold OrdersRoute.newestFirst. rewrite Z.leb_le. auto.
  - apply (SortFacts.sort_sorted _ (fun _ => True)).
    + intros x y _ _. unfold OrdersRoute.newestFirst. rewrite !Z.leb_le. lia.
    + intros x y z _ _ _. unfold OrdersRoute.newestFirst. rewrite !Z.leb_le. lia.
    + rewrite Forall_forall. auto.
Qed.

(** [GET /api/orders] shows an administrator every order, each once,
    and anybody else exactly the orders whose [user_id] is the caller's
    id, never another user's; either list runs from the newest order to
    the oldest. *)
Theorem listOrders_scope (user : OrdersRoute.ReqUser) (db : Db) :
  (OrdersRoute.reqRole user = "admin"%string ->
     Permutation (map OrdersRoute.listedOrder (OrdersRoute.listOrders user db))
       (orders (tables db))) /\
  (OrdersRoute.reqRole user <> "admin"%string ->
     forall o, In o (map OrdersRoute.listedOrder (OrdersRoute.listOrders user db)) <->
               In o (orders (tables db)) /\ orderUserId o = Some (OrdersRoute.reqId user)) /\
  StronglySorted (fun a b => created_at b <= created_at a)
    (map OrdersRoute.listedOrder (OrdersRoute.listOrders user db)).
Proof.
  unfold OrdersRoute.listOrders. destruct (role_eqb user) as [Hadm Hnot].
  assert (Hw : forall l, map OrdersRoute.listedOrder
                 (map (fun o => OrdersRoute.WithCustomer o
                                  (OrdersRoute.customerOf o (tables db))) l) = l).
  { intro l. rewrite map_map. simpl. apply map_id. }
  assert (Hp : forall l, map OrdersRoute.listedOrder (map OrdersRoute.Plain l) = l).
  { intro l. rewrite map_map. simpl. apply map_id. }
  split; [|split].
  - intro Hr. rewrite (Hadm Hr), Hw. apply SortFacts.sort_perm.
  - intros Hr o. rewrite (Hnot Hr), Hp, SortFacts.In_sort_filter, ownedBy_iff. tauto.
  - destruct (String.eqb (OrdersRoute.reqRole user) "admin");
      rewrite ?Hw, ?Hp; apply newestFirst_sorted.
Qed.

Lemma listOrders_scope_witness :
  OrdersRoute.reqRole adminUser = "admin"%string /\
  OrdersRoute.reqRole shopper <> "admin"%string /\
  List.length (OrdersRoute.listOrders adminUser dbWithOneOrder) = 1%nat /\
  (forall o, In o (map OrdersRoute.listedOrder
                     (OrdersRoute.listOrders (OrdersRoute.mkReqUser 7 "user") dbWithOneOrder)) ->
             orderUserId o = Some 7) /\
  OrdersRoute.listOrders (OrdersRoute.mkReqUser 7 "user") dbWithOneOrder = [].
Proof.
  assert (Ha : OrdersRoute.reqRole adminUser = "admin"%string) by reflexivity.
  assert (Hs : OrdersRoute.reqRole shopper <> "admin"%string) by discriminate.
  assert (H7 : OrdersRoute.reqRole (OrdersRoute.mkReqUser 7 "user") <> "admin"%string)
    by discriminate.
  destruct (listOrders_scope adminUser dbWithOneOrder) as (Hall & _ & _).
  destruct (listOrders_scope (OrdersRoute.mkReqUser 7 "user") dbWithOneOrder)
    as (_ & Hown & _).
  split; [exact Ha|]. split; [exact Hs|]. split.
  - rewrite <- (length_map OrdersRoute.listedOrder).
    rewrite (Permutation_length (Hall Ha)). reflexivity.
  - split; [|reflexivity]. intros o Ho. apply (Hown H7) in Ho. tauto.
Defined.




Lemma hasProduct_lowered (n : Z -> Z) (pid : Z) (ps ps' : list ProductRow) :
  Forall2 (fun p p' => stockLowered (n (productId p)) p p') ps ps' ->
  existsb (fun p => productId p =? pid) ps' = existsb (fun p => productId p =? pid) ps.
Proof.
  induction 1 as [|p p' l l' HR HF IH]; simpl; [reflexivity|].
  destruct HR as (-> & _). rewrite IH. reflexivity.
Qed.

Lemma insertItems_orders_seq (oid : Z) (its : list OrdersRoute.Item) (db : Db) :
  orders_id_seq (fst (OrdersRoute.insertItems oid its db)) = orders_id_seq db.
Proof.
  revert db. induction its as [|i its IH]; intro db; simpl; [reflexivity|].
  unfold bind, insertOrderItem, updateStock.
  destruct (int4 (OrdersRoute.quantity i)) as [q|]; [|reflexivity].
  destruct (decimal_10_2 (OrdersRoute.price i)); [|reflexivity].
  destruct (hasProduct (OrdersRoute.productId i) (tables db)); [|reflexivity].
  cbn [tables setTables nextItemId products users orders order_items].
  destruct (decreaseStock (OrdersRoute.quantity i) (OrdersRoute.productId i)
              (products (tables db))); [|reflexivity].
  rewrite IH. reflexivity.
Qed.

(** Every item of a loop that ran to its end names a product of the
    catalog. *)
Lemma insertItems_products (oid : Z) (its : list OrdersRoute.Item) (db db' : Db) :
  OrdersRoute.insertItems oid its db = (db', Some tt) ->
  forall i, In i its -> hasProduct (OrdersRoute.productId i) (tables db') = true.
Proof.
  revert db. induction its as [|i its IH]; intros db H j Hj; [destruct Hj|].
  pose proof (BackendFacts.insertItems_ok _ _ _ _ H) as (_ & _ & Hall & _).
  destruct Hj as [<-|Hj].
  - simpl in H. unfold bind, insertOrderItem in H.
    destruct (int4 (OrdersRoute.quantity i)); [|discriminate].
    destruct (decimal_10_2 (OrdersRoute.price i)); [|discriminate].
    destruct (hasProduct (OrdersRoute.productId i) (tables db)) eqn:Ep; [|discriminate].
    unfold hasProduct in *.
    rewrite (hasProduct_lowered
               (fun pid => orderedQty pid (requestQuantities (i :: its))) _ _ _ Hall).
    exact Ep.
  - simpl in H. unfold bind in H.
    destruct (insertOrderItem oid (OrdersRoute.productId i) (OrdersRoute.quantity i)
                (OrdersRoute.price i) db) as [db1 [[]|]]; [|discriminate].
    destruct (updateStock (OrdersRoute.quantity i) (OrdersRoute.productId i) db1)
      as [db2 [[]|]]; [|discriminate].
    apply (IH db2 H j Hj).
Qed.

(** The id and the sequence behind a 201 response. *)
Lemma createOrder_sequences (now user : Z) (body : OrdersRoute.CreateBody)
    (db db' : Db) (code : Z) (row : OrderRow) :
  OrdersRoute.createOrder now user body db = (db', OrdersRoute.Json code row) ->
  orderId row = orders_id_seq db /\
  orders_id_seq db' = orders_id_seq db + 1 /\
  forall its, OrdersRoute.items body = Some its ->
    forall i, In i its -> hasProduct (OrdersRoute.productId i) (tables db') = true.
Proof.
  unfold OrdersRoute.createOrder.
  destruct (OrdersRoute.items body) as [[|i its]|] eqn:Hitems; try discriminate.
  destruct (OrdersRoute.shippingAddress body) as [addr|]; [|discriminate].
  destruct (String.eqb addr EmptyString); [discriminate|].
  destruct (OrdersRoute.createOrderTx now user (i :: its) addr db) as [db1 [order|]] eqn:Htx;
    [|discriminate].
  intro H. injection H as <- _ <-.
  unfold OrdersRoute.createOrderTx, bind, begin in Htx. cbv beta iota in Htx.
  set (db0 := mkDb (tables db) (orders_id_seq db) (order_items_id_seq db)
                (Some (tables db))) in Htx.
  destruct (insertOrder now user (OrdersRoute.itemsTotal (i :: its)) addr db0)
    as [db2 [order'|]] eqn:Hins; [|discriminate].
  pose proof (insertItems_orders_seq (orderId order') (i :: its) db2) as Hseq.
  destruct (OrdersRoute.insertItems (orderId order') (i :: its) db2)
    as [db3 [[]|]] eqn:Hloop; [|discriminate].
  unfold commit, ret in Htx. injection Htx as <- <-.
  pose proof (insertItems_products _ _ _ _ Hloop) as Hprod.
  simpl in Hseq. cbn [orders_id_seq tables].
  unfold insertOrder in Hins.
  destruct (decimal_10_2 (OrdersRoute.itemsTotal (i :: its))); [|discriminate].
  destruct (hasUser user (tables db0)); [|discriminate].
  injection Hins as <- <-. simpl in *.
  split; [reflexivity|]. split; [exact Hseq|].
  intros its' Hi. injection Hi as <-. exact Hprod.
Qed.

Lemma filter_none {A : Type} (p : A -> bool) (l : list A) :
  (forall x, In x l -> p x = false) -> filter p l = [].
Proof.
  induction l as [|x l IH]; intro H; simpl; [reflexivity|].
  rewrite (H x (or_introl eq_refl)). apply IH. intros y Hy. apply H. right. exact Hy.
Qed.

Lemma filter_every {A : Type} (p : A -> bool) (l : list A) :
  (forall x, In x l -> p x = true) -> filter p l = l.
Proof.
  induction l as [|x l IH]; intro H; simpl; [reflexivity|].
  rewrite (H x (or_introl eq_refl)). f_equal. apply IH.
  intros y Hy. apply H. right. exact Hy.
Qed.

Lemma Forall2_In_right {A B : Type} (R : A -> B -> Prop) (l : list A) (l' : list B) (y : B) :
  Forall2 R l l' -> In y l' -> exists x, In x l /\ R x y.
Proof.
  induction 1 as [|x y' l l' HR HF IH]; intro Hin; [destruct Hin|].
  destruct Hin as [->|Hin].
  - exists x. split; [left; reflexivity|exact HR].
  - destruct (IH Hin) as (x' & Hx & HR'). exists x'. split; [right; exact Hx|exact HR'].
Qed.

(** An order that was created can be read back: on tables whose order
    ids are unique and below a sequence that is within the range of the
    id column, a 201 response carries an id no order had, the tables
    stay that way, and the user who placed the order gets from
    [GET /api/orders/:id] the same order row with one item row per
    requested item, in whatever order the query returns them, each with
    its product, quantity, stored price and the catalog row of its
    product. *)
Theorem createOrder_then_getOrder
    (rowOrder : list OrdersRoute.ItemDetail -> list OrdersRoute.ItemDetail)
    (now : Z) (user : OrdersRoute.ReqUser)
    (body : OrdersRoute.CreateBody) (db db' : Db) (code : Z) (row : OrderRow) :
  (forall l, Permutation (rowOrder l) l) ->
  tablesOk db ->
  int4 (orders_id_seq db) = Some (orders_id_seq db) ->
  OrdersRoute.createOrder now (OrdersRoute.reqId user) body db
    = (db', OrdersRoute.Json code row) ->
  tablesOk db' /\
  orderId row = orders_id_seq db /\
  (forall o, In o (orders (tables db)) -> orderId o <> orderId row) /\
  exists its details arranged,
    OrdersRoute.items body = Some its /\
    OrdersRoute.getOrderRoute rowOrder user (OrdersRoute.IdInteger (orderId row)) db'
      = OrdersRoute.DetailJson row (OrdersRoute.customerOf row (tables db')) details /\
    Permutation arranged details /\
    Forall2 (fun i d =>
               storedItem (orderId row) i (OrdersRoute.detailItem d) /\
               exists p, OrdersRoute.detailProduct d = Some p /\
                         productId p = OrdersRoute.productId i)
      its arranged.
Proof.
  intros Hperm [Hu Ho Hi] Hrange Hc.
  destruct (BackendFacts.createOrder_created _ _ _ _ _ _ _ Hc)
    as (_ & its & addr & rows & Hits & _ & _ & Hown & _ & _ & _ & _ & Hord & Hitm & Hrows & _ & _).
  destruct (createOrder_sequences _ _ _ _ _ _ _ Hc) as (Hid & Hseq & Hprod).
  specialize (Hprod its Hits).
  assert (Hfresh : forall o, In o (orders (tables db)) -> orderId o <> orderId row).
  { intros o Hin. specialize (Ho o Hin). lia. }
  split; [|split; [exact Hid|split; [exact Hfresh|]]].
  - constructor; rewrite ?Hord, ?Hitm, ?Hseq.
    + rewrite map_app. simpl. apply NoDup_app; [exact Hu| |].
      * constructor; [intros []|constructor].
      * intros k Hk [<-|[]]. apply in_map_iff in Hk. destruct Hk as (o & Hok & Hin).
        apply (Hfresh o Hin). exact Hok.
    + intros o Hin. apply in_app_or in Hin. destruct Hin as [Hin|[<-|[]]].
      * specialize (Ho o Hin). lia.
      * lia.
    + intros i Hin. apply in_app_or in Hin. destruct Hin as [Hin|Hin].
      * specialize (Hi i Hin). lia.
      * destruct (Forall2_In_right _ _ _ _ Hrows Hin) as (x & _ & Hst & _). lia.
  - exists its.
    exists (rowOrder
              (map (fun oi => OrdersRoute.mkItemDetail oi
                      (find (fun p => productId p =? product_id oi) (products (tables db'))))
                 rows)).
    exists (map (fun oi => OrdersRoute.mkItemDetail oi
                   (find (fun p => productId p =? product_id oi) (products (tables db'))))
              rows).
    split; [exact Hits|]. split; [|split].
    + unfold OrdersRoute.getOrderRoute, OrdersRoute.boundId.
      rewrite Hid, Hrange, <- Hid.
      rewrite Hord, Hitm, !filter_app.
      rewrite (filter_none _ (orders (tables db)))
        by (intros o Hin; apply Z.eqb_neq, Hfresh, Hin).
      rewrite (filter_none _ (order_items (tables db)))
        by (intros i Hin; apply Z.eqb_neq; specialize (Hi i Hin); lia).
      rewrite (filter_every _ rows).
      * simpl. rewrite Z.eqb_refl. simpl.
        unfold OrdersRoute.notOwner, OrdersRoute.ownedBy. rewrite Hown, Z.eqb_refl.
        rewrite andb_false_r. reflexivity.
      * intros i Hin. destruct (Forall2_In_right _ _ _ _ Hrows Hin) as (x & _ & Hst & _).
        apply Z.eqb_eq, Hst.
    + symmetry. apply Hperm.
    + clear - Hrows Hprod.
      induction Hrows as [|i r its rows HR HF IH]; simpl; constructor.
      * simpl. split; [exact HR|].
        destruct HR as (_ & Hpid & _). rewrite Hpid.
        specialize (Hprod i (or_introl eq_refl)). unfold hasProduct in Hprod.
        apply existsb_exists in Hprod. destruct Hprod as (p & Hp & Heq).
        destruct (find (fun p0 => productId p0 =? OrdersRoute.productId i)
                    (products (tables db'))) as [q|] eqn:Eq.
        -- exists q. split; [reflexivity|]. apply find_some in Eq.
           apply Z.eqb_eq. tauto.
        -- apply (find_none _ _ Eq) in Hp. congruence.
      * apply IH. intros j Hj. apply Hprod. right. exact Hj.
Qed.

Lemma createOrder_then_getOrder_witness :
  (forall l : list OrdersRoute.ItemDetail, Permutation (rev l) l) /\
  tablesOk seedDb /\
  int4 (orders_id_seq seedDb) = Some (orders_id_seq seedDb) /\
  exists db' row details,
    OrdersRoute.createOrder 0 (OrdersRoute.reqId shopper) headphonesAndPots seedDb
      = (db', OrdersRoute.Json 201 row) /\
    orderId row = 1 /\
    OrdersRoute.getOrderRoute (@rev _) shopper (OrdersRoute.IdInteger 1) db'
      = OrdersRoute.DetailJson row (OrdersRoute.customerOf row (tables db')) details /\
    Permutation
      (map (fun d => (product_id (OrdersRoute.detailItem d),
                      quantity (OrdersRoute.detailItem d))) details)
      [(1, 1); (10, 2)] /\
    tablesOk db'.
Proof.
  assert (Hperm : forall l : list OrdersRoute.ItemDetail, Permutation (rev l) l)
    by (intro l; symmetry; apply Permutation_rev).
  split; [exact Hperm|].
  assert (Hok : tablesOk seedDb).
  { constructor; simpl; [constructor|intros o []|intros i []]. }
  split; [exact Hok|]. split; [reflexivity|].
  destruct (OrdersRoute.createOrder 0 (OrdersRoute.reqId shopper) headphonesAndPots seedDb)
    as [db' resp] eqn:E.
  destruct resp as [code row|code msg]; [|vm_compute in E; discriminate].
  assert (Hcode : code = 201) by (vm_compute in E; congruence).
  subst code.
  destruct (createOrder_then_getOrder (@rev _) 0 shopper headphonesAndPots seedDb db' 201
              row Hperm Hok eq_refl E)
    as (Hok' & Hid & _ & its & details & arranged & Hits & Hget & Harr & Hall).
  assert (Hone : orderId row = 1) by (rewrite Hid; reflexivity).
  rewrite Hone in Hget.
  exists db', row, details.
  split; [reflexivity|]. split; [exact Hone|].
  split; [exact Hget|]. split; [|exact Hok'].
  simpl in Hits. injection Hits as <-.
  inversion Hall as [|i1 d1 l1 l1' (Hs1 & _) Hall1]; subst.
  inversion Hall1 as [|i2 d2 l2 l2' (Hs2 & _) Hall2]; subst.
  inversion Hall2; subst.
  destruct Hs1 as (_ & Hp1 & Hq1 & _). destruct Hs2 as (_ & Hp2 & Hq2 & _).
  etransitivity; [apply Permutation_map; symmetry; exact Harr|].
  simpl. rewrite Hp1, Hq1, Hp2, Hq2. reflexivity.
Defined.

End BackendMore.

(** ** Reviews: moderation, votes and the product page *)

Module ReviewMore.
Import ReviewService ReviewSpec StoreSpec.

(** What [findIndex] by id finds: the first review with the id, and the
    array around it. *)
Lemma found_split (rid : Z) (l : list Review) (i : nat) :
  Js.findIndex (fun r => id r =? rid) l = Some i ->
  exists l1 r l2,
    l = l1 ++ r :: l2 /\ id r = rid /\ (forall x, In x l1 -> id x <> rid) /\
    nth_error l i = Some r /\
    (forall y, Js.setAt i y l = l1 ++ y :: l2) /\
    removeAt i l = l1 ++ l2.
Proof.
  revert i. induction l as [|x l IH]; intros i H; simpl in H; [discriminate|].
  destruct (id x =? rid) eqn:E.
  - injection H as <-. exists [], x, l. simpl.
    apply Z.eqb_eq in E. repeat split; auto.
  - destruct (Js.findIndex (fun r => id r =? rid) l) as [j|]; [|discriminate].
    injection H as <-.
    destruct (IH j eq_refl) as (l1 & r & l2 & -> & Hid & Hl1 & Hn & Hset & Hrem).
    exists (x :: l1), r, l2. simpl. repeat split; auto.
    + intros y [<-|Hy]; [apply Z.eqb_neq, E|apply Hl1, Hy].
    + intro y. rewrite Hset. reflexivity.
    + rewrite Hrem. reflexivity.
Qed.

Lemma findIndex_absent (rid : Z) (l : list Review) :
  Js.findIndex (fun r => id r =? rid) l = None <-> forall x, In x l -> id x <> rid.
Proof.
  induction l as [|x l IH]; simpl; [split; [intros _ x []|reflexivity]|].
  destruct (id x =? rid) eqn:E.
  - split; [discriminate|]. intro H. apply Z.eqb_eq in E.
    exfalso. apply (H x); auto.
  - apply Z.eqb_neq in E.
    destruct (Js.findIndex (fun r => id r =? rid) l) as [j|].
    + split; [discriminate|]. intro H. exfalso.
      assert (Hn : Some j = None) by (apply IH; intros z Hz; apply H; auto).
      discriminate.
    + split; [|reflexivity]. intros _ y [<-|Hy]; [exact E|].
      apply (proj1 IH eq_refl), Hy.
Qed.

(** With unique ids the review of an id is the one [findIndex] finds,
    and no other review carries the id. *)
Lemma found_unique (rid : Z) (l : list Review) (r : Review) :
  NoDup (map id l) -> In r l -> id r = rid ->
  exists i l1 l2,
    Js.findIndex (fun x => id x =? rid) l = Some i /\
    l = l1 ++ r :: l2 /\ nth_error l i = Some r /\
    (forall x, In x l1 -> id x <> rid) /\ (forall x, In x l2 -> id x <> rid) /\
    (forall y, Js.setAt i y l = l1 ++ y :: l2) /\
    removeAt i l = l1 ++ l2.
Proof.
  intros Hnd Hin Hid.
  destruct (Js.findIndex (fun x => id x =? rid) l) as [i|] eqn:Ei.
  - destruct (found_split rid l i Ei) as (l1 & r' & l2 & Hl & Hid' & Hl1 & Hn & Hset & Hrem).
    subst l. rewrite map_app in Hnd. simpl in Hnd.
    pose proof (NoDup_remove_2 _ _ _ Hnd) as Hfresh.
    assert (Hl2 : forall x, In x l2 -> id x <> rid).
    { intros x Hx Hx'. apply Hfresh. apply in_or_app. right.
      rewrite Hid', <- Hx'. apply in_map, Hx. }
    assert (r = r').
    { apply in_app_or in Hin. destruct Hin as [Hin|[Hin|Hin]]; auto.
      - exfalso. apply (Hl1 r Hin Hid).
      - exfalso. apply (Hl2 r Hin Hid). }
    subst r'. exists i, l1, l2. repeat split; auto.
  - exfalso. apply (proj1 (findIndex_absent rid l) Ei r Hin Hid).
Qed.

Lemma reviewStatus_eq (a b : ReviewStatus) : statusEqb a b = true <-> a = b.
Proof. destruct a, b; simpl; split; congruence. Qed.

Lemma isApprovedFor_iff (pid : Z) (r : Review) :
  isApprovedFor pid r = true <-> productId r = pid /\ status r = approved.
Proof.
  unfold isApprovedFor. rewrite andb_true_iff, Z.eqb_eq, reviewStatus_eq. tauto.
Qed.

Lemma In_getReviewsByProduct (pid : Z) (s : State) (x : Review) :
  In x (getReviewsByProduct pid s) <->
  In x (reviews s) /\ productId x = pid /\ status x = approved.
Proof.
  unfold getReviewsByProduct.
  rewrite SortFacts.In_sort_filter, isApprovedFor_iff. tauto.
Qed.

(** The average depends on the approved ratings only. *)
Lemma getAverageRating_ratings (pid : Z) (s s' : State) :
  map rating (filter (isApprovedFor pid) (reviews s'))
    = map rating (filter (isApprovedFor pid) (reviews s)) ->
  getAverageRating pid s' = getAverageRating pid s.
Proof.
  assert (Hfold : forall l a,
            fold_left (fun acc r => acc + rating r)%Q l a
            = fold_left Qplus (map rating l) a).
  { induction l as [|x l IH]; intro a; simpl; [reflexivity|apply IH]. }
  intro H. unfold getAverageRating.
  rewrite !Hfold.
  rewrite <- (length_map rating (filter (isApprovedFor pid) (reviews s'))).
  rewrite <- (length_map rating (filter (isApprovedFor pid) (reviews s))).
  rewrite H. reflexivity.
Qed.

Lemma reviewsOk_initial : reviewsOk initialState.
Proof.
  constructor.
  - simpl. repeat (constructor; [simpl; intuition discriminate|]). constructor.
  - intros r Hr. simpl in Hr.
    repeat (destruct Hr as [<-|Hr]; [reflexivity|]). destruct Hr.
Qed.

Lemma reviewsOk_replace (s : State) (l1 l2 : list Review) (r r' : Review) :
  reviewsOk s -> reviews s = l1 ++ r :: l2 -> id r' = id r ->
  reviewsOk (mkState (l1 ++ r' :: l2) (nextId s)).
Proof.
  intros [Hu Hi] Hl Hid. rewrite Hl in Hu, Hi. constructor; simpl.
  - rewrite map_app in *. simpl in *. rewrite Hid. exact Hu.
  - intros x Hx. apply in_app_or in Hx. destruct Hx as [Hx|[<-|Hx]].
    + apply Hi, in_or_app. auto.
    + rewrite Hid. apply Hi, in_or_app. right. left. reflexivity.
    + apply Hi, in_or_app. right. right. exact Hx.
Qed.

Lemma reviewsOk_remove (s : State) (l1 l2 : list Review) (r : Review) :
  reviewsOk s -> reviews s = l1 ++ r :: l2 ->
  reviewsOk (mkState (l1 ++ l2) (nextId s)).
Proof.
  intros [Hu Hi] Hl. rewrite Hl in Hu, Hi. constructor; simpl.
  - rewrite map_app in *. simpl in Hu. apply NoDup_remove_1 in Hu. exact Hu.
  - intros x Hx. apply Hi. apply in_app_or in Hx. apply in_or_app.
    destruct Hx; [left|right; right]; assumption.
Qed.

Lemma reviewsOk_run (c : Call) (s : State) : reviewsOk s -> reviewsOk (run c s).
Proof.
  intro Hok. destruct c as [now r|rid|rid st|rid]; simpl.
  - destruct Hok as [Hu Hi]. constructor; simpl.
    + rewrite map_app. simpl. apply NoDup_app; [exact Hu| |].
      * constructor; [intros []|constructor].
      * intros k Hk [<-|[]]. apply in_map_iff in Hk.
        destruct Hk as (x & Hx & Hin). specialize (Hi x Hin). lia.
    + intros x Hx. apply in_app_or in Hx. destruct Hx as [Hx|[<-|[]]].
      * specialize (Hi x Hx). lia.
      * simpl. lia.
  - unfold markHelpful, replaceFound.
    destruct (Js.findIndex (fun r => id r =? rid) (reviews s)) as [i|] eqn:Ei; [|exact Hok].
    destruct (found_split rid _ i Ei) as (l1 & r & l2 & Hl & _ & _ & Hn & Hset & _).
    rewrite Hn, Hset. simpl. apply (reviewsOk_replace s l1 l2 r); auto.
  - unfold updateReviewStatus, replaceFound.
    destruct (Js.findIndex (fun r => id r =? rid) (reviews s)) as [i|] eqn:Ei; [|exact Hok].
    destruct (found_split rid _ i Ei) as (l1 & r & l2 & Hl & _ & _ & Hn & Hset & _).
    rewrite Hn, Hset. simpl. apply (reviewsOk_replace s l1 l2 r); auto.
  - unfold deleteReview.
    destruct (Js.findIndex (fun r => id r =? rid) (reviews s)) as [i|] eqn:Ei; [|exact Hok].
    destruct (found_split rid _ i Ei) as (l1 & r & l2 & Hl & _ & _ & _ & _ & Hrem).
    simpl. rewrite Hrem. apply (reviewsOk_remove s l1 l2 r); auto.
Qed.

Lemma reachable_reviewsOk (s : State) : reachable s -> reviewsOk s.
Proof.
  induction 1 as [|c s Hr IH]; [apply reviewsOk_initial|apply reviewsOk_run, IH].
Qed.

(** What the reviews are after the review of an id was replaced. *)
Lemma In_replaced (rid : Z) (l1 l2 : list Review) (r r' x : Review) :
  id r = rid ->
  (forall y, In y l1 -> id y <> rid) -> (forall y, In y l2 -> id y <> rid) ->
  In x (l1 ++ r' :: l2) <-> x = r' \/ (In x (l1 ++ r :: l2) /\ id x <> rid).
Proof.
  intros Hid Hl1 Hl2. rewrite !in_app_iff. simpl. split.
  - intros [H|[H|H]].
    + right. split; [left; exact H|apply Hl1, H].
    + left. symmetry. exact H.
    + right. split; [right; right; exact H|apply Hl2, H].
  - intros [->|[[H|[<-|H]] Hne]]; auto. contradiction.
Qed.

Lemma In_removed (rid : Z) (l1 l2 : list Review) (r x : Review) :
  id r = rid ->
  (forall y, In y l1 -> id y <> rid) -> (forall y, In y l2 -> id y <> rid) ->
  In x (l1 ++ l2) <-> In x (l1 ++ r :: l2) /\ id x <> rid.
Proof.
  intros Hid Hl1 Hl2. rewrite !in_app_iff. simpl. split.
  - intros [H|H].
    + split; [left; exact H|apply Hl1, H].
    + split; [right; right; exact H|apply Hl2, H].
  - intros [[H|[<-|H]] Hne]; auto. contradiction.
Qed.

(** Review ids are never reused.  In every state the service can reach,
    the stored reviews carry pairwise different ids below the counter,
    and the id [submitReview] gives a new review is one no stored review
    has, also after reviews were deleted. *)
Theorem review_ids_fresh (s : State) :
  reachable s ->
  NoDup (map id (reviews s)) /\
  (forall x, In x (reviews s) -> id x < nextId s) /\
  forall now r, ~ In (id (snd (submitReview now r s))) (map id (reviews s)).
Proof.
  intro Hr. destruct (reachable_reviewsOk s Hr) as [Hu Hi].
  split; [exact Hu|]. split; [exact Hi|].
  intros now r Hin. simpl in Hin. apply in_map_iff in Hin.
  destruct Hin as (x & Hx & Hin). specialize (Hi x Hin). lia.
Qed.

Lemma review_ids_fresh_witness :
  reachable (run (DeleteReview 12) initialState) /\
  getTotalReviewCount (run (DeleteReview 12) initialState) = 11 /\
  id (snd (submitReview 0 fiveStars (run (DeleteReview 12) initialState))) = 13 /\
  ~ In 13 (map id (reviews (run (DeleteReview 12) initialState))).
Proof.
  assert (Hr : reachable (run (DeleteReview 12) initialState))
    by (apply reach_call, reach_init).
  split; [exact Hr|]. split; [reflexivity|]. split; [reflexivity|].
  destruct (review_ids_fresh _ Hr) as (_ & _ & Hfresh).
  exact (Hfresh 0 fiveStars).
Defined.

(** Moderation.  On a store with unique ids, [updateReviewStatus] with
    an id no review has answers 404 and changes nothing.  With the id of
    a review it returns that review with the new status, keeps the number
    of reviews and every other review, and the storefront list of a
    product afterwards holds the updated review exactly when the new
    status is approved and the product is the review's, next to the
    reviews it held before under other ids. *)
Theorem updateReviewStatus_moderation (rid : Z) (st : ReviewStatus) (s : State) :
  reviewsOk s ->
  ((forall x, In x (reviews s) -> id x <> rid) ->
   updateReviewStatus rid st s = (s, throwError ReviewNotFound404)) /\
  (forall r, In r (reviews s) -> id r = rid ->
   exists s',
     updateReviewStatus rid st s = (s', ofValue (withStatus st r)) /\
     nextId s' = nextId s /\
     getTotalReviewCount s' = getTotalReviewCount s /\
     (forall x, In x (reviews s') <->
                x = withStatus st r \/ (In x (reviews s) /\ id x <> rid)) /\
     (forall pid x, In x (getReviewsByProduct pid s') <->
                    (x = withStatus st r /\ st = approved /\ productId r = pid) \/
                    (In x (getReviewsByProduct pid s) /\ id x <> rid)) /\
     reviewsOk s').
Proof.
  intro Hok. split.
  - intro Habs. unfold updateReviewStatus, replaceFound.
    rewrite (proj2 (findIndex_absent rid (reviews s)) Habs). reflexivity.
  - intros r Hin Hid.
    destruct (found_unique rid _ r (rv_unique _ Hok) Hin Hid)
      as (i & l1 & l2 & Ei & Hl & Hn & Hl1 & Hl2 & Hset & _).
    exists (mkState (l1 ++ withStatus st r :: l2) (nextId s)).
    unfold updateReviewStatus, replaceFound. rewrite Ei, Hn, Hset.
    split; [reflexivity|]. split; [reflexivity|].
    split; [unfold getTotalReviewCount; simpl; rewrite Hl, !length_app; reflexivity|].
    assert (Hmem : forall x, In x (l1 ++ withStatus st r :: l2) <->
                             x = withStatus st r \/ (In x (reviews s) /\ id x <> rid)).
    { intro x. rewrite Hl. apply In_replaced; assumption. }
    split; [exact Hmem|]. split.
    + intros pid x. rewrite !In_getReviewsByProduct. cbn [reviews]. rewrite Hmem. split.
      * intros [[->|[Hx Hne]] [Hp Hs]]; [left|right]; auto.
      * intros [(-> & -> & <-)|[(Hx & Hp & Hs) Hne]]; auto.
    + apply (reviewsOk_replace s l1 l2 r); auto.
Qed.

Lemma updateReviewStatus_moderation_witness :
  reviewsOk initialState /\
  getReviewCount 2 initialState = 2 /\
  getReviewCount 2 (fst (updateReviewStatus 12 approved initialState)) = 3 /\
  getReviewCount 2 (fst (updateReviewStatus 4 rejected initialState)) = 1 /\
  (exists s' r, updateReviewStatus 4 rejected initialState = (s', ofValue r) /\
     status r = rejected /\
     forall x, In x (getReviewsByProduct 2 s') <->
               In x (getReviewsByProduct 2 initialState) /\ id x <> 4) /\
  updateReviewStatus 99 rejected initialState = (initialState, throwError ReviewNotFound404).
Proof.
  pose proof reviewsOk_initial as Hok.
  split; [exact Hok|]. split; [reflexivity|]. split; [reflexivity|].
  split; [reflexivity|].
  destruct (updateReviewStatus_moderation 4 rejected initialState Hok) as (_ & Hupd).
  destruct (updateReviewStatus_moderation 99 rejected initialState Hok) as (Habs & _).
  split.
  - destruct (nth_error SEED_REVIEWS 3) as [r|] eqn:Er; [|discriminate].
    pose proof (nth_error_In _ _ Er) as Hin.
    simpl in Er. injection Er as Hr.
    destruct (Hupd r) as (s' & He & _ & _ & _ & Hlist & _).
    + exact Hin.
    + rewrite <- Hr. reflexivity.
    + exists s'. eexists. split; [exact He|]. split; [reflexivity|].
      intro x. rewrite Hlist. split.
      * intros [(_ & Hs & _)|H]; [discriminate|exact H].
      * intro H. right. exact H.
  - apply Habs. intros x Hx. simpl in Hx.
    repeat (destruct Hx as [<-|Hx]; [discriminate|]). destruct Hx.
Defined.

(** Votes.  On a store with unique ids, [markHelpful] with an id no
    review has answers 404 and changes nothing.  With the id of a review
    it returns that review with one vote more, whatever the review's
    status, and keeps every other review; for every product the average
    rating, the number of approved reviews and the answers of
    [hasUserReviewed] stay what they were, and so does the number of
    pending reviews. *)
Theorem markHelpful_effects (rid : Z) (s : State) :
  reviewsOk s ->
  ((forall x, In x (reviews s) -> id x <> rid) ->
   markHelpful rid s = (s, throwError ReviewNotFound404)) /\
  (forall r, In r (reviews s) -> id r = rid ->
   exists s' r',
     markHelpful rid s = (s', ofValue r') /\
     r' = withHelpful (helpful r + 1) r /\
     helpful r' = helpful r + 1 /\
     (forall x, In x (reviews s') <-> x = r' \/ (In x (reviews s) /\ id x <> rid)) /\
     (forall pid, getAverageRating pid s' = getAverageRating pid s /\
                  getReviewCount pid s' = getReviewCount pid s) /\
     (forall pid uid, hasUserReviewed pid uid s' = hasUserReviewed pid uid s) /\
     getPendingCount s' = getPendingCount s /\
     reviewsOk s').
Proof.
  intro Hok. split.
  - intro Habs. unfold markHelpful, replaceFound.
    rewrite (proj2 (findIndex_absent rid (reviews s)) Habs). reflexivity.
  - intros r Hin Hid.
    destruct (found_unique rid _ r (rv_unique _ Hok) Hin Hid)
      as (i & l1 & l2 & Ei & Hl & Hn & Hl1 & Hl2 & Hset & _).
    exists (mkState (l1 ++ withHelpful (helpful r + 1) r :: l2) (nextId s)),
           (withHelpful (helpful r + 1) r).
    unfold markHelpful, replaceFound. rewrite Ei, Hn, Hset.
    split; [reflexivity|]. split; [reflexivity|]. split; [reflexivity|].
    split; [intro x; cbn [reviews]; rewrite Hl; apply In_replaced; assumption|].
    assert (Hfil : forall pid,
              map rating (filter (isApprovedFor pid) (l1 ++ withHelpful (helpful r + 1) r :: l2))
              = map rating (filter (isApprovedFor pid) (reviews s))).
    { intro pid. rewrite Hl, !filter_app, !map_app. f_equal. simpl.
      change (isApprovedFor pid (withHelpful (helpful r + 1) r))
        with (isApprovedFor pid r).
      destruct (isApprovedFor pid r); reflexivity. }
    split; [|split; [|split]].
    + intro pid. split.
      * apply getAverageRating_ratings. apply Hfil.
      * unfold getReviewCount. cbn [reviews].
        rewrite <- (length_map rating), Hfil, length_map. reflexivity.
    + intros pid uid. unfold hasUserReviewed. cbn [reviews].
      rewrite Hl, !existsb_app. reflexivity.
    + unfold getPendingCount. cbn [reviews]. rewrite Hl, !filter_app, !length_app.
      simpl. change (status (withHelpful (helpful r + 1) r)) with (status r).
      destruct (statusEqb (status r) pending); reflexivity.
    + apply (reviewsOk_replace s l1 l2 r); auto.
Qed.

Lemma markHelpful_effects_witness :
  reviewsOk initialState /\
  (exists s' r', markHelpful 12 initialState = (s', ofValue r') /\
     status r' = pending /\ helpful r' = 1 /\
     getAverageRating 2 s' = getAverageRating 2 initialState /\
     getReviewCount 2 s' = 2) /\
  markHelpful 99 initialState = (initialState, throwError ReviewNotFound404).
Proof.
  pose proof reviewsOk_initial as Hok.
  destruct (markHelpful_effects 12 initialState Hok) as (_ & Hup).
  destruct (markHelpful_effects 99 initialState Hok) as (Habs & _).
  split; [exact Hok|]. split.
  - destruct (nth_error SEED_REVIEWS 11) as [r|] eqn:Er; [|discriminate].
    pose proof (nth_error_In _ _ Er) as Hin.
    simpl in Er. injection Er as Hr.
    destruct (Hup r) as (s' & r' & He & Hr' & Hh & _ & Hav & _).
    + exact Hin.
    + rewrite <- Hr. reflexivity.
    + exists s', r'. split; [exact He|].
      split; [rewrite Hr', <- Hr; reflexivity|].
      split; [rewrite Hh, <- Hr; reflexivity|].
      destruct (Hav 2) as [Ha Hc]. split; [exact Ha|]. rewrite Hc. reflexivity.
  - apply Habs. intros x Hx. simpl in Hx.
    repeat (destruct Hx as [<-|Hx]; [discriminate|]). destruct Hx.
Defined.

(** Deletion.  On a store with unique ids, [deleteReview] with an id no
    review has answers 404 and changes nothing.  With the id of a review
    it removes that review and no other: one review less, the storefront
    lists lose the review and keep the rest, the id counter stays, and a
    second deletion of the same id answers 404. *)
Theorem deleteReview_effects (rid : Z) (s : State) :
  reviewsOk s ->
  ((forall x, In x (reviews s) -> id x <> rid) ->
   deleteReview rid s = (s, throwError ReviewNotFound404)) /\
  (forall r, In r (reviews s) -> id r = rid ->
   exists s',
     deleteReview rid s = (s', ofValue tt) /\
     nextId s' = nextId s /\
     getTotalReviewCount s' = getTotalReviewCount s - 1 /\
     (forall x, In x (reviews s') <-> In x (reviews s) /\ id x <> rid) /\
     (forall pid x, In x (getReviewsByProduct pid s') <->
                    In x (getReviewsByProduct pid s) /\ id x <> rid) /\
     reviewsOk s' /\
     deleteReview rid s' = (s', throwError ReviewNotFound404)).
Proof.
  intro Hok. split.
  - intro Habs. unfold deleteReview.
    rewrite (proj2 (findIndex_absent rid (reviews s)) Habs). reflexivity.
  - intros r Hin Hid.
    destruct (found_unique rid _ r (rv_unique _ Hok) Hin Hid)
      as (i & l1 & l2 & Ei & Hl & Hn & Hl1 & Hl2 & _ & Hrem).
    exists (mkState (l1 ++ l2) (nextId s)).
    assert (Hmem : forall x, In x (l1 ++ l2) <-> In x (reviews s) /\ id x <> rid).
    { intro x. rewrite Hl. apply (In_removed rid l1 l2 r); assumption. }
    unfold deleteReview at 1. rewrite Ei, Hrem.
    split; [reflexivity|]. split; [reflexivity|]. split.
    { unfold getTotalReviewCount. cbn [reviews]. rewrite Hl, !length_app.
      cbn [List.length]. lia. }
    split; [exact Hmem|]. split.
    { intros pid x. rewrite !In_getReviewsByProduct. cbn [reviews]. rewrite Hmem. tauto. }
    split; [apply (reviewsOk_remove s l1 l2 r); auto|].
    unfold deleteReview. cbn [reviews].
    rewrite (proj2 (findIndex_absent rid (l1 ++ l2))); [reflexivity|].
    intros x Hx. apply Hmem in Hx. tauto.
Qed.

Lemma deleteReview_effects_witness :
  reviewsOk initialState /\
  (exists s', deleteReview 6 initialState = (s', ofValue tt) /\
     getTotalReviewCount s' = 11 /\ getReviewsByProduct 3 s' = [] /\
     getAverageRating 3 s' = 0%Q /\
     deleteReview 6 s' = (s', throwError ReviewNotFound404)) /\
  deleteReview 99 initialState = (initialState, throwError ReviewNotFound404).
Proof.
  pose proof reviewsOk_initial as Hok.
  destruct (deleteReview_effects 6 initialState Hok) as (_ & Hdel).
  destruct (deleteReview_effects 99 initialState Hok) as (Habs & _).
  split; [exact Hok|]. split.
  - destruct (nth_error SEED_REVIEWS 5) as [r|] eqn:Er; [|discriminate].
    pose proof (nth_error_In _ _ Er) as Hin.
    simpl in Er. injection Er as Hr.
    destruct (Hdel r) as (s' & He & _ & Hc & _ & _ & _ & Hagain).
    + exact Hin.
    + rewrite <- Hr. reflexivity.
    + exists s'. split; [exact He|]. split; [rewrite Hc; reflexivity|].
      assert (Hs : s' = fst (deleteReview 6 initialState)) by (rewrite He; reflexivity).
      split; [rewrite Hs; reflexivity|]. split; [rewrite Hs; reflexivity|exact Hagain].
  - apply Habs. intros x Hx. simpl in Hx.
    repeat (destruct Hx as [<-|Hx]; [discriminate|]). destruct Hx.
Defined.

(** Submission.  [submitReview] never refuses: whatever the store holds,
    also a review of the same user for the same product, the new review
    gets the counter as id, is approved at once and is on the product's
    storefront list; the product has one approved review more and the
    user counts as having reviewed it; the list of pending reviews stays
    as it was, and the count and average of every other product too. *)
Theorem submitReview_effects (now : Z) (r : NewReview) (s : State) :
  id (snd (submitReview now r s)) = nextId s /\
  status (snd (submitReview now r s)) = approved /\
  helpful (snd (submitReview now r s)) = 0 /\
  nextId (fst (submitReview now r s)) = nextId s + 1 /\
  In (snd (submitReview now r s))
     (getReviewsByProduct (newProductId r) (fst (submitReview now r s))) /\
  getReviewCount (newProductId r) (fst (submitReview now r s))
    = getReviewCount (newProductId r) s + 1 /\
  hasUserReviewed (newProductId r) (newUserId r) (fst (submitReview now r s)) = true /\
  getPendingReviews (fst (submitReview now r s)) = getPendingReviews s /\
  getTotalReviewCount (fst (submitReview now r s)) = getTotalReviewCount s + 1 /\
  forall pid, pid <> newProductId r ->
    getReviewCount pid (fst (submitReview now r s)) = getReviewCount pid s /\
    getAverageRating pid (fst (submitReview now r s)) = getAverageRating pid s.
Proof.
  cbn [submitReview fst snd id status helpful nextId].
  repeat (split; [reflexivity|]).
  split; [|split; [|split; [|split; [|split]]]].
  - apply In_getReviewsByProduct. cbn [reviews productId status].
    split; [apply in_or_app; right; left; reflexivity|auto].
  - unfold getReviewCount. cbn [reviews]. rewrite filter_app, length_app.
    cbn [filter]. unfold isApprovedFor at 2. cbn [productId status statusEqb].
    rewrite Z.eqb_refl. cbn [andb List.length]. lia.
  - unfold hasUserReviewed. cbn [reviews]. rewrite existsb_app.
    cbn [existsb productId userId]. rewrite !Z.eqb_refl.
    cbn [andb orb]. apply orb_true_r.
  - unfold getPendingReviews. cbn [reviews]. rewrite filter_app.
    cbn [filter status statusEqb]. apply app_nil_r.
  - unfold getTotalReviewCount. cbn [reviews]. rewrite length_app.
    cbn [List.length]. lia.
  - intros pid Hne.
    assert (Hf : filter (isApprovedFor pid)
                   (reviews s ++
                    [mkReview (nextId s) (newProductId r) (newUserId r) (newUserName r)
                       (newRating r) (newTitle r) (newComment r) (Some now) 0 approved])
                 = filter (isApprovedFor pid) (reviews s)).
    { rewrite filter_app. cbn [filter]. unfold isApprovedFor at 2. cbn [productId].
      rewrite (proj2 (Z.eqb_neq _ _)) by congruence. cbn [andb]. apply app_nil_r. }
    split.
    + unfold getReviewCount. cbn [reviews]. rewrite Hf. reflexivity.
    + apply getAverageRating_ratings. cbn [reviews]. rewrite Hf. reflexivity.
Qed.

Lemma submitReview_effects_witness :
  hasUserReviewed 1 998 initialState = true /\
  getReviewCount 1 (fst (submitReview 0 (mkNewReview 1 998 "Demo U." 1 "Again" "Twice.")
                           initialState)) = 4 /\
  getPendingCount (fst (submitReview 0 (mkNewReview 1 998 "Demo U." 1 "Again" "Twice.")
                          initialState)) = 1 /\
  getReviewCount 2 (fst (submitReview 0 (mkNewReview 1 998 "Demo U." 1 "Again" "Twice.")
                           initialState)) = 2.
Proof.
  destruct (submitReview_effects 0 (mkNewReview 1 998 "Demo U." 1 "Again" "Twice.")
              initialState) as (_ & _ & _ & _ & _ & Hc & _ & _ & _ & Hother).
  split; [reflexivity|].
  split; [etransitivity; [exact Hc|reflexivity]|]. split; [reflexivity|].
  destruct (Hother 2) as [H _]; [discriminate|].
  etransitivity; [exact H|reflexivity].
Defined.

Lemma review_byNewest_total (x y : Review) :
  createdAt x <> None -> createdAt y <> None ->
  byNewest x y = true \/ byNewest y x = true.
Proof.
  unfold byNewest, Js.timeDesc, Js.timeAsc.
  destruct (createdAt x), (createdAt y); try tauto.
  intros _ _. rewrite !Z.leb_le. lia.
Qed.

Lemma review_byNewest_trans (x y z : Review) :
  createdAt x <> None -> createdAt y <> None -> createdAt z <> None ->
  byNewest x y = true -> byNewest y z = true -> byNewest x z = true.
Proof.
  unfold byNewest, Js.timeDesc, Js.timeAsc.
  destruct (createdAt x), (createdAt y), (createdAt z); try tauto.
  intros _ _ _. rewrite !Z.leb_le. lia.
Qed.

Lemma review_noOlder (x y : Review) : byNewest x y = true -> noOlderReview x y.
Proof.
  unfold byNewest, Js.timeDesc, Js.timeAsc, noOlderReview.
  destruct (createdAt x), (createdAt y); auto. rewrite Z.leb_le. lia.
Qed.

Lemma reviews_sorted_newest (l : list Review) :
  (forall r, In r l -> createdAt r <> None) ->
  StronglySorted noOlderReview (Js.sort byNewest l).
Proof.
  intro Hv.
  apply (AuctionMore.StronglySorted_weaken (fun a b => byNewest a b = true)).
  - intros x y _ _. apply review_noOlder.
  - apply (SortFacts.sort_sorted _ (fun r => createdAt r <> None)).
    + apply review_byNewest_total.
    + apply review_byNewest_trans.
    + rewrite Forall_forall. exact Hv.
Qed.

(** Every review the service holds carries a valid date. *)
Lemma reachable_dates (s : State) :
  reachable s -> forall r, In r (reviews s) -> createdAt r <> None.
Proof.
  induction 1 as [|c s Hr IH].
  - intros r Hin. simpl in Hin.
    repeat (destruct Hin as [<-|Hin]; [discriminate|]). destruct Hin.
  - destruct c as [now r|rid|rid st|rid]; simpl.
    + intros x Hx. apply in_app_or in Hx. destruct Hx as [Hx|[<-|[]]];
        [apply IH, Hx|discriminate].
    + unfold markHelpful, replaceFound.
      destruct (Js.findIndex (fun r => id r =? rid) (reviews s)) as [i|] eqn:Ei; [|exact IH].
      destruct (found_split rid _ i Ei) as (l1 & r & l2 & Hl & _ & _ & Hn & Hset & _).
      rewrite Hn, Hset. simpl. intros x Hx. rewrite Hl in IH.
      apply in_app_or in Hx. destruct Hx as [Hx|[<-|Hx]].
      * apply IH, in_or_app. auto.
      * apply (IH r), in_or_app. right. left. reflexivity.
      * apply IH, in_or_app. right. right. exact Hx.
    + unfold updateReviewStatus, replaceFound.
      destruct (Js.findIndex (fun r => id r =? rid) (reviews s)) as [i|] eqn:Ei; [|exact IH].
      destruct (found_split rid _ i Ei) as (l1 & r & l2 & Hl & _ & _ & Hn & Hset & _).
      rewrite Hn, Hset. simpl. intros x Hx. rewrite Hl in IH.
      apply in_app_or in Hx. destruct Hx as [Hx|[<-|Hx]].
      * apply IH, in_or_app. auto.
      * apply (IH r), in_or_app. right. left. reflexivity.
      * apply IH, in_or_app. right. right. exact Hx.
    + unfold deleteReview.
      destruct (Js.findIndex (fun r => id r =? rid) (reviews s)) as [i|] eqn:Ei; [|exact IH].
      destruct (found_split rid _ i Ei) as (l1 & r & l2 & Hl & _ & _ & _ & _ & Hrem).
      simpl. rewrite Hrem. intros x Hx. rewrite Hl in IH. apply IH.
      apply in_app_or in Hx. apply in_or_app.
      destruct Hx; [left|right; right]; assumption.
Qed.

(** The review lists.  In every state the service can reach, the
    storefront list of a product holds exactly the product's approved
    reviews and the administrator's list all reviews of the product,
    [getAllReviews] is a rearrangement of the store, and all three run
    from the newest review to the oldest; the pending list holds exactly
    the pending reviews.  The product page shows as count the number
    [getReviewCount] gives. *)
Theorem review_lists (s : State) (pid : Z) :
  reachable s ->
  (forall x, In x (getReviewsByProduct pid s) <->
             In x (reviews s) /\ productId x = pid /\ status x = approved) /\
  StronglySorted noOlderReview (getReviewsByProduct pid s) /\
  (forall x, In x (getReviewsByProductAdmin pid s) <->
             In x (reviews s) /\ productId x = pid) /\
  StronglySorted noOlderReview (getReviewsByProductAdmin pid s) /\
  Permutation (getAllReviews s) (reviews s) /\
  StronglySorted noOlderReview (getAllReviews s) /\
  (forall x, In x (getPendingReviews s) <-> In x (reviews s) /\ status x = pending) /\
  Z.of_nat (List.length (getPendingReviews s)) = getPendingCount s /\
  ProductDetail.loadReviews pid s
    = (getReviewsByProduct pid s, getReviewCount pid s, getAverageRating pid s).
Proof.
  intro Hr. pose proof (reachable_dates s Hr) as Hv.
  split; [apply In_getReviewsByProduct|].
  split; [apply reviews_sorted_newest; intros r Hin; apply filter_In in Hin; apply Hv; tauto|].
  split; [intro x; unfold getReviewsByProductAdmin;
          rewrite SortFacts.In_sort_filter, Z.eqb_eq; tauto|].
  split; [apply reviews_sorted_newest; intros r Hin; apply filter_In in Hin; apply Hv; tauto|].
  split; [apply SortFacts.sort_perm|].
  split; [apply reviews_sorted_newest, Hv|].
  split; [intro x; unfold getPendingReviews; rewrite filter_In, reviewStatus_eq; tauto|].
  split; [reflexivity|].
  unfold ProductDetail.loadReviews, getReviewsByProduct, getReviewCount.
  rewrite SortFacts.sort_length. reflexivity.
Qed.

Lemma review_lists_witness :
  reachable (run (UpdateReviewStatus 12 approved) initialState) /\
  map id (getReviewsByProduct 2 (run (UpdateReviewStatus 12 approved) initialState))
    = [12; 4; 5] /\
  StronglySorted noOlderReview
    (getReviewsByProduct 2 (run (UpdateReviewStatus 12 approved) initialState)) /\
  snd (fst (ProductDetail.loadReviews 2 (run (UpdateReviewStatus 12 approved) initialState)))
    = 3.
Proof.
  assert (Hr : reachable (run (UpdateReviewStatus 12 approved) initialState))
    by (apply reach_call, reach_init).
  destruct (review_lists _ 2 Hr) as (_ & Hs & _ & _ & _ & _ & _ & _ & Hl).
  split; [exact Hr|]. split; [reflexivity|]. split; [exact Hs|].
  rewrite Hl. reflexivity.
Defined.




Ltac star_cases :=
  repeat match goal with
  | |- context [Qle_bool ?a ?b] =>
      let E := fresh "E" in
      destruct (Qle_bool a b) eqn:E;
      [apply Qle_bool_iff in E
      |apply not_true_iff_false in E; rewrite Qle_bool_iff in E; apply Qnot_le_lt in E];
      unfold inject_Z in E; try (exfalso; lra)
  end.

Ltac star_row f h :=
  exists f, h;
  split; [lia|]; split; [lia|]; split; [reflexivity|];
  unfold shownStars; cbn [Z.of_nat Pos.of_succ_nat Pos.succ]; unfold inject_Z;
  repeat split; intros; try reflexivity; try lra; try (exfalso; lra).

(** The star row of a rating is a run of full stars, then at most one
    half star, then empty stars, five in all.  It shows the rating
    rounded down to a half star: for a rating from 0 up to 5 the shown
    number is at most the rating and less than half a star below it; a
    rating of 5 or more shows five full stars and a negative one none. *)
Theorem getStars_row (rating : Q) :
  exists full half : nat,
    (half <= 1)%nat /\ (full + half <= 5)%nat /\
    ProductDetail.getStars rating = starRow full half /\
    ((0 <= rating)%Q -> (rating < 5)%Q ->
       (shownStars full half <= rating)%Q /\ (rating < shownStars full half + (1 # 2))%Q) /\
    ((5 <= rating)%Q -> full = 5%nat /\ half = 0%nat) /\
    ((rating < 0)%Q -> full = 0%nat /\ half = 0%nat).
Proof.
  unfold ProductDetail.getStars. cbn [map].
  star_cases;
    first [ solve [star_row 0%nat 0%nat] | solve [star_row 0%nat 1%nat]
          | solve [star_row 1%nat 0%nat] | solve [star_row 1%nat 1%nat]
          | solve [star_row 2%nat 0%nat] | solve [star_row 2%nat 1%nat]
          | solve [star_row 3%nat 0%nat] | solve [star_row 3%nat 1%nat]
          | solve [star_row 4%nat 0%nat] | solve [star_row 4%nat 1%nat]
          | solve [star_row 5%nat 0%nat] ].
Qed.

Lemma getStars_row_witness :
  ProductDetail.getStars (getAverageRating 1 initialState)
    = ["full"; "full"; "full"; "full"; "empty"]%string /\
  ProductDetail.getStars (getAverageRating 2 initialState)
    = ["full"; "full"; "full"; "full"; "half"]%string /\
  exists full half : nat,
    ProductDetail.getStars (getAverageRating 2 initialState) = starRow full half /\
    (shownStars full half <= getAverageRating 2 initialState)%Q.
Proof.
  split; [reflexivity|]. split; [reflexivity|].
  destruct (getStars_row (getAverageRating 2 initialState))
    as (full & half & _ & _ & Hrow & Hshown & _).
  exists full, half. split; [exact Hrow|].
  apply Hshown; [vm_compute; discriminate|vm_compute; reflexivity].
Defined.

Lemma click_bounds (stock : option Z) (c : Click) (q : Z) :
  1 <= q ->
  1 <= click stock q c /\
  (forall st, stock = Some st -> q <= Z.max 1 st -> click stock q c <= Z.max 1 st) /\
  (stock = None -> click stock q c <= q).
Proof.
  intro Hq. destruct c; simpl;
    unfold ProductDetail.incrementQuantity, ProductDetail.decrementQuantity.
  - destruct stock as [st|].
    + destruct (q <? st) eqn:E.
      * apply Z.ltb_lt in E. split; [lia|]. split; [|discriminate].
        intros st' H. injection H as <-. lia.
      * split; [lia|]. split; [|discriminate]. intros st' _ H. exact H.
    + split; [lia|]. split; [discriminate|]. intros _. lia.
  - destruct (q >? 1) eqn:E.
    + rewrite Z.gtb_ltb in E. apply Z.ltb_lt in E. split; [lia|].
      split; intros; lia.
    + split; [lia|]. split; intros; lia.
Qed.

(** The quantity selector.  Whatever buttons are clicked, a quantity
    that starts at 1 or more never drops below 1; with a product loaded
    it never passes the stock, or 1 for a product out of stock, and
    without a product it never grows. *)
Theorem quantity_bounds (stock : option Z) (cs : list Click) (q : Z) :
  1 <= q ->
  1 <= clicks stock cs q /\
  (forall st, stock = Some st -> q <= Z.max 1 st -> clicks stock cs q <= Z.max 1 st) /\
  (stock = None -> clicks stock cs q <= q).
Proof.
  revert q. induction cs as [|c cs IH]; intros q Hq.
  - simpl. split; [exact Hq|]. split; intros; lia.
  - destruct (click_bounds stock c q Hq) as (H1 & H2 & H3).
    destruct (IH (click stock q c) H1) as (I1 & I2 & I3).
    unfold clicks in *. cbn [fold_left].
    split; [exact I1|]. split.
    + intros st Hs Hle. apply (I2 st Hs). apply (H2 st Hs Hle).
    + intro Hs. specialize (I3 Hs). specialize (H3 Hs). lia.
Qed.

Lemma quantity_bounds_witness :
  clicks (Some 3) [Plus; Plus; Plus; Plus; Minus] 1 = 2 /\
  clicks (Some 0) [Plus; Minus; Plus] 1 = 1 /\
  1 <= clicks (Some 3) [Plus; Plus; Plus; Plus] 1 <= 3.
Proof.
  split; [reflexivity|]. split; [reflexivity|].
  destruct (quantity_bounds (Some 3) [Plus; Plus; Plus; Plus] 1) as (H1 & H2 & _);
    [lia|].
  split; [exact H1|]. apply (H2 3); [reflexivity|lia].
Defined.

End ReviewMore.
